(** * A shallow embedding of the transactional views of the T.O.B.I backend

    Source: [core/models.py] and [core/views.py] (Django + DRF).

    Modelling conventions.
    - Every Django model becomes a record; every table is a list of rows.
      New rows are put at the head of the list; the order of a table is
      never observed by the views modelled here.
    - [DecimalField] values are Python [Decimal]s; they are modelled exactly
      as rationals [Q]; [Decimal] comparisons are numeric, hence [Qeq_bool],
      [Qle_bool], [Qlt_bool]. A view computes on the unrounded values of the
      instances it holds; the database stores a [decimal_places=2] column
      quantised to two places, rounding half to even ([quantize2]). This is
      modelled for the investment columns, where the views write values with
      more places (60% of a cost price, a top-up [Decimal] taken from the
      request). The other decimal columns receive values read from two-place
      columns, or their sums, differences and whole multiples, which are
      already two-place, except the 10% commission; its amount is kept
      unrounded. The [max_digits] bound is not modelled: the investment
      amounts written stay within a cent of the listing's cost price, itself
      a column of the same size.
    - [DateField] values are days ([Z]); [DateTimeField] values are seconds
      ([Z]); [timedelta(days=365)] is [365 * 86400] seconds.
    - Text choices (roles, statuses, plans, property types) are strings, as
      in the source.
    - A view runs in a state and exception monad [M]. Django runs in
      autocommit mode (no [transaction.atomic] anywhere in the source), so a
      row saved before an exception stays saved: an exception keeps the
      store reached at the point where it was raised. *)

From Stdlib Require Import String List ZArith QArith Bool Lia Lqa.
Import ListNotations.

Open Scope string_scope.

(** ** Data model ([core/models.py]) *)

Record User := mkUser {
  user_id : nat;
  email : string;
  role : string;                          (* "CUSTOMER" | "AGENT" | "INVESTOR" | "ADMIN" *)
  is_verified : bool;
  membership_tier : option string;        (* 'Gold' or 'Platinum' *)
  membership_expires_at : option Z;
  shortlet_credit : Q
}.

Record Property := mkProperty {
  property_id : nat;
  agent : nat;
  price : Q;
  property_type : string;                 (* 'shortlet' | 'investment' | 'sale' *)
  cost_price : option Q;
  is_approved : bool
}.

Record Booking := mkBooking {
  booking_id : nat;
  booking_user : nat;
  booking_property : nat;
  start_date : Z;
  end_date : Z;
  total_price : Q;
  is_cancelled : bool;
  is_paid : bool;
  booking_tx_ref : option string
}.

Record Commission := mkCommission {
  commission_id : nat;
  commission_agent : nat;
  commission_booking : nat;               (* OneToOneField(Booking) *)
  commission_amount : Q
}.

Record Gift := mkGift {
  gift_id : nat;
  sender : nat;
  recipient_email : string;
  recipient_user : option nat;
  gift_property : nat;
  gift_status : string;                   (* 'pending' | 'accepted' | 'declined' | 'expired' *)
  expires_at : option Z;
  reassigned_to : option nat;
  converted_to_credit : bool
}.

Record Investment := mkInvestment {
  investment_id : nat;
  investor : nat;
  investment_property : nat;
  payment_plan : string;                  (* 'full' | 'installment' *)
  investment_total_price : Q;
  amount_paid : Q;
  remaining_balance : Q;
  investment_status : string;             (* 'active' | 'completed' *)
  investment_tx_ref : option string
}.

Record RefundLog := mkRefundLog {
  refund_user : nat;
  refund_amount : Q;
  refund_reason : string
}.

Record DB := mkDB {
  users : list User;
  properties : list Property;
  bookings : list Booking;
  commissions : list Commission;
  gifts : list Gift;
  investments : list Investment;
  refund_logs : list RefundLog
}.

(** Table setters. *)
Definition set_users (l : list User) (db : DB) : DB :=
  mkDB l (properties db) (bookings db) (commissions db) (gifts db) (investments db) (refund_logs db).
Definition set_properties (l : list Property) (db : DB) : DB :=
  mkDB (users db) l (bookings db) (commissions db) (gifts db) (investments db) (refund_logs db).
Definition set_bookings (l : list Booking) (db : DB) : DB :=
  mkDB (users db) (properties db) l (commissions db) (gifts db) (investments db) (refund_logs db).
Definition set_commissions (l : list Commission) (db : DB) : DB :=
  mkDB (users db) (properties db) (bookings db) l (gifts db) (investments db) (refund_logs db).
Definition set_gifts (l : list Gift) (db : DB) : DB :=
  mkDB (users db) (properties db) (bookings db) (commissions db) l (investments db) (refund_logs db).
Definition set_investments (l : list Investment) (db : DB) : DB :=
  mkDB (users db) (properties db) (bookings db) (commissions db) (gifts db) l (refund_logs db).
Definition set_refund_logs (l : list RefundLog) (db : DB) : DB :=
  mkDB (users db) (properties db) (bookings db) (commissions db) (gifts db) (investments db) l.

(** Field assignments [obj.field = value] on the in-memory objects. *)
Definition user_set_credit (u : User) (c : Q) : User :=
  mkUser (user_id u) (email u) (role u) (is_verified u) (membership_tier u)
         (membership_expires_at u) c.
Definition user_set_membership (u : User) (tier : string) (exp : Z) : User :=
  mkUser (user_id u) (email u) (role u) (is_verified u) (Some tier) (Some exp)
         (shortlet_credit u).
Definition user_set_verified (u : User) (v : bool) : User :=
  mkUser (user_id u) (email u) (role u) v (membership_tier u)
         (membership_expires_at u) (shortlet_credit u).

Definition booking_set_paid (b : Booking) : Booking :=
  mkBooking (booking_id b) (booking_user b) (booking_property b) (start_date b)
            (end_date b) (total_price b) (is_cancelled b) true (booking_tx_ref b).
Definition booking_set_cancelled (b : Booking) : Booking :=
  mkBooking (booking_id b) (booking_user b) (booking_property b) (start_date b)
            (end_date b) (total_price b) true (is_paid b) (booking_tx_ref b).

Definition gift_set_status (g : Gift) (s : string) : Gift :=
  mkGift (gift_id g) (sender g) (recipient_email g) (recipient_user g)
         (gift_property g) s (expires_at g) (reassigned_to g) (converted_to_credit g).
Definition gift_set_converted (g : Gift) (c : bool) : Gift :=
  mkGift (gift_id g) (sender g) (recipient_email g) (recipient_user g)
         (gift_property g) (gift_status g) (expires_at g) (reassigned_to g) c.
Definition gift_reassign (g : Gift) (em : string) (r : option nat) : Gift :=
  mkGift (gift_id g) (sender g) em r (gift_property g) (gift_status g)
         (expires_at g) r (converted_to_credit g).

(** ** Exceptions, responses and the view monad *)

Inductive Exc :=
| ValidationError (msg : string)          (* serializers.ValidationError -> 400 *)
| IntegrityError (constraint : string)    (* django.db.IntegrityError -> 500 *)
| DoesNotExist (model : string)           (* Model.DoesNotExist *)
| MultipleObjectsReturned (model : string)
| AttributeError (attr : string).

Inductive Result (A : Type) :=
| Ok (a : A)
| Raised (e : Exc).
Arguments Ok {A} a.
Arguments Raised {A} e.

Record Response := resp { status_code : nat; message : string }.

Definition M (A : Type) : Type := DB -> DB * Result A.

Definition ret {A} (a : A) : M A := fun db => (db, Ok a).
Definition raise {A} (e : Exc) : M A := fun db => (db, Raised e).
Definition bind {A B} (c : M A) (k : A -> M B) : M B :=
  fun db => match c db with
            | (db', Ok a) => k a db'
            | (db', Raised e) => (db', Raised e)
            end.
Definition gets {A} (f : DB -> A) : M A := fun db => (db, Ok (f db)).
Definition modify (f : DB -> DB) : M unit := fun db => (f db, Ok tt).

Notation "x <- c ;; k" := (bind c (fun x => k))
  (at level 61, c at next level, right associativity).
Notation "c ;; k" := (bind c (fun _ => k))
  (at level 61, right associativity).

(** [try: c  except <model>.DoesNotExist: ...]: the handler sees [None]. *)
Definition try_dne {A} (model : string) (c : M A) : M (option A) :=
  fun db => match c db with
            | (db', Ok a) => (db', Ok (Some a))
            | (db', Raised (DoesNotExist m)) =>
                if String.eqb m model then (db', Ok None) else (db', Raised (DoesNotExist m))
            | (db', Raised e) => (db', Raised e)
            end.

(** ** ORM primitives *)

(** [Model.objects.get(...)] over the rows selected by the lookup. *)
Definition objects_get {A} (model : string) (rows : list A) : M A :=
  match rows with
  | [x] => ret x
  | [] => raise (DoesNotExist model)
  | _ => raise (MultipleObjectsReturned model)
  end.

(** [filter(...).first()]: the first row selected, if any. *)
Definition first {A} (rows : list A) : option A :=
  match rows with [] => None | x :: _ => Some x end.

Definition opt_nat_eqb (a b : option nat) : bool :=
  match a, b with
  | Some x, Some y => Nat.eqb x y
  | None, None => true
  | _, _ => false
  end.

Definition opt_str_eqb (a b : option string) : bool :=
  match a, b with
  | Some x, Some y => String.eqb x y
  | None, None => true
  | _, _ => false
  end.

(** Python truthiness of a nullable foreign key. *)
Definition isSome {A} (o : option A) : bool := match o with Some _ => true | None => false end.

(** Python truthiness of a [Decimal]. *)
Definition truthy_dec (q : Q) : bool := negb (Qeq_bool q 0).

(** [x < y] on [Decimal]s. *)
Definition Qlt_bool (x y : Q) : bool := negb (Qle_bool y x).

(** The quantisation of a [DecimalField(max_digits=12, decimal_places=2)]
    column on save, [value.quantize(Decimal('0.01'))] in the default context
    of [decimal] (ROUND_HALF_EVEN): [100 * x] is rounded to the nearest
    integer, a tie going to the even one. *)
Definition quantize2 (x : Q) : Q :=
  let n := (Qnum x * 100)%Z in
  let d := Zpos (Qden x) in
  let f := (n / d)%Z in
  let r := (n - f * d)%Z in
  let c := match Z.compare (2 * r) d with
           | Lt => f
           | Gt => (f + 1)%Z
           | Eq => if Z.even f then f else (f + 1)%Z
           end in
  Qred (c # 100).

(** A [Decimal] with at most two decimal places (a whole number of cents). *)
Definition is_cents (x : Q) : bool := Z.eqb ((Qnum x * 100) mod Zpos (Qden x)) 0.

(** Auto-increment primary keys. *)
Definition next_id (ids : list nat) : nat := S (fold_right Nat.max 0%nat ids).

(** [obj.save()] on an existing row: an UPDATE of the row with that key. *)
Definition replace_user (u : User) (l : list User) : list User :=
  map (fun r => if Nat.eqb (user_id r) (user_id u) then u else r) l.
Definition replace_booking (b : Booking) (l : list Booking) : list Booking :=
  map (fun r => if Nat.eqb (booking_id r) (booking_id b) then b else r) l.
Definition replace_gift (g : Gift) (l : list Gift) : list Gift :=
  map (fun r => if Nat.eqb (gift_id r) (gift_id g) then g else r) l.
Definition replace_investment (i : Investment) (l : list Investment) : list Investment :=
  map (fun r => if Nat.eqb (investment_id r) (investment_id i) then i else r) l.

Definition save_user (u : User) : M unit :=
  modify (fun db => set_users (replace_user u (users db)) db).
Definition save_booking (b : Booking) : M unit :=
  modify (fun db => set_bookings (replace_booking b (bookings db)) db).
Definition save_gift (g : Gift) : M unit :=
  modify (fun db => set_gifts (replace_gift g (gifts db)) db).
(** The row the database stores for an [Investment] instance: its three
    decimal columns quantised to two places. *)
Definition investment_quantize (i : Investment) : Investment :=
  mkInvestment (investment_id i) (investor i) (investment_property i) (payment_plan i)
    (quantize2 (investment_total_price i)) (quantize2 (amount_paid i))
    (quantize2 (remaining_balance i)) (investment_status i) (investment_tx_ref i).

Definition save_investment (i : Investment) : M unit :=
  modify (fun db => set_investments (replace_investment (investment_quantize i)
                                                        (investments db)) db).

(** A row with this (property, start_date, end_date) exists. *)
Definition tuple_taken (prop : nat) (start end_ : Z) (rows : list Booking) : bool :=
  existsb (fun r => Nat.eqb (booking_property r) prop && Z.eqb (start_date r) start
                    && Z.eqb (end_date r) end_) rows.

(** [Model.objects.create(...)]: an INSERT with a fresh key, refused by the
    database when a unique constraint of the model would be violated. *)
Definition create_booking (user : nat) (prop : nat) (start end_ : Z) (cancelled : bool)
    (total : Q) (tx_ref : option string) (paid : bool) : M Booking :=
  fun db =>
    let rows := bookings db in
    if tuple_taken prop start end_ rows
    then (db, Raised (IntegrityError "core_booking_property_start_date_end_date_uniq"))
    else if match tx_ref with
            | Some t => existsb (fun r => opt_str_eqb (booking_tx_ref r) (Some t)) rows
            | None => false
            end
    then (db, Raised (IntegrityError "core_booking_tx_ref_key"))
    else
      let b := mkBooking (next_id (map booking_id rows)) user prop start end_ total
                         cancelled paid tx_ref in
      (set_bookings (b :: rows) db, Ok b).

Definition create_commission (agent_ : nat) (booking : nat) (amount : Q) : M Commission :=
  fun db =>
    let rows := commissions db in
    if existsb (fun r => Nat.eqb (commission_booking r) booking) rows
    then (db, Raised (IntegrityError "core_commission_booking_id_key"))
    else
      let c := mkCommission (next_id (map commission_id rows)) agent_ booking amount in
      (set_commissions (c :: rows) db, Ok c).

Definition create_refund_log (user : nat) (amount : Q) (reason : string) : M unit :=
  modify (fun db => set_refund_logs (mkRefundLog user amount reason :: refund_logs db) db).

(** ** Booking engine *)

(** [serializer.validated_data] of [BookingSerializer]: the [property] field
    is already resolved to the row; [is_cancelled] is a writable field
    (default [False]). *)
Record BookingData := mkBookingData {
  bd_property : Property;
  bd_start : Z;
  bd_end : Z;
  bd_is_cancelled : bool
}.

Definition msg_not_available := "Property not available for short-let booking.".
Definition msg_already_booked := "This date range is already booked.".
Definition msg_invalid_range := "Invalid date range.".
Definition msg_insufficient := "Insufficient shortlet credit to book this property.".
Definition msg_unique_set := "The fields property, start_date, end_date must make a unique set.".

(** The overlap query of [BookingCreateView.perform_create]:
    [Booking.objects.filter(property=property, is_cancelled=False,
     start_date__lt=end, end_date__gt=start).exists()]. *)
Definition overlap_query (prop : nat) (start end_ : Z) (rows : list Booking) : bool :=
  existsb (fun b => Nat.eqb (booking_property b) prop && negb (is_cancelled b)
                    && Z.ltb (start_date b) end_ && Z.gtb (end_date b) start) rows.

(** [BookingCreateView.perform_create]; [user] is [self.request.user] and
    [uuid] the value of [uuid.uuid4()]. *)
Definition booking_perform_create (user : User) (vd : BookingData) (uuid : string) : M unit :=
  let property := bd_property vd in
  let start := bd_start vd in
  let end_ := bd_end vd in
  if negb (is_approved property) || negb (String.eqb (property_type property) "shortlet")
  then raise (ValidationError msg_not_available)
  else
  overlaps <- gets (fun db => overlap_query (property_id property) start end_ (bookings db)) ;;
  if overlaps then raise (ValidationError msg_already_booked) else
  let days := (end_ - start)%Z in
  if Z.leb days 0 then raise (ValidationError msg_invalid_range) else
  let total_price := (inject_Z days * price property)%Q in
  let tx_ref := "TobiTx-" ++ uuid in
  if truthy_dec (shortlet_credit user) && Qle_bool total_price (shortlet_credit user)
  then
    let user' := user_set_credit user (shortlet_credit user - total_price)%Q in
    save_user user' ;;
    create_booking (user_id user') (property_id property) start end_ (bd_is_cancelled vd)
                   total_price (Some tx_ref) true ;;
    ret tt
  else raise (ValidationError msg_insufficient).

(** The request body of [BookingCreateView]. *)
Record BookingRequest := mkBookingRequest {
  br_property : nat;
  br_start : Z;
  br_end : Z;
  br_is_cancelled : bool
}.

(** [serializer.is_valid(raise_exception=True)]: the primary key of
    [property] must resolve, and the [UniqueTogetherValidator] that DRF
    derives from [unique_together = ('property', 'start_date', 'end_date')]
    rejects a tuple already present in the table (cancelled rows too). *)
Definition booking_validate (req : BookingRequest) : M BookingData :=
  fun db =>
    match first (filter (fun p => Nat.eqb (property_id p) (br_property req)) (properties db)) with
    | None => (db, Raised (ValidationError "Invalid pk - object does not exist."))
    | Some p =>
        if tuple_taken (br_property req) (br_start req) (br_end req) (bookings db)
        then (db, Raised (ValidationError msg_unique_set))
        else (db, Ok (mkBookingData p (br_start req) (br_end req) (br_is_cancelled req)))
    end.

(** [BookingCreateView] ([CreateAPIView.create]). *)
Definition booking_create_view (user : User) (req : BookingRequest) (uuid : string) : M unit :=
  vd <- booking_validate req ;;
  booking_perform_create user vd uuid.

(** [MarkBookingAsPaidView]: the second class of that name in [views.py],
    which rebinds the name and is the one routed. *)
Definition mark_booking_as_paid (bid : nat) : M Response :=
  ob <- try_dne "Booking"
          (rows <- gets (fun db => filter (fun b => Nat.eqb (booking_id b) bid) (bookings db)) ;;
           objects_get "Booking" rows) ;;
  match ob with
  | None => ret (resp 404 "Booking not found")
  | Some booking =>
      if is_paid booking then ret (resp 200 "Already paid") else
      let booking := booking_set_paid booking in
      save_booking booking ;;
      property <- (rows <- gets (fun db => filter (fun p => Nat.eqb (property_id p)
                                                   (booking_property booking)) (properties db)) ;;
                   objects_get "Property" rows) ;;
      let commission_amount := (total_price booking * (10 # 100))%Q in
      create_commission (agent property) (booking_id booking) commission_amount ;;
      ret (resp 200 "Booking marked as paid")
  end.

(** [CancelBookingView]; [today] is [timezone.now().date()]. *)
Definition cancel_booking (user : User) (bid : nat) (today : Z) : M Response :=
  ob <- try_dne "Booking"
          (rows <- gets (fun db => filter (fun b => Nat.eqb (booking_id b) bid
                                             && Nat.eqb (booking_user b) (user_id user))
                                           (bookings db)) ;;
           objects_get "Booking" rows) ;;
  match ob with
  | None => ret (resp 404 "Booking not found")
  | Some booking =>
      if is_cancelled booking then ret (resp 400 "This booking is already cancelled.") else
      if Z.leb (start_date booking) today
      then ret (resp 400 "You cannot cancel a booking that has already started.") else
      let booking := booking_set_cancelled booking in
      save_booking booking ;;
      (if is_paid booking
       then create_refund_log (user_id user) (total_price booking)
              "Cancelled short-let booking"
       else ret tt) ;;
      ret (resp 200 "Booking cancelled and refund logged")
  end.

(** [AdminCancelBookingView]. *)
Definition admin_cancel_booking (bid : nat) : M Response :=
  ob <- try_dne "Booking"
          (rows <- gets (fun db => filter (fun b => Nat.eqb (booking_id b) bid) (bookings db)) ;;
           objects_get "Booking" rows) ;;
  match ob with
  | None => ret (resp 404 "Booking not found")
  | Some booking =>
      if is_cancelled booking then ret (resp 400 "Booking is already cancelled.") else
      let booking := booking_set_cancelled booking in
      save_booking booking ;;
      (if is_paid booking
       then create_refund_log (booking_user booking) (total_price booking)
              "Admin cancelled booking"
       else ret tt) ;;
      ret (resp 200 "Booking has been cancelled by admin.")
  end.

(** ** Payment reconciliation *)

Definition seconds_per_day : Z := 86400.

(** [investment.amount_paid = investment.total_price;
     investment.remaining_balance = 0; investment.status = "completed"]. *)
Definition investment_settle (i : Investment) : Investment :=
  mkInvestment (investment_id i) (investor i) (investment_property i) (payment_plan i)
    (investment_total_price i) (investment_total_price i) 0 "completed"
    (investment_tx_ref i).

(** [FlutterwaveWebhookView.post]; [event], [tx_ref] and [status] are
    [data.get('event')], [payment.get('tx_ref')] and [payment.get('status')]
    ([None] when absent); [now] is [timezone.now()]. A lookup
    [tx_ref=None] is Django's [IS NULL]. *)
Definition flutterwave_webhook (event tx_ref status : option string) (now : Z) : M Response :=
  if negb (opt_str_eqb event (Some "charge.completed"))
  then ret (resp 200 "Ignored non-payment event") else
  if negb (opt_str_eqb status (Some "successful"))
  then ret (resp 200 "Payment not successful") else
  (* Match to Booking by tx_ref *)
  r1 <- try_dne "Booking"
          (rows <- gets (fun db => filter (fun b => opt_str_eqb (booking_tx_ref b) tx_ref)
                                          (bookings db)) ;;
           booking <- objects_get "Booking" rows ;;
           if negb (is_paid booking)
           then save_booking (booking_set_paid booking) ;;
                ret (Some (resp 200 "Booking marked as paid"))
           else ret None) ;;
  match r1 with
  | Some (Some r) => ret r
  | _ =>
  (* Match to Investment by tx_ref *)
  r2 <- try_dne "Investment"
          (rows <- gets (fun db => filter (fun i => opt_str_eqb (investment_tx_ref i) tx_ref)
                                          (investments db)) ;;
           investment <- objects_get "Investment" rows ;;
           if Qlt_bool (amount_paid investment) (investment_total_price investment)
           then
             let investment := investment_settle investment in
             inv_user <- (rows <- gets (fun db => filter (fun u => Nat.eqb (user_id u)
                                                    (investor investment)) (users db)) ;;
                          objects_get "User" rows) ;;
             let inv_user := user_set_verified
                   (user_set_membership inv_user "Platinum" (now + 365 * seconds_per_day)) true in
             save_user inv_user ;;
             save_investment investment ;;
             ret (Some (resp 200 "Investment marked as fully paid"))
           else ret None) ;;
  match r2 with
  | Some (Some r) => ret r
  | _ => ret (resp 404 "No matching record found")
  end
  end.

(** The second half of [FlutterwaveWebhookView.post] (matching an
    investment), which runs when no unpaid booking carries the reference. *)
Definition webhook_investment_part (tx_ref : option string) (now : Z) : M Response :=
  r2 <- try_dne "Investment"
          (rows <- gets (fun db => filter (fun i => opt_str_eqb (investment_tx_ref i) tx_ref)
                                          (investments db)) ;;
           investment <- objects_get "Investment" rows ;;
           if Qlt_bool (amount_paid investment) (investment_total_price investment)
           then
             let investment := investment_settle investment in
             inv_user <- (rows <- gets (fun db => filter (fun u => Nat.eqb (user_id u)
                                                    (investor investment)) (users db)) ;;
                          objects_get "User" rows) ;;
             let inv_user := user_set_verified
                   (user_set_membership inv_user "Platinum" (now + 365 * seconds_per_day)) true in
             save_user inv_user ;;
             save_investment investment ;;
             ret (Some (resp 200 "Investment marked as fully paid"))
           else ret None) ;;
  match r2 with
  | Some (Some r) => ret r
  | _ => ret (resp 404 "No matching record found")
  end.

(** ** Gift engine *)

(** [serializer.validated_data] of [GiftSerializer]; [reassigned_to] and
    [converted_to_credit] are writable fields of that serializer. *)
Record GiftData := mkGiftData {
  gd_property : Property;
  gd_recipient_email : string;
  gd_reassigned_to : option nat;
  gd_converted_to_credit : bool
}.

Definition create_gift (snd : nat) (em : string) (rcpt : option nat) (prop : nat)
    (exp : option Z) (reassigned : option nat) (converted : bool) : M Gift :=
  fun db =>
    let rows := gifts db in
    let g := mkGift (next_id (map gift_id rows)) snd em rcpt prop "pending" exp
                    reassigned converted in
    (set_gifts (g :: rows) db, Ok g).

(** [User.objects.filter(email=e).first()], as a key. *)
Definition find_user_by_email (e : option string) : M (option nat) :=
  gets (fun db => option_map user_id
    (first (filter (fun u => opt_str_eqb (Some (email u)) e) (users db)))).

(** [GiftCreateView.perform_create]. *)
Definition gift_perform_create (user : User) (gd : GiftData) (now : Z) : M unit :=
  let property := gd_property gd in
  if negb (is_approved property)
  then raise (ValidationError "Property must be approved to be gifted.") else
  recipient <- find_user_by_email (Some (gd_recipient_email gd)) ;;
  create_gift (user_id user) (gd_recipient_email gd) recipient (property_id property)
    (if String.eqb (property_type property) "shortlet"
     then Some (now + 7 * seconds_per_day)%Z else None)
    (gd_reassigned_to gd) (gd_converted_to_credit gd) ;;
  ret tt.

(** [GiftDecisionView.post]. *)
Definition gift_decision (user : User) (gid : nat) (action : string) : M Response :=
  og <- gets (fun db => first (filter (fun g => Nat.eqb (gift_id g) gid
                 && opt_nat_eqb (recipient_user g) (Some (user_id user))) (gifts db))) ;;
  match og with
  | None => ret (resp 400 "Gift not found or already handled")
  | Some gift =>
      if negb (String.eqb (gift_status gift) "pending")
      then ret (resp 400 "Gift not found or already handled") else
      if String.eqb action "accept" then
        save_gift (gift_set_status gift "accepted") ;; ret (resp 200 "Gift accepted.")
      else if String.eqb action "decline" then
        save_gift (gift_set_status gift "declined") ;; ret (resp 200 "Gift declined.")
      else ret (resp 400 "Invalid action")
  end.

(** Reading and writing a decimal attribute of a [User] instance. The model
    declares the field [shortlet_credit]; any other name, such as
    [wallet_balance], is not an attribute of the instance, so reading it
    raises [AttributeError]. *)
Definition user_getattr_decimal (u : User) (name : string) : M Q :=
  if String.eqb name "shortlet_credit" then ret (shortlet_credit u)
  else raise (AttributeError name).
Definition user_setattr_decimal (u : User) (name : string) (v : Q) : User :=
  if String.eqb name "shortlet_credit" then user_set_credit u v else u.

Definition get_user (uid : nat) : M User :=
  rows <- gets (fun db => filter (fun u => Nat.eqb (user_id u) uid) (users db)) ;;
  objects_get "User" rows.
Definition get_property (pid : nat) : M Property :=
  rows <- gets (fun db => filter (fun p => Nat.eqb (property_id p) pid) (properties db)) ;;
  objects_get "Property" rows.

(** The queryset of [ExpireOldGiftsView]:
    [Gift.objects.filter(property__property_type='shortlet',
     expires_at__lt=now, status='pending')]. *)
Definition expirable_gifts (now : Z) (db : DB) : list Gift :=
  filter (fun g =>
    existsb (fun p => Nat.eqb (property_id p) (gift_property g)
                      && String.eqb (property_type p) "shortlet") (properties db)
    && match expires_at g with Some e => Z.ltb e now | None => false end
    && String.eqb (gift_status g) "pending") (gifts db).

(** The [for gift in gifts] loop of [ExpireOldGiftsView.post]. *)
Fixpoint expire_loop (gs : list Gift) (expired converted : nat) : M (nat * nat) :=
  match gs with
  | [] => ret (expired, converted)
  | gift :: rest =>
      let gift := gift_set_status gift "expired" in
      save_gift gift ;;
      let expired := S expired in
      (* Auto-convert to wallet credit if not reassigned *)
      if negb (isSome (reassigned_to gift)) && negb (converted_to_credit gift) then
        snd <- get_user (sender gift) ;;
        bal <- user_getattr_decimal snd "wallet_balance" ;;
        property <- get_property (gift_property gift) ;;
        let snd := user_setattr_decimal snd "wallet_balance" (bal + price property)%Q in
        let gift := gift_set_converted gift true in
        save_user snd ;;
        save_gift gift ;;
        expire_loop rest expired (S converted)
      else expire_loop rest expired converted
  end.

(** [ExpireOldGiftsView.post]; [now] is [timezone.now()]. *)
Definition expire_old_gifts (now : Z) : M (nat * nat) :=
  gs <- gets (expirable_gifts now) ;;
  expire_loop gs 0%nat 0%nat.

(** [ReassignGiftView.post]; [new_email] is [request.data.get("new_email")]. *)
Definition reassign_gift (user : User) (gid : nat) (new_email : option string) : M Response :=
  og <- gets (fun db => first (filter (fun g => Nat.eqb (gift_id g) gid
                 && Nat.eqb (sender g) (user_id user)
                 && String.eqb (gift_status g) "pending") (gifts db))) ;;
  match og with
  | None => ret (resp 404 "Gift not found or cannot be reassigned")
  | Some gift =>
      if isSome (reassigned_to gift) then ret (resp 400 "Gift has already been reassigned") else
      new_recipient <- find_user_by_email new_email ;;
      match new_email with
      | None => raise (IntegrityError "NOT NULL constraint failed: core_gift.recipient_email")
      | Some em =>
          save_gift (gift_reassign gift em new_recipient) ;;
          ret (resp 200 "Gift successfully reassigned.")
      end
  end.

(** ** Investment engine *)

Definition create_investment (inv : nat) (prop : nat) (plan : string) (total paid remaining : Q)
    (tx_ref : option string) : M Investment :=
  fun db =>
    let rows := investments db in
    if existsb (fun r => Nat.eqb (investor r) inv && Nat.eqb (investment_property r) prop) rows
    then (db, Raised (IntegrityError "core_investment_investor_id_property_id_uniq"))
    else if match tx_ref with
            | Some t => existsb (fun r => opt_str_eqb (investment_tx_ref r) (Some t)) rows
            | None => false
            end
    then (db, Raised (IntegrityError "core_investment_tx_ref_key"))
    else
      (* [status] is not passed: the model default 'active' applies *)
      let i := mkInvestment (next_id (map investment_id rows)) inv prop plan total paid
                            remaining "active" tx_ref in
      (set_investments (investment_quantize i :: rows) db, Ok i).

(** [serializer.validated_data] of [InvestmentSerializer]. [investor] is a
    read-only field without default, so DRF derives no validator from
    [unique_together = ('investor', 'property')]: the pair is checked by the
    database only, on INSERT. *)
Record InvestmentData := mkInvestmentData {
  id_property : Property;
  id_payment_plan : string
}.

Definition year : Z := 365 * seconds_per_day.

(** [CreateInvestmentView.perform_create]. *)
Definition investment_perform_create (user : User) (vd : InvestmentData) (now : Z)
    (uuid : string) : M unit :=
  let property := id_property vd in
  let plan := id_payment_plan vd in
  if negb (String.eqb (role user) "INVESTOR")
  then raise (ValidationError "Only investors can invest in properties.") else
  if negb (is_approved property)
  then raise (ValidationError "This property is not approved for investment.") else
  match cost_price property with
  | None => raise (ValidationError "This property doesn't have a cost price set.")
  | Some total_price =>
  if negb (truthy_dec total_price)
  then raise (ValidationError "This property doesn't have a cost price set.") else
  let plan_result :=
    if String.eqb plan "full" then
      Some (total_price, 0%Q, user_set_membership user "Platinum" (now + year))
    else if String.eqb plan "installment" then
      let amount_paid := (total_price * (60 # 100))%Q in
      Some (amount_paid, (total_price - amount_paid)%Q,
            user_set_credit (user_set_membership user "Gold" (now + year))
                            (500000000 # 100))
    else None in
  match plan_result with
  | None => raise (ValidationError "Invalid payment plan.")
  | Some (amount_paid, remaining, user) =>
      let tx_ref := "TobiInvest-" ++ uuid in
      save_user user ;;
      create_investment (user_id user) (property_id property) plan total_price amount_paid
                        remaining (Some tx_ref) ;;
      ret tt
  end
  end.

(** The request body of [CreateInvestmentView]. *)
Record InvestmentRequest := mkInvestmentRequest {
  ir_property : nat;
  ir_payment_plan : string
}.

(** [serializer.is_valid(raise_exception=True)]: the [property] key must
    resolve and [payment_plan] must be one of its choices. *)
Definition investment_validate (req : InvestmentRequest) : M InvestmentData :=
  fun db =>
    match first (filter (fun p => Nat.eqb (property_id p) (ir_property req)) (properties db)) with
    | None => (db, Raised (ValidationError "Invalid pk - object does not exist."))
    | Some p =>
        if String.eqb (ir_payment_plan req) "full"
           || String.eqb (ir_payment_plan req) "installment"
        then (db, Ok (mkInvestmentData p (ir_payment_plan req)))
        else (db, Raised (ValidationError "is not a valid choice."))
    end.

Definition create_investment_view (user : User) (req : InvestmentRequest) (now : Z)
    (uuid : string) : M unit :=
  vd <- investment_validate req ;;
  investment_perform_create user vd now uuid.

Definition investment_top_up (i : Investment) (amount : Q) : Investment :=
  mkInvestment (investment_id i) (investor i) (investment_property i) (payment_plan i)
    (investment_total_price i) (amount_paid i + amount)%Q (remaining_balance i - amount)%Q
    (investment_status i) (investment_tx_ref i).
Definition investment_set_status (i : Investment) (s : string) : Investment :=
  mkInvestment (investment_id i) (investor i) (investment_property i) (payment_plan i)
    (investment_total_price i) (amount_paid i) (remaining_balance i) s
    (investment_tx_ref i).

(** [TopUpInvestmentView.post]; [amount] is [Decimal(request.data.get('amount', 0))]. *)
Definition top_up_investment (user : User) (iid : nat) (amount : Q) (now : Z) : M Response :=
  if Qle_bool amount 0
  then ret (resp 400 "Top-up amount must be greater than 0") else
  oi <- try_dne "Investment"
          (rows <- gets (fun db => filter (fun i => Nat.eqb (investment_id i) iid
                                             && Nat.eqb (investor i) (user_id user))
                                           (investments db)) ;;
           objects_get "Investment" rows) ;;
  match oi with
  | None => ret (resp 404 "Investment not found or not yours")
  | Some investment =>
      if String.eqb (investment_status investment) "completed"
      then ret (resp 400 "This investment is already completed") else
      if Qlt_bool (remaining_balance investment) amount
      then ret (resp 400 "Amount exceeds remaining balance") else
      let investment := investment_top_up investment amount in
      (if Qeq_bool (remaining_balance investment) 0
       then save_user (user_set_credit (user_set_membership user "Platinum" (now + year)) 0) ;;
            save_investment (investment_set_status investment "completed")
       else save_investment investment) ;;
      ret (resp 200 "Top-up successful")
  end.

(** ** Deleting a listing *)

(** [property.delete()] ([PropertyViewSet.destroy] and the [reject] action):
    the rows that refer to the listing through an [on_delete=CASCADE] key go
    with it: its bookings, the commissions of those bookings (a
    [OneToOneField] to [Booking]), its gifts and its investments. *)
Definition delete_property (pid : nat) : M unit :=
  modify (fun db =>
    let gone := fun b => Nat.eqb (booking_property b) pid in
    mkDB (users db)
      (filter (fun p => negb (Nat.eqb (property_id p) pid)) (properties db))
      (filter (fun b => negb (gone b)) (bookings db))
      (filter (fun c => negb (existsb (fun b => Nat.eqb (booking_id b) (commission_booking c)
                                                 && gone b) (bookings db)))
              (commissions db))
      (filter (fun g => negb (Nat.eqb (gift_property g) pid)) (gifts db))
      (filter (fun i => negb (Nat.eqb (investment_property i) pid)) (investments db))
      (refund_logs db)).

(** ** The operations of the core, as a step relation on the store *)

Inductive step : DB -> DB -> Prop :=
| step_booking_create db u req uuid :
    step db (fst (booking_create_view u req uuid db))
| step_mark_paid db bid :
    step db (fst (mark_booking_as_paid bid db))
| step_webhook db ev tx st now :
    step db (fst (flutterwave_webhook ev tx st now db))
| step_cancel db u bid today :
    step db (fst (cancel_booking u bid today db))
| step_admin_cancel db bid :
    step db (fst (admin_cancel_booking bid db))
| step_gift_create db u gd now :
    step db (fst (gift_perform_create u gd now db))
| step_gift_decision db u gid action :
    step db (fst (gift_decision u gid action db))
| step_expire_gifts db now :
    step db (fst (expire_old_gifts now db))
| step_reassign db u gid em :
    step db (fst (reassign_gift u gid em db))
| step_investment_create db u req now uuid :
    step db (fst (create_investment_view u req now uuid db))
| step_top_up db u iid amount now :
    step db (fst (top_up_investment u iid amount now db))
| step_delete_property db pid :
    step db (fst (delete_property pid db))
(* The other writing views (registration, role switches, admin promotion,
   agent verification, the create, update and approve actions of
   [PropertyViewSet], [RefundLogView]) write only the users, listings and
   refund-log tables; any new content of those tables is allowed. *)
| step_other_tables db us ps rl :
    step db (set_refund_logs rl (set_users us (set_properties ps db))).

Inductive steps : DB -> DB -> Prop :=
| steps_refl db : steps db db
| steps_step db1 db2 db3 : step db1 db2 -> steps db2 db3 -> steps db1 db3.

(** A store with users and listings and no transaction yet. *)
Definition initial (db : DB) : Prop :=
  bookings db = [] /\ commissions db = [] /\ gifts db = [] /\ investments db = []
  /\ refund_logs db = [].

Definition reachable (db : DB) : Prop := exists db0, initial db0 /\ steps db0 db.

(** The runs along which [P] holds of every store, the first and the last
    included. *)
Inductive steps_while (P : DB -> Prop) : DB -> DB -> Prop :=
| sw_refl db : P db -> steps_while P db db
| sw_step db1 db2 db3 : P db1 -> step db1 db2 -> steps_while P db2 db3 -> steps_while P db1 db3.

(** ** Invariants of the store *)

(** Two bookings are compatible when, if both are active and on the same
    listing, their half-open date ranges are disjoint. *)
Definition disjoint_active (a b : Booking) : Prop :=
  booking_property a = booking_property b -> is_cancelled a = false -> is_cancelled b = false ->
  ~ (start_date a < end_date b /\ end_date a > start_date b)%Z.

Definition no_double_booking (l : list Booking) : Prop := ForallOrdPairs disjoint_active l.

Definition has_prefix (p : string) (r : option string) : Prop :=
  exists s, r = Some (p ++ s).

Record store_inv (db : DB) : Prop := {
  inv_booking_keys : NoDup (map booking_id (bookings db));
  inv_no_double_booking : no_double_booking (bookings db);
  inv_commission_refs : forall c, In c (commissions db) ->
                          In (commission_booking c) (map booking_id (bookings db));
  inv_booking_refs : Forall (fun b => has_prefix "TobiTx-" (booking_tx_ref b)) (bookings db);
  inv_investment_refs : Forall (fun i => has_prefix "TobiInvest-" (investment_tx_ref i))
                          (investments db)
}.

(** What the views' [booking.save()] calls change in a booking row: they
    set [is_paid] or [is_cancelled], never clear them, and keep the rest. *)
Definition booking_update_ok (f : Booking -> Booking) : Prop :=
  forall b, booking_id (f b) = booking_id b /\ booking_property (f b) = booking_property b
            /\ start_date (f b) = start_date b /\ end_date (f b) = end_date b
            /\ booking_tx_ref (f b) = booking_tx_ref b
            /\ (is_cancelled (f b) = false -> is_cancelled b = false)
            /\ (is_paid b = true -> is_paid (f b) = true)
            /\ booking_user (f b) = booking_user b /\ total_price (f b) = total_price b
            /\ (is_cancelled b = true -> is_cancelled (f b) = true).

(** The effect of one operation on the booking, commission and investment
    tables. *)
Inductive effect (db db' : DB) : Prop :=
| eff_frame :
    bookings db' = bookings db -> commissions db' = commissions db ->
    investments db' = investments db -> effect db db'
| eff_booking_insert b :
    ~ In (booking_id b) (map booking_id (bookings db)) -> is_paid b = true ->
    Forall (disjoint_active b) (bookings db) -> has_prefix "TobiTx-" (booking_tx_ref b) ->
    bookings db' = b :: bookings db -> commissions db' = commissions db ->
    investments db' = investments db -> effect db db'
| eff_booking_update b f :
    In b (bookings db) -> booking_update_ok f ->
    bookings db' = replace_booking (f b) (bookings db) -> commissions db' = commissions db ->
    investments db' = investments db -> effect db db'
| eff_booking_paid_commission b c :
    In b (bookings db) -> is_paid b = false -> commission_booking c = booking_id b ->
    bookings db' = replace_booking (booking_set_paid b) (bookings db) ->
    commissions db' = c :: commissions db -> investments db' = investments db -> effect db db'
| eff_investment_insert i :
    has_prefix "TobiInvest-" (investment_tx_ref i) ->
    bookings db' = bookings db -> commissions db' = commissions db ->
    investments db' = i :: investments db -> effect db db'
| eff_delete pid :
    bookings db' = filter (fun b => negb (Nat.eqb (booking_property b) pid)) (bookings db) ->
    commissions db' =
      filter (fun c => negb (existsb (fun b => Nat.eqb (booking_id b) (commission_booking c)
                                               && Nat.eqb (booking_property b) pid)
                                     (bookings db)))
             (commissions db) ->
    investments db' = filter (fun i => negb (Nat.eqb (investment_property i) pid))
                             (investments db) ->
    effect db db'
| eff_investment_update i i' :
    In i (investments db) -> investment_tx_ref i' = investment_tx_ref i ->
    bookings db' = bookings db -> commissions db' = commissions db ->
    investments db' = replace_investment i' (investments db) -> effect db db'.

(** A computation that leaves these three tables alone. *)
Definition keeps_tables {A} (c : M A) : Prop :=
  forall db, bookings (fst (c db)) = bookings db /\ commissions (fst (c db)) = commissions db
             /\ investments (fst (c db)) = investments db.


(** ** Concrete stores used by the witnesses and counterexamples *)

Definition agent_ada : User := mkUser 1 "ada@agents.ng" "AGENT" true None None 0.
Definition guest_bola : User := mkUser 2 "bola@mail.ng" "CUSTOMER" false None None 30000.
Definition lekki_flat : Property := mkProperty 1 1 10000 "shortlet" None true.

(** An unpaid booking carrying a transaction reference (as entered through
    the Django admin, [BookingAdmin]). *)
Definition unpaid_booking : Booking :=
  mkBooking 1 2 1 10 13 30000 false false (Some "TobiTx-7f3a").

Definition store_unpaid_booking : DB :=
  mkDB [agent_ada; guest_bola] [lekki_flat] [unpaid_booking] [] [] [] [].

Definition store_empty_bookings : DB :=
  mkDB [agent_ada; guest_bola] [lekki_flat] [] [] [] [] [].

(** A pending short-let gift created at time 0 (expiry after 7 days). *)
Definition sender_chidi : User := mkUser 3 "chidi@mail.ng" "CUSTOMER" false None None 0.
Definition ikoyi_flat : Property := mkProperty 2 1 50000 "shortlet" None true.
Definition pending_gift : Gift :=
  mkGift 1 3 "friend@mail.ng" None 2 "pending" (Some (7 * seconds_per_day)%Z) None false.
Definition store_pending_gift : DB :=
  mkDB [agent_ada; sender_chidi] [ikoyi_flat] [] [] [pending_gift] [] [].

(** An investor and an approved investment listing of cost price 1,000,000. *)
Definition investor_dayo : User := mkUser 4 "dayo@invest.ng" "INVESTOR" true None None 0.
Definition banana_island : Property := mkProperty 3 1 0 "investment" (Some 1000000) true.
Definition store_investor : DB :=
  mkDB [agent_ada; investor_dayo] [banana_island] [] [] [] [] [].

(** The same investor after an installment investment and some spending. *)
Definition investor_dayo_gold : User :=
  mkUser 4 "dayo@invest.ng" "INVESTOR" true (Some "Gold") (Some (year + 1000)%Z) 1000000.
Definition dayo_installment : Investment :=
  mkInvestment 1 4 3 "installment" 1000000 600000 400000 "active" (Some "TobiInvest-91c2").
Definition store_installment : DB :=
  mkDB [agent_ada; investor_dayo_gold] [banana_island] [] [] [] [dayo_installment] [].


(** Two users and a pending gift sent by the first. *)
Definition sender_efe : User := mkUser 5 "efe@mail.ng" "CUSTOMER" false None None 0.
Definition friend_funmi : User := mkUser 6 "funmi@mail.ng" "CUSTOMER" false None None 0.
Definition gift_to_reassign : Gift :=
  mkGift 1 5 "old@mail.ng" None 2 "pending" (Some (7 * seconds_per_day)%Z) None false.
Definition store_reassign : DB :=
  mkDB [sender_efe; friend_funmi] [ikoyi_flat] [] [] [gift_to_reassign] [] [].

(** A free short-let listing and a guest without credit. *)
Definition free_flat : Property := mkProperty 4 1 0 "shortlet" None true.
Definition guest_no_credit : User := mkUser 7 "gbenga@mail.ng" "CUSTOMER" false None None 0.
Definition store_free_flat : DB :=
  mkDB [agent_ada; guest_no_credit] [free_flat] [] [] [] [] [].

(** A pending short-let gift, already reassigned to a registered friend. *)
Definition reassigned_gift : Gift :=
  mkGift 2 5 "old@mail.ng" (Some 6%nat) 2 "pending" (Some (7 * seconds_per_day)%Z)
         (Some 6%nat) false.

(** The investor as [CreateInvestmentView] updates it for a plan
    ('full': Platinum for a year; 'installment': Gold for a year and
    credit 5,000,000). *)
Definition plan_investor (u : User) (plan : string) (now : Z) : User :=
  if String.eqb plan "full" then user_set_membership u "Platinum" (now + year)
  else user_set_credit (user_set_membership u "Gold" (now + year)) (500000000 # 100).

(** ** Investment rows: the bookkeeping the views maintain *)

(** The pair of [unique_together = ('investor', 'property')]. *)
Definition investor_listing (i : Investment) : nat * nat := (investor i, investment_property i).

(** What one operation does to the investment table: nothing, an INSERT of
    an 'active' row that breaks no uniqueness, an UPDATE in place of a row
    that keeps its key and its (investor, listing) pair and marks it
    'completed' only with nothing left to pay, or the cascade of a
    listing's deletion. *)
Inductive investment_effect (db db' : DB) : Prop :=
| ie_frame : investments db' = investments db -> investment_effect db db'
| ie_insert i :
    ~ In (investment_id i) (map investment_id (investments db)) ->
    ~ In (investor_listing i) (map investor_listing (investments db)) ->
    investment_status i = "active" ->
    investments db' = i :: investments db -> investment_effect db db'
| ie_update i i' :
    In i (investments db) -> investment_id i' = investment_id i ->
    investor_listing i' = investor_listing i ->
    (investment_status i' = "completed" -> (remaining_balance i' == 0)%Q) ->
    investments db' = replace_investment i' (investments db) -> investment_effect db db'
| ie_delete pid :
    investments db' = filter (fun i => negb (Nat.eqb (investment_property i) pid))
                             (investments db) ->
    investment_effect db db'.

(** The invariant of the investment table. *)
Record investment_inv (db : DB) : Prop := {
  ii_keys : NoDup (map investment_id (investments db));
  ii_pairs : NoDup (map investor_listing (investments db));
  ii_completed : forall i, In i (investments db) ->
                   investment_status i = "completed" -> (remaining_balance i == 0)%Q
}.

(** A computation that leaves one part [f] of the store alone. *)
Definition keeps_field {T A} (f : DB -> T) (c : M A) : Prop :=
  forall db, f (fst (c db)) = f db.

(** ** Permissions of the listing endpoints *)

(** [request.user]: Django's [AnonymousUser], or an authenticated [User]
    with its [is_staff] flag. *)
Inductive RequestUser :=
| Anonymous
| Authenticated (u : User) (is_staff : bool).

(** Attribute reads on [request.user]. Instances are truthy;
    [AnonymousUser] has [is_authenticated = False] and [is_staff = False]
    but no [role] attribute. *)
Definition request_user_truthy (ru : RequestUser) : bool := true.
Definition request_user_is_authenticated (ru : RequestUser) : bool :=
  match ru with Anonymous => false | Authenticated _ _ => true end.
Definition request_user_is_staff (ru : RequestUser) : bool :=
  match ru with Anonymous => false | Authenticated _ s => s end.
Definition request_user_role (ru : RequestUser) : Exc + string :=
  match ru with Anonymous => inl (AttributeError "role") | Authenticated u _ => inr (role u) end.

(** [IsAgentOrReadOnly.has_permission]: the truth value of
    [request.user and request.user.is_authenticated
       and request.user.role == User.Role.AGENT
     or request.user.role == User.Role.ADMIN
     or request.user.is_staff],
    which Python groups as [((a and b and c) or d) or e], evaluated left to
    right with short-circuiting. *)
Definition is_agent_or_read_only (method : string) (ru : RequestUser) : Exc + bool :=
  if existsb (String.eqb method) ["GET"; "HEAD"; "OPTIONS"] then inr true else
  let abc : Exc + bool :=
    if negb (request_user_truthy ru) then inr false
    else if negb (request_user_is_authenticated ru) then inr false
    else match request_user_role ru with
         | inl e => inl e
         | inr r => inr (String.eqb r "AGENT")
         end in
  match abc with
  | inl e => inl e
  | inr true => inr true
  | inr false =>
      match request_user_role ru with
      | inl e => inl e
      | inr r => if String.eqb r "ADMIN" then inr true else inr (request_user_is_staff ru)
      end
  end.

(** ** Gift rows: what one operation does to the gift table *)

(** Nothing; an INSERT with a fresh key; UPDATEs in place that keep every
    key and only touch rows whose key belongs to a pending gift; or the
    cascade of a listing's deletion. *)
(** A new row [h'] for the gift [g] keeps its sender and its
    [reassigned_to], unless [g] had not been reassigned. *)
Definition keeps_reassignment (g h' : Gift) : Prop :=
  reassigned_to g = None \/ (sender h' = sender g /\ reassigned_to h' = reassigned_to g).

Inductive gift_effect (db db' : DB) : Prop :=
| ge_frame : gifts db' = gifts db -> gift_effect db db'
| ge_insert g :
    ~ In (gift_id g) (map gift_id (gifts db)) -> gifts db' = g :: gifts db -> gift_effect db db'
| ge_pending_update :
    map gift_id (gifts db') = map gift_id (gifts db) ->
    (forall h', In h' (gifts db') -> In h' (gifts db) \/
       exists g, In g (gifts db) /\ gift_status g = "pending" /\ gift_id h' = gift_id g /\
                 keeps_reassignment g h') ->
    gift_effect db db'
| ge_delete pid :
    gifts db' = filter (fun g => negb (Nat.eqb (gift_property g) pid)) (gifts db) ->
    gift_effect db db'.

(** Reduction of the monad's plumbing, leaving the code's own functions folded. *)
Ltac mred := cbv beta iota zeta delta [bind gets ret raise modify try_dne objects_get negb orb].
Ltac mred_in H :=
  cbv beta iota zeta delta [bind gets ret raise modify try_dne objects_get negb orb] in H.


(* ================================================================== *)
(** * Theorems *)
(* ================================================================== *)

(** ** C1: the webhook marks a booking paid without creating a commission *)

Lemma mark_paid_first_transition_creates_commission :
  forall db bid b p,
    filter (fun r => Nat.eqb (booking_id r) bid) (bookings db) = [b] ->
    is_paid b = false ->
    filter (fun q => Nat.eqb (property_id q) (booking_property b)) (properties db) = [p] ->
    existsb (fun c => Nat.eqb (commission_booking c) (booking_id b)) (commissions db) = false ->
    exists cid,
      mark_booking_as_paid bid db =
      (set_commissions
         (mkCommission cid (agent p) (booking_id b) (total_price b * (10 # 100))%Q
            :: commissions db)
         (set_bookings (replace_booking (booking_set_paid b) (bookings db)) db),
       Ok (resp 200 "Booking marked as paid")).
Proof.
  intros db bid b p Hb Hpaid Hp Hc.
  unfold mark_booking_as_paid, try_dne, bind, gets, objects_get, ret.
  rewrite Hb, Hpaid. simpl.
  unfold create_commission, save_booking, modify. simpl.
  rewrite Hp. simpl. rewrite Hc.
  eexists. reflexivity.
Qed.

Lemma mark_paid_already_paid_noop :
  forall db bid b,
    filter (fun r => Nat.eqb (booking_id r) bid) (bookings db) = [b] ->
    is_paid b = true ->
    mark_booking_as_paid bid db = (db, Ok (resp 200 "Already paid")).
Proof.
  intros db bid b Hb Hpaid.
  unfold mark_booking_as_paid, try_dne, bind, gets, objects_get, ret.
  rewrite Hb, Hpaid. reflexivity.
Qed.

(** Claim C1. The admin [markPaid] path creates the 10% commission on the
    unpaid-to-paid transition (lemma above), but the reconciliation path
    does not: on an unpaid booking whose reference is settled by the
    webhook, the booking becomes paid, no commission is created, and a
    later [markPaid] sees it already paid, so none is ever created. *)
Theorem webhook_paid_booking_gets_no_commission :
  let db1 := fst (flutterwave_webhook (Some "charge.completed") (Some "TobiTx-7f3a")
                    (Some "successful") 0 store_unpaid_booking) in
  map is_paid (bookings db1) = [true] /\
  commissions db1 = [] /\
  mark_booking_as_paid 1 db1 = (db1, Ok (resp 200 "Already paid")).
Proof.
  vm_compute. repeat split; reflexivity.
Qed.

(** ** C2: batch gift expiry never credits the sender *)

(** Claim C2. On a pending short-let gift past its expiry, with no
    reassignment and not converted, the expiry job saves the gift as
    expired and then raises [AttributeError] on [gift.sender.wallet_balance]:
    the sender's credit is unchanged and [converted_to_credit] stays false.
    A second run no longer selects the gift and adds no credit either. *)
Theorem expire_gifts_raises_before_crediting :
  let now := (8 * seconds_per_day)%Z in
  let r1 := expire_old_gifts now store_pending_gift in
  let db1 := fst r1 in
  snd r1 = Raised (AttributeError "wallet_balance") /\
  map gift_status (gifts db1) = ["expired"] /\
  map converted_to_credit (gifts db1) = [false] /\
  map shortlet_credit (users db1) = map shortlet_credit (users store_pending_gift) /\
  expire_old_gifts now db1 = (db1, Ok (0%nat, 0%nat)).
Proof.
  vm_compute. repeat split; reflexivity.
Qed.

(** ** C3: a full-plan investment keeps the status 'active' *)

(** Claim C3. A full-plan investment on an approved listing with cost price
    1,000,000 gets [amount_paid] 1,000,000, remaining balance 0 and Platinum
    membership until [now + 365 days], but its status is the model default
    ['active'], not ['completed']. *)
Theorem full_plan_investment_status_active :
  let now := 1000%Z in
  let db1 := fst (create_investment_view investor_dayo (mkInvestmentRequest 3 "full") now
                    "5d1e" store_investor) in
  map amount_paid (investments db1) = [1000000%Q] /\
  map remaining_balance (investments db1) = [0%Q] /\
  map investment_status (investments db1) = ["active"] /\
  map membership_tier (users db1) = [None; Some "Platinum"] /\
  map membership_expires_at (users db1) = [None; Some (now + year)%Z].
Proof.
  vm_compute. repeat split; reflexivity.
Qed.

(** ** C9: a reassignment to an unregistered e-mail can be repeated *)

(** Claim C9. Reassigning a pending gift to an e-mail with no account
    succeeds and leaves [reassigned_to] unset; a second reassignment of the
    same gift then succeeds again instead of failing with "already
    reassigned", and overwrites the recipient. *)
Theorem reassign_unregistered_twice :
  let r1 := reassign_gift sender_efe 1 (Some "nobody@mail.ng") store_reassign in
  let r2 := reassign_gift sender_efe 1 (Some "funmi@mail.ng") (fst r1) in
  snd r1 = Ok (resp 200 "Gift successfully reassigned.") /\
  map reassigned_to (gifts (fst r1)) = [None] /\
  snd r2 = Ok (resp 200 "Gift successfully reassigned.") /\
  map recipient_email (gifts (fst r2)) = ["funmi@mail.ng"] /\
  map reassigned_to (gifts (fst r2)) = [Some 6%nat].
Proof.
  vm_compute. repeat split; reflexivity.
Qed.

(** ** C4: a duplicate investment leaves the investor's new membership saved *)

(** Counterexample to claim C4. The investor already holds an installment
    investment on the listing (Gold membership). A second request, with the
    full plan, fails on the (investor, listing) unique constraint and creates
    no investment, yet the investor's Platinum membership and its new expiry
    were saved before the INSERT and stay. *)
Lemma duplicate_investment_keeps_membership :
  let now := 5000%Z in
  let r := create_investment_view investor_dayo_gold (mkInvestmentRequest 3 "full") now
             "aa01" store_installment in
  snd r = Raised (IntegrityError "core_investment_investor_id_property_id_uniq") /\
  investments (fst r) = investments store_installment /\
  map membership_tier (users store_installment) = [None; Some "Gold"] /\
  map membership_tier (users (fst r)) = [None; Some "Platinum"] /\
  map membership_expires_at (users (fst r)) = [None; Some (now + year)%Z].
Proof.
  vm_compute. repeat split; reflexivity.
Qed.

(** ** C7: zero credit never pays, even for a zero total *)

(** Counterexample to claim C7. On a free approved short-let listing (price
    0), a one-night request by an account with credit 0 has total 0 and
    credit >= total, yet it fails with "Insufficient shortlet credit":
    the code first requires the credit to be nonzero. *)
Lemma zero_credit_zero_total_rejected :
  let vd := mkBookingData free_flat 20 21 false in
  Qle_bool (inject_Z (21 - 20) * price free_flat) (shortlet_credit guest_no_credit) = true /\
  overlap_query 4 20 21 (bookings store_free_flat) = false /\
  booking_perform_create guest_no_credit vd "0b9e" store_free_flat
  = (store_free_flat, Raised (ValidationError msg_insufficient)).
Proof.
  vm_compute. repeat split; reflexivity.
Qed.

(** Claim C7, as amended. For a request on an approved short-let listing
    with end after start, that passed validation (its (listing, start, end)
    tuple is not in the table; the uuid gives a new reference) and overlaps
    no active booking: the total is nights times the nightly price; when the
    credit is nonzero and at least the total, the credit is debited by
    exactly the total and a paid booking with reference "TobiTx-<uuid>" is
    inserted; otherwise creation fails with "Insufficient shortlet credit"
    and the store is unchanged. *)
Theorem booking_paid_from_credit :
  forall db u vd uuid,
    is_approved (bd_property vd) = true ->
    property_type (bd_property vd) = "shortlet" ->
    (bd_start vd < bd_end vd)%Z ->
    overlap_query (property_id (bd_property vd)) (bd_start vd) (bd_end vd) (bookings db)
      = false ->
    tuple_taken (property_id (bd_property vd)) (bd_start vd) (bd_end vd) (bookings db)
      = false ->
    existsb (fun r => opt_str_eqb (booking_tx_ref r) (Some ("TobiTx-" ++ uuid))) (bookings db)
      = false ->
    let total := (inject_Z (bd_end vd - bd_start vd) * price (bd_property vd))%Q in
    (truthy_dec (shortlet_credit u) && Qle_bool total (shortlet_credit u) = true ->
     booking_perform_create u vd uuid db =
       (set_bookings
          (mkBooking (next_id (map booking_id (bookings db))) (user_id u)
             (property_id (bd_property vd)) (bd_start vd) (bd_end vd) total
             (bd_is_cancelled vd) true (Some ("TobiTx-" ++ uuid)) :: bookings db)
          (set_users (replace_user (user_set_credit u (shortlet_credit u - total)%Q)
                                   (users db)) db),
        Ok tt)) /\
    (truthy_dec (shortlet_credit u) && Qle_bool total (shortlet_credit u) = false ->
     booking_perform_create u vd uuid db = (db, Raised (ValidationError msg_insufficient))).
Proof.
  intros db u vd uuid Happ Htype Hlt Hov Htup Htx total.
  assert (Hdays : Z.leb (bd_end vd - bd_start vd) 0 = false) by (apply Z.leb_gt; lia).
  unfold booking_perform_create.
  rewrite Happ, Htype, String.eqb_refl. mred.
  rewrite Hov, Hdays.
  fold total.
  split; intro Hc; rewrite Hc; [|reflexivity].
  unfold save_user, create_booking. mred. simpl bookings.
  rewrite Htup, Htx. reflexivity.
Qed.

Lemma booking_paid_from_credit_witness :
  let vd := mkBookingData lekki_flat 10 13 false in
  truthy_dec (shortlet_credit guest_bola)
    && Qle_bool (inject_Z (13 - 10) * price lekki_flat) (shortlet_credit guest_bola) = true /\
  booking_perform_create guest_bola vd "c0de" store_empty_bookings =
    (set_bookings
       [mkBooking 1 2 1 10 13 (inject_Z (13 - 10) * price lekki_flat) false true
          (Some ("TobiTx-" ++ "c0de"))]
       (set_users (replace_user (user_set_credit guest_bola
                     (shortlet_credit guest_bola - inject_Z (13 - 10) * price lekki_flat)%Q)
                  (users store_empty_bookings)) store_empty_bookings),
     Ok tt).
Proof.
  split; [reflexivity|].
  apply (proj1 (booking_paid_from_credit store_empty_bookings guest_bola
                  (mkBookingData lekki_flat 10 13 false) "c0de"
                  eq_refl eq_refl ltac:(simpl; lia) eq_refl eq_refl eq_refl)).
  reflexivity.
Defined.

(** ** C8: investment top-up *)

Lemma filter_none {A} (f : A -> bool) (l : list A) :
  (forall x, In x l -> f x = false) -> filter f l = [].
Proof.
  induction l as [|x l IH]; intros H; simpl; [reflexivity|].
  rewrite (H x (or_introl eq_refl)). apply IH. intros y Hy. apply H. now right.
Qed.

Lemma Qle_bool_false (x y : Q) : Qle_bool x y = false <-> y < x.
Proof.
  split; intro H.
  - apply Qnot_le_lt. intro Hle. apply Qle_bool_iff in Hle. congruence.
  - destruct (Qle_bool x y) eqn:E; [|reflexivity].
    apply Qle_bool_iff in E. exfalso. apply (Qlt_not_le y x); assumption.
Qed.

(** Quantising a two-place value changes nothing. *)
Lemma quantize2_cents (x : Q) : is_cents x = true -> quantize2 x == x.
Proof.
  unfold is_cents, quantize2. destruct x as [xn xd]. cbn [Qnum Qden].
  intro H. apply Z.eqb_eq in H.
  assert (Hd : Zpos xd <> 0%Z) by lia.
  pose proof (proj2 (Z.div_exact (xn * 100) (Zpos xd) Hd) H) as Hex.
  set (f := ((xn * 100) / Zpos xd)%Z) in *.
  replace (xn * 100 - f * Zpos xd)%Z with 0%Z by lia.
  replace (Z.compare (2 * 0) (Zpos xd)) with Lt by reflexivity.
  rewrite Qred_correct. unfold Qeq. cbn [Qnum Qden]. lia.
Qed.


Lemma quantize2_zero (x : Q) : x == 0 -> quantize2 x = 0.
Proof.
  destruct x as [xn xd]. unfold Qeq. cbn [Qnum Qden]. intro H.
  replace xn with 0%Z by lia. reflexivity.
Qed.

Lemma is_cents_divide (x : Q) : is_cents x = true <-> (Zpos (Qden x) | Qnum x * 100)%Z.
Proof.
  unfold is_cents. rewrite Z.eqb_eq. split; intro H.
  - apply Z.mod_divide; [lia|exact H].
  - apply Z.mod_divide; [lia|exact H].
Qed.



(** [quantize2 x] is [c / 100] for an integer [c] within half a unit of
    [100 * x]; strictly within unless [100 * x] lies half-way between two
    integers. *)
Lemma quantize2_near (x : Q) :
  exists c : Z, quantize2 x == c # 100 /\
    -(1#2) <= 100 * x - inject_Z c /\ 100 * x - inject_Z c <= 1#2 /\
    ((2 * ((Qnum x * 100) mod Zpos (Qden x)))%Z <> Zpos (Qden x) ->
     -(1#2) < 100 * x - inject_Z c /\ 100 * x - inject_Z c < 1#2).
Proof.
  destruct x as [n d]. unfold quantize2. cbn [Qnum Qden].
  pose proof (Z.div_mod (n * 100) (Zpos d) ltac:(lia)) as Hdm.
  pose proof (Z.mod_pos_bound (n * 100) (Zpos d) ltac:(lia)) as Hb.
  remember ((n * 100) / Zpos d)%Z as f eqn:Hf.
  remember ((n * 100) mod Zpos d)%Z as r eqn:Hr.
  replace (n * 100 - f * Zpos d)%Z with r by lia.
  assert (Hle : forall c : Z, (-(1#2) <= 100 * (n # d) - inject_Z c <->
                               (- Zpos d <= 2 * (n * 100 - c * Zpos d))%Z) /\
                              (100 * (n # d) - inject_Z c <= 1#2 <->
                               (2 * (n * 100 - c * Zpos d) <= Zpos d)%Z) /\
                              (-(1#2) < 100 * (n # d) - inject_Z c <->
                               (- Zpos d < 2 * (n * 100 - c * Zpos d))%Z) /\
                              (100 * (n # d) - inject_Z c < 1#2 <->
                               (2 * (n * 100 - c * Zpos d) < Zpos d)%Z)).
  { intro c. unfold Qle, Qlt, Qminus, Qplus, Qmult, Qopp, inject_Z. cbn [Qnum Qden].
    rewrite ?Pos2Z.inj_mul. repeat split; nia. }
  destruct (Z.compare_spec (2 * r) (Zpos d)) as [E|E|E].
  - destruct (Z.even f).
    + exists f. rewrite Qred_correct. split; [reflexivity|].
      destruct (Hle f) as (H1 & H2 & _ & _). rewrite H1, H2.
      repeat split; lia.
    + exists (f + 1)%Z. rewrite Qred_correct. split; [reflexivity|].
      destruct (Hle (f + 1)%Z) as (H1 & H2 & _ & _). rewrite H1, H2.
      repeat split; lia.
  - exists f. rewrite Qred_correct. split; [reflexivity|].
    destruct (Hle f) as (H1 & H2 & H3 & H4). rewrite H1, H2, H3, H4.
    repeat split; lia.
  - exists (f + 1)%Z. rewrite Qred_correct. split; [reflexivity|].
    destruct (Hle (f + 1)%Z) as (H1 & H2 & H3 & H4). rewrite H1, H2, H3, H4.
    repeat split; lia.
Qed.

(** For a two-place cost price, the 60% and the 40% of the installment
    plan, each quantised, add up to the cost price: [100 * cp * 60%] is
    never half-way between two integers. *)
Lemma quantize2_installment_split (cp : Q) :
  is_cents cp = true ->
  quantize2 (cp * (60 # 100)) + quantize2 (cp - cp * (60 # 100)) == cp.
Proof.
  intro Hc. apply is_cents_divide in Hc. destruct Hc as [k Hk].
  destruct (quantize2_near (cp * (60 # 100))) as (c1 & Hq1 & _ & _ & Hs1).
  destruct (quantize2_near (cp - cp * (60 # 100))) as (c2 & Hq2 & Hl2 & Hu2 & _).
  assert (Htie : (2 * ((Qnum (cp * (60 # 100)) * 100) mod Zpos (Qden (cp * (60 # 100))))
                  <> Zpos (Qden (cp * (60 # 100))))%Z).
  { destruct cp as [a b]. cbn [Qnum Qden Qmult] in *. rewrite Pos2Z.inj_mul.
    replace (a * 60 * 100)%Z with ((60 * k) * Zpos b)%Z by lia.
    replace (Zpos b * 100)%Z with (100 * Zpos b)%Z by lia.
    rewrite Z.mul_mod_distr_r by lia.
    pose proof (Z.div_mod (60 * k) 100 ltac:(lia)) as Hdm.
    pose proof (Z.mod_pos_bound (60 * k) 100 ltac:(lia)) as Hb.
    intro E. assert (E' : (2 * ((60 * k) mod 100) = 100)%Z) by nia.
    lia. }
  destruct (Hs1 Htie) as [Hl1 Hu1].
  assert (H100 : 100 * cp == inject_Z k)
    by (destruct cp as [a b]; unfold Qeq, Qmult, inject_Z; cbn [Qnum Qden] in *;
        rewrite ?Pos2Z.inj_mul; lia).
  assert (Hsum : (k - c1 - c2 = 0)%Z).
  { assert (Hz : inject_Z (k - c1 - c2) == 100 * cp - inject_Z c1 - inject_Z c2)
      by (rewrite H100; unfold Z.sub; rewrite !inject_Z_plus, !inject_Z_opp; ring).
    assert (Hlo : -1 < inject_Z (k - c1 - c2)) by (rewrite Hz; lra).
    assert (Hhi : inject_Z (k - c1 - c2) < 1) by (rewrite Hz; lra).
    unfold Qlt in Hlo, Hhi. cbn in Hlo, Hhi. lia. }
  rewrite Hq1, Hq2. destruct cp as [a b]. unfold Qeq, Qplus. cbn [Qnum Qden] in *.
  rewrite ?Pos2Z.inj_mul. nia.
Qed.




(** ** C4: what a failed investment creation leaves behind *)

(** Claim C4, as amended. A failing [createInvestment] creates no
    investment. When it fails in a check of the view (listing key, plan,
    role, approval, cost price) the whole store is unchanged; when it fails
    at the INSERT (the (investor, listing) or reference uniqueness of the
    database, i.e. DuplicateInvestment), the investor row has already been
    saved with the plan's membership (and credit), and only that row
    differs. *)
Theorem create_investment_failure_effects :
  forall db u req now uuid db' e,
    create_investment_view u req now uuid db = (db', Raised e) ->
    investments db' = investments db /\
    (((exists m, e = ValidationError m) /\ db' = db) \/
     ((exists c, e = IntegrityError c) /\ role u = "INVESTOR" /\
      db' = set_users (replace_user (plan_investor u (ir_payment_plan req) now) (users db)) db)).
Proof.
  intros db u req now uuid db' e H.
  unfold create_investment_view, investment_validate in H. mred_in H.
  destruct (first (filter (fun p => Nat.eqb (property_id p) (ir_property req)) (properties db)))
    as [p|]; [|injection H as <- <-; split; [reflexivity|left; eauto]].
  destruct (String.eqb (ir_payment_plan req) "full") eqn:Efull;
  [|destruct (String.eqb (ir_payment_plan req) "installment") eqn:Einst;
    [|injection H as <- <-; split; [reflexivity|left; eauto]]];
  unfold investment_perform_create in H; cbn [id_property id_payment_plan] in H;
  rewrite ?Efull, ?Einst in H; mred_in H;
  (destruct (String.eqb (role u) "INVESTOR") eqn:Erole;
   [|injection H as <- <-; split; [reflexivity|left; eauto]]);
  (destruct (is_approved p); [|injection H as <- <-; split; [reflexivity|left; eauto]]);
  (destruct (cost_price p) as [cp|]; [|injection H as <- <-; split; [reflexivity|left; eauto]]);
  (destruct (truthy_dec cp); [|injection H as <- <-; split; [reflexivity|left; eauto]]);
  unfold save_user, create_investment in H; mred_in H; cbn [investments set_users] in H;
  (destruct (existsb _ (investments db));
   [injection H as <- <-; split; [reflexivity|right; apply String.eqb_eq in Erole;
      unfold plan_investor; rewrite Efull; eauto]|]);
  (destruct (existsb _ (investments db));
   [injection H as <- <-; split; [reflexivity|right; apply String.eqb_eq in Erole;
      unfold plan_investor; rewrite Efull; eauto]|discriminate H]).
Qed.

Lemma create_investment_failure_effects_witness :
  let r := create_investment_view investor_dayo_gold (mkInvestmentRequest 3 "full") 5000 "aa01"
             store_installment in
  snd r = Raised (IntegrityError "core_investment_investor_id_property_id_uniq") /\
  investments (fst r) = investments store_installment /\
  (((exists m, IntegrityError "core_investment_investor_id_property_id_uniq" = ValidationError m)
    /\ fst r = store_installment) \/
   ((exists c, IntegrityError "core_investment_investor_id_property_id_uniq" = IntegrityError c)
    /\ role investor_dayo_gold = "INVESTOR" /\
    fst r = set_users (replace_user (plan_investor investor_dayo_gold "full" 5000)
                         (users store_installment)) store_installment)).
Proof.
  split; [vm_compute; reflexivity|].
  apply (create_investment_failure_effects store_installment investor_dayo_gold
           (mkInvestmentRequest 3 "full") 5000 "aa01"
           (fst (create_investment_view investor_dayo_gold (mkInvestmentRequest 3 "full") 5000
                   "aa01" store_installment))
           (IntegrityError "core_investment_investor_id_property_id_uniq")).
  vm_compute. reflexivity.
Defined.

(** ** The store invariant, preserved by every operation *)

Section StoreInvariant.

Lemma filter_single_in {A} (f : A -> bool) l x :
  filter f l = [x] -> In x l /\ f x = true.
Proof.
  intro H. assert (Hin : In x (filter f l)) by (rewrite H; now left).
  apply filter_In in Hin. exact Hin.
Qed.

Lemma replace_booking_ids b l :
  map booking_id (replace_booking b l) = map booking_id l.
Proof.
  induction l as [|r l IH]; simpl; [reflexivity|].
  destruct (Nat.eqb (booking_id r) (booking_id b)) eqn:E; simpl; rewrite IH; [|reflexivity].
  apply Nat.eqb_eq in E. now rewrite E.
Qed.

Lemma Forall_replace_booking (P : Booking -> Prop) b l :
  Forall P l -> P b -> Forall P (replace_booking b l).
Proof.
  intros Hl Hb. unfold replace_booking. apply Forall_map.
  eapply Forall_impl; [|exact Hl]. intros r Hr. simpl.
  destruct (Nat.eqb _ _); assumption.
Qed.

Lemma Forall_replace_investment (P : Investment -> Prop) i l :
  Forall P l -> P i -> Forall P (replace_investment i l).
Proof.
  intros Hl Hi. unfold replace_investment. apply Forall_map.
  eapply Forall_impl; [|exact Hl]. intros r Hr. simpl.
  destruct (Nat.eqb _ _); assumption.
Qed.

Lemma booking_set_paid_ok : booking_update_ok booking_set_paid.
Proof. intro b. repeat split; auto. Qed.

Lemma booking_set_cancelled_ok : booking_update_ok booking_set_cancelled.
Proof. intro b. repeat split; simpl; auto. discriminate. Qed.

(** With unique keys, saving [f b] for a row [b] of the table updates that
    row in place. *)
Lemma replace_booking_in_place f b l :
  booking_update_ok f -> NoDup (map booking_id l) -> In b l ->
  replace_booking (f b) l =
  map (fun r => if Nat.eqb (booking_id r) (booking_id b) then f r else r) l.
Proof.
  intros Hf. unfold replace_booking. destruct (Hf b) as [Hid _]. rewrite Hid.
  induction l as [|r l IH]; intros Hnd Hin; [destruct Hin|].
  simpl in Hnd. inversion Hnd as [|x y Hnot Hnd']; subst.
  simpl. destruct Hin as [<-|Hin].
  - rewrite Nat.eqb_refl. f_equal.
    apply map_ext_in. intros s Hs.
    destruct (Nat.eqb (booking_id s) (booking_id r)) eqn:E; [|reflexivity].
    apply Nat.eqb_eq in E. exfalso. apply Hnot. rewrite <- E. now apply in_map.
  - destruct (Nat.eqb (booking_id r) (booking_id b)) eqn:E.
    + apply Nat.eqb_eq in E. exfalso. apply Hnot. rewrite E. now apply in_map.
    + f_equal. now apply IH.
Qed.

Lemma ForallOrdPairs_map {A} (R : A -> A -> Prop) (g : A -> A) l :
  (forall a b, R a b -> R (g a) (g b)) -> ForallOrdPairs R l -> ForallOrdPairs R (map g l).
Proof.
  intros Hg H. induction H as [|a l Ha H IH]; simpl; constructor; [|exact IH].
  apply Forall_map. eapply Forall_impl; [|exact Ha]. intros b Hb. now apply Hg.
Qed.

Lemma no_double_booking_update f b l :
  booking_update_ok f -> NoDup (map booking_id l) -> In b l ->
  no_double_booking l -> no_double_booking (replace_booking (f b) l).
Proof.
  intros Hf Hnd Hin H. rewrite (replace_booking_in_place f b l Hf Hnd Hin).
  apply ForallOrdPairs_map; [|exact H].
  intros x y Hxy.
  assert (Hg : forall r, booking_property (if Nat.eqb (booking_id r) (booking_id b) then f r else r)
                         = booking_property r
                      /\ start_date (if Nat.eqb (booking_id r) (booking_id b) then f r else r)
                         = start_date r
                      /\ end_date (if Nat.eqb (booking_id r) (booking_id b) then f r else r)
                         = end_date r
                      /\ (is_cancelled (if Nat.eqb (booking_id r) (booking_id b) then f r else r)
                          = false -> is_cancelled r = false)).
  { intro r. destruct (Nat.eqb _ _); [|auto].
    destruct (Hf r) as (_ & ? & ? & ? & _ & ? & _). auto. }
  destruct (Hg x) as (Px & Sx & Ex & Cx). destruct (Hg y) as (Py & Sy & Ey & Cy).
  unfold disjoint_active in *. rewrite Px, Sx, Ex, Py, Sy, Ey.
  intros Hp Hcx Hcy. apply Hxy; auto.
Qed.

(** [next_id] is above every key of the table. *)
Lemma next_id_fresh ids : ~ In (next_id ids) ids.
Proof.
  assert (H : forall x, In x ids -> (x < next_id ids)%nat).
  { unfold next_id. induction ids as [|y ids IH]; intros x Hx; [destruct Hx|].
    simpl in *. destruct Hx as [<-|Hx]; [lia|]. specialize (IH x Hx). lia. }
  intro Hin. specialize (H _ Hin). lia.
Qed.

Lemma overlap_query_false_disjoint prop s e l b :
  overlap_query prop s e l = false ->
  booking_property b = prop -> start_date b = s -> end_date b = e ->
  Forall (disjoint_active b) l.
Proof.
  intros Hq Hp Hs He. apply Forall_forall. intros r Hr Hpr Hcb Hcr [H1 H2].
  unfold overlap_query in Hq.
  assert (Hx : existsb (fun b => Nat.eqb (booking_property b) prop && negb (is_cancelled b)
                       && Z.ltb (start_date b) e && Z.gtb (end_date b) s) l = true).
  { apply existsb_exists. exists r. split; [exact Hr|].
    rewrite <- Hpr, Hp, Nat.eqb_refl, Hcr. simpl.
    rewrite <- Hs, <- He. apply andb_true_intro. split; [apply Z.ltb_lt; lia|].
    apply Z.gtb_lt. lia. }
  congruence.
Qed.

End StoreInvariant.

(** *** Operations that leave the booking, commission and investment tables alone *)

Lemma keeps_ret {A} (a : A) : keeps_tables (ret a).
Proof. intro db. repeat split. Qed.

Lemma keeps_raise {A} e : keeps_tables (@raise A e).
Proof. intro db. repeat split. Qed.

Lemma keeps_gets {A} (f : DB -> A) : keeps_tables (gets f).
Proof. intro db. repeat split. Qed.

Lemma keeps_bind {A B} (c : M A) (k : A -> M B) :
  keeps_tables c -> (forall a, keeps_tables (k a)) -> keeps_tables (bind c k).
Proof.
  intros Hc Hk db. unfold bind. specialize (Hc db).
  destruct (c db) as [db1 [a|e]]; simpl in *; [|exact Hc].
  destruct (Hk a db1) as (? & ? & ?). intuition congruence.
Qed.

Lemma keeps_objects_get {A} m (rows : list A) : keeps_tables (objects_get m rows).
Proof. intro db. destruct rows as [|x [|y l]]; repeat split. Qed.

Lemma keeps_try_dne {A} m (c : M A) : keeps_tables c -> keeps_tables (try_dne m c).
Proof.
  intros Hc db. specialize (Hc db). unfold try_dne.
  destruct (c db) as [db1 [a|[]]]; try exact Hc.
  destruct (String.eqb _ _); exact Hc.
Qed.

Lemma keeps_save_user u : keeps_tables (save_user u).
Proof. intro db. repeat split. Qed.

Lemma keeps_save_gift g : keeps_tables (save_gift g).
Proof. intro db. repeat split. Qed.

Lemma keeps_create_gift s em r p e ra cv : keeps_tables (create_gift s em r p e ra cv).
Proof. intro db. repeat split. Qed.

Ltac keeps_tac :=
  repeat match goal with
  | |- keeps_tables (bind _ _) => apply keeps_bind; [|intro]
  | |- keeps_tables (ret _) => apply keeps_ret
  | |- keeps_tables (raise _) => apply keeps_raise
  | |- keeps_tables (gets _) => apply keeps_gets
  | |- keeps_tables (objects_get _ _) => apply keeps_objects_get
  | |- keeps_tables (try_dne _ _) => apply keeps_try_dne
  | |- keeps_tables (save_user _) => apply keeps_save_user
  | |- keeps_tables (save_gift _) => apply keeps_save_gift
  | |- keeps_tables (create_gift _ _ _ _ _ _ _) => apply keeps_create_gift
  | |- keeps_tables (find_user_by_email _) => unfold find_user_by_email
  | |- keeps_tables (get_user _) => unfold get_user
  | |- keeps_tables (get_property _) => unfold get_property
  | |- keeps_tables (user_getattr_decimal _ _) => unfold user_getattr_decimal
  | |- keeps_tables (match ?x with _ => _ end) => destruct x
  end.

Lemma keeps_gift_perform_create u gd now : keeps_tables (gift_perform_create u gd now).
Proof. unfold gift_perform_create. cbv zeta. keeps_tac. Qed.

Lemma keeps_gift_decision u gid action : keeps_tables (gift_decision u gid action).
Proof. unfold gift_decision. keeps_tac. Qed.

Lemma keeps_reassign_gift u gid em : keeps_tables (reassign_gift u gid em).
Proof. unfold reassign_gift. keeps_tac. Qed.

Lemma keeps_expire_old_gifts now : keeps_tables (expire_old_gifts now).
Proof.
  unfold expire_old_gifts. apply keeps_bind; [apply keeps_gets|intro gs].
  assert (H : forall gs0 e c, keeps_tables (expire_loop gs0 e c)).
  { induction gs0 as [|g gs0 IH]; intros e c; cbn [expire_loop]; keeps_tac; apply IH. }
  apply H.
Qed.
Lemma effect_booking_create_view db u req uuid :
  effect db (fst (booking_create_view u req uuid db)).
Proof.
  unfold booking_create_view, booking_validate, booking_perform_create. mred.
  destruct (first _) as [p|]; [|apply eff_frame; reflexivity].
  destruct (tuple_taken _ _ _ _); [apply eff_frame; reflexivity|].
  cbv beta iota zeta delta [bd_property bd_start bd_end bd_is_cancelled].
  destruct (is_approved p); [|apply eff_frame; reflexivity].
  destruct (String.eqb (property_type p) "shortlet"); [|apply eff_frame; reflexivity].
  mred.
  destruct (overlap_query _ _ _ _) eqn:Hov; [apply eff_frame; reflexivity|].
  destruct (Z.leb _ 0); [apply eff_frame; reflexivity|].
  destruct (_ && _); [|apply eff_frame; reflexivity].
  unfold save_user, create_booking. mred. cbn [bookings set_users].
  destruct (tuple_taken _ _ _ _); [apply eff_frame; reflexivity|].
  destruct (existsb _ _); [apply eff_frame; reflexivity|].
  eapply eff_booking_insert; [| | | |reflexivity|reflexivity|reflexivity];
    cbn [booking_id is_paid booking_tx_ref].
  - apply next_id_fresh.
  - reflexivity.
  - eapply overlap_query_false_disjoint; [exact Hov| reflexivity..].
  - eexists. reflexivity.
Qed.

Lemma effect_mark_booking_as_paid db bid :
  effect db (fst (mark_booking_as_paid bid db)).
Proof.
  unfold mark_booking_as_paid. mred.
  destruct (filter _ (bookings db)) as [|b [|b' l]] eqn:Hf;
    [rewrite ?String.eqb_refl; apply eff_frame; reflexivity| |apply eff_frame; reflexivity].
  destruct (filter_single_in _ _ _ Hf) as [Hin _].
  destruct (is_paid b) eqn:Hp; [apply eff_frame; reflexivity|].
  unfold save_booking. mred. cbn [properties set_bookings].
  destruct (filter _ (properties db)) as [|p [|p' l]];
    [rewrite ?String.eqb_refl| |];
    try (eapply eff_booking_update; [exact Hin|exact booking_set_paid_ok|reflexivity..]).
  unfold create_commission. mred. cbn [commissions set_bookings].
  destruct (existsb _ _);
    [eapply eff_booking_update; [exact Hin|exact booking_set_paid_ok|reflexivity..]|].
  eapply eff_booking_paid_commission; [exact Hin|exact Hp| |reflexivity..]. reflexivity.
Qed.

Lemma effect_cancel_booking db u bid today :
  effect db (fst (cancel_booking u bid today db)).
Proof.
  unfold cancel_booking. mred.
  destruct (filter _ (bookings db)) as [|b [|b' l]] eqn:Hf;
    [rewrite ?String.eqb_refl; apply eff_frame; reflexivity| |apply eff_frame; reflexivity].
  destruct (filter_single_in _ _ _ Hf) as [Hin _].
  destruct (is_cancelled b); [apply eff_frame; reflexivity|].
  destruct (Z.leb _ _); [apply eff_frame; reflexivity|].
  unfold save_booking, create_refund_log. mred.
  destruct (is_paid _);
    (eapply eff_booking_update; [exact Hin|exact booking_set_cancelled_ok|reflexivity..]).
Qed.

Lemma effect_admin_cancel_booking db bid :
  effect db (fst (admin_cancel_booking bid db)).
Proof.
  unfold admin_cancel_booking. mred.
  destruct (filter _ (bookings db)) as [|b [|b' l]] eqn:Hf;
    [rewrite ?String.eqb_refl; apply eff_frame; reflexivity| |apply eff_frame; reflexivity].
  destruct (filter_single_in _ _ _ Hf) as [Hin _].
  destruct (is_cancelled b); [apply eff_frame; reflexivity|].
  unfold save_booking, create_refund_log. mred.
  destruct (is_paid _);
    (eapply eff_booking_update; [exact Hin|exact booking_set_cancelled_ok|reflexivity..]).
Qed.

Lemma effect_top_up_investment db u iid amount now :
  effect db (fst (top_up_investment u iid amount now db)).
Proof.
  unfold top_up_investment. destruct (Qle_bool amount 0); [apply eff_frame; reflexivity|].
  mred.
  destruct (filter _ (investments db)) as [|i [|i' l]] eqn:Hf;
    [rewrite ?String.eqb_refl; apply eff_frame; reflexivity| |apply eff_frame; reflexivity].
  destruct (filter_single_in _ _ _ Hf) as [Hin _].
  destruct (String.eqb _ _); [apply eff_frame; reflexivity|].
  destruct (Qlt_bool _ _); [apply eff_frame; reflexivity|].
  unfold save_user, save_investment. mred.
  destruct (Qeq_bool _ _);
    (eapply eff_investment_update; [exact Hin| |reflexivity..]); reflexivity.
Qed.

Lemma effect_create_investment_view db u req now uuid :
  effect db (fst (create_investment_view u req now uuid db)).
Proof.
  unfold create_investment_view, investment_validate. mred.
  destruct (first _) as [p|]; [|apply eff_frame; reflexivity].
  destruct (String.eqb (ir_payment_plan req) "full") eqn:Ef;
  [|destruct (String.eqb (ir_payment_plan req) "installment") eqn:Ei;
    [|apply eff_frame; reflexivity]];
  unfold investment_perform_create; cbn [id_property id_payment_plan]; mred;
  rewrite ?Ef, ?Ei;
  (destruct (String.eqb (role u) "INVESTOR"); [|apply eff_frame; reflexivity]);
  (destruct (is_approved p); [|apply eff_frame; reflexivity]);
  (destruct (cost_price p) as [cp|]; [|apply eff_frame; reflexivity]);
  (destruct (truthy_dec cp); [|apply eff_frame; reflexivity]);
  unfold save_user, create_investment; mred; cbn [investments set_users];
  (destruct (existsb _ (investments db)); [apply eff_frame; reflexivity|]);
  (destruct (existsb _ (investments db)); [apply eff_frame; reflexivity|]);
  (eapply eff_investment_insert; [|reflexivity..]); eexists; reflexivity.
Qed.

Lemma effect_flutterwave_webhook db ev tx st now :
  effect db (fst (flutterwave_webhook ev tx st now db)).
Proof.
  unfold flutterwave_webhook.
  destruct (opt_str_eqb ev _); [|apply eff_frame; reflexivity].
  destruct (opt_str_eqb st _); [|apply eff_frame; reflexivity].
  mred.
  assert (Hinv : effect db (fst ((
    r2 <- try_dne "Investment"
          (rows <- gets (fun db => filter (fun i => opt_str_eqb (investment_tx_ref i) tx)
                                          (investments db)) ;;
           investment <- objects_get "Investment" rows ;;
           if Qlt_bool (amount_paid investment) (investment_total_price investment)
           then
             let investment := investment_settle investment in
             inv_user <- (rows <- gets (fun db => filter (fun u => Nat.eqb (user_id u)
                                                    (investor investment)) (users db)) ;;
                          objects_get "User" rows) ;;
             let inv_user := user_set_verified
                   (user_set_membership inv_user "Platinum" (now + 365 * seconds_per_day)) true in
             save_user inv_user ;;
             save_investment investment ;;
             ret (Some (resp 200 "Investment marked as fully paid"))
           else ret None) ;;
    match r2 with
    | Some (Some r) => ret r
    | _ => ret (resp 404 "No matching record found")
    end) db))).
  { mred.
    destruct (filter _ (investments db)) as [|i [|i' l]] eqn:Hg;
      [rewrite ?String.eqb_refl; apply eff_frame; reflexivity| |apply eff_frame; reflexivity].
    destruct (filter_single_in _ _ _ Hg) as [Hin _].
    destruct (Qlt_bool _ _); [|apply eff_frame; reflexivity].
    mred.
    destruct (filter _ (users db)) as [|v [|v' l]]; [apply eff_frame; reflexivity| |apply eff_frame; reflexivity].
    unfold save_user, save_investment. mred.
    eapply eff_investment_update; [exact Hin| |reflexivity..]. reflexivity. }
  destruct (filter _ (bookings db)) as [|b [|b' l]] eqn:Hf;
    [rewrite ?String.eqb_refl; exact Hinv| |apply eff_frame; reflexivity].
  destruct (filter_single_in _ _ _ Hf) as [Hin _].
  destruct (is_paid b); cbn [negb]; [exact Hinv|].
  unfold save_booking. mred.
  eapply eff_booking_update; [exact Hin|exact booking_set_paid_ok|reflexivity..].
Qed.

Lemma NoDup_map_filter {A B} (f : A -> B) (p : A -> bool) l :
  NoDup (map f l) -> NoDup (map f (filter p l)).
Proof.
  induction l as [|x l IH]; intro H; [constructor|].
  inversion H as [|y z Hnot Hnd]; subst. cbn [filter].
  destruct (p x); [|now apply IH]. cbn [map]. constructor; [|now apply IH].
  intro Hin. apply Hnot. apply in_map_iff in Hin. destruct Hin as (y & Hy & Hyin).
  apply filter_In in Hyin. rewrite <- Hy. apply in_map. apply Hyin.
Qed.

Lemma Forall_filter_keep {A} (P : A -> Prop) (p : A -> bool) l :
  Forall P l -> Forall P (filter p l).
Proof.
  intro H. apply Forall_forall. intros x Hx. apply filter_In in Hx.
  exact (proj1 (Forall_forall _ _) H x (proj1 Hx)).
Qed.

Lemma ForallOrdPairs_filter {A} (R : A -> A -> Prop) (p : A -> bool) l :
  ForallOrdPairs R l -> ForallOrdPairs R (filter p l).
Proof.
  intro H. induction H as [|a l Ha H IH]; [constructor|]. cbn [filter].
  destruct (p a); [|exact IH]. constructor; [|exact IH]. now apply Forall_filter_keep.
Qed.

Lemma keeps_effect {A} (c : M A) db : keeps_tables c -> effect db (fst (c db)).
Proof. intro H. destruct (H db) as (? & ? & ?). now apply eff_frame. Qed.

Lemma step_effect db db' : step db db' -> effect db db'.
Proof.
  intro H. destruct H.
  - apply effect_booking_create_view.
  - apply effect_mark_booking_as_paid.
  - apply effect_flutterwave_webhook.
  - apply effect_cancel_booking.
  - apply effect_admin_cancel_booking.
  - apply keeps_effect, keeps_gift_perform_create.
  - apply keeps_effect, keeps_gift_decision.
  - apply keeps_effect, keeps_expire_old_gifts.
  - apply keeps_effect, keeps_reassign_gift.
  - apply effect_create_investment_view.
  - apply effect_top_up_investment.
  - eapply eff_delete; reflexivity.
  - apply eff_frame; reflexivity.
Qed.

Lemma effect_store_inv db db' : store_inv db -> effect db db' -> store_inv db'.
Proof.
  intros [Hnd Hndb Hcom Hbr Hir] He.
  destruct He as [Eb Ec Ei
                 |b Hfresh Hpaid Hdisj Hpre Eb Ec Ei
                 |b f Hin Hf Eb Ec Ei
                 |b c Hin Hpaid Hcb Eb Ec Ei
                 |i Hpre Eb Ec Ei
                 |pid Eb Ec Ei
                 |i i' Hin Htx Eb Ec Ei].
  - constructor; rewrite ?Eb, ?Ec, ?Ei; assumption.
  - constructor; rewrite ?Eb, ?Ec, ?Ei.
    + simpl. constructor; assumption.
    + constructor; assumption.
    + intros c Hc. right. now apply Hcom.
    + constructor; assumption.
    + assumption.
  - assert (Hfb : has_prefix "TobiTx-" (booking_tx_ref (f b))).
    { destruct (Hf b) as (_ & _ & _ & _ & -> & _). exact (proj1 (Forall_forall _ _) Hbr b Hin). }
    constructor; rewrite ?Eb, ?Ec, ?Ei.
    + rewrite replace_booking_ids. assumption.
    + now apply no_double_booking_update.
    + rewrite replace_booking_ids. assumption.
    + now apply Forall_replace_booking.
    + assumption.
  - constructor; rewrite ?Eb, ?Ec, ?Ei.
    + rewrite replace_booking_ids. assumption.
    + apply no_double_booking_update; [exact booking_set_paid_ok|assumption..].
    + rewrite replace_booking_ids. intros c' [<-|Hc]; [|now apply Hcom].
      rewrite Hcb. now apply in_map.
    + apply Forall_replace_booking; [assumption|].
      exact (proj1 (Forall_forall _ _) Hbr b Hin).
    + assumption.
  - constructor; rewrite ?Eb, ?Ec, ?Ei; try assumption. constructor; assumption.
  - constructor; rewrite ?Eb, ?Ec, ?Ei.
    + now apply NoDup_map_filter.
    + now apply ForallOrdPairs_filter.
    + intros c Hc. apply filter_In in Hc. destruct Hc as [Hc Hkeep].
      destruct (proj1 (in_map_iff _ _ _) (Hcom c Hc)) as (b & Hid & Hb).
      apply in_map_iff. exists b. split; [exact Hid|]. apply filter_In. split; [exact Hb|].
      destruct (Nat.eqb (booking_property b) pid) eqn:E; [|reflexivity].
      exfalso. apply Bool.negb_true_iff in Hkeep.
      assert (Hx : existsb (fun b => Nat.eqb (booking_id b) (commission_booking c)
                                     && Nat.eqb (booking_property b) pid) (bookings db) = true).
      { apply existsb_exists. exists b. split; [exact Hb|]. rewrite Hid, Nat.eqb_refl, E.
        reflexivity. }
      congruence.
    + now apply Forall_filter_keep.
    + now apply Forall_filter_keep.
  - constructor; rewrite ?Eb, ?Ec, ?Ei; try assumption.
    apply Forall_replace_investment; [assumption|]. unfold has_prefix in *. rewrite Htx.
    exact (proj1 (Forall_forall _ _) Hir i Hin).
Qed.

Lemma steps_store_inv db db' : store_inv db -> steps db db' -> store_inv db'.
Proof.
  intros Hi Hs. induction Hs as [db|db1 db2 db3 Hstep Hs IH]; [exact Hi|].
  apply IH. eapply effect_store_inv; [exact Hi|]. now apply step_effect.
Qed.

Lemma initial_store_inv db : initial db -> store_inv db.
Proof.
  intros (Hb & Hc & _ & Hi & _). constructor; rewrite ?Hb, ?Hc, ?Hi; try constructor.
  intros c [].
Qed.

Lemma reachable_store_inv db : reachable db -> store_inv db.
Proof.
  intros (db0 & H0 & Hs). eapply steps_store_inv; [|exact Hs]. now apply initial_store_inv.
Qed.

Lemma steps_snoc db1 db2 db3 : steps db1 db2 -> step db2 db3 -> steps db1 db3.
Proof.
  induction 1 as [db|d1 d2 d3 Hs Hss IH]; intro H.
  - eapply steps_step; [exact H|apply steps_refl].
  - eapply steps_step; [exact Hs|now apply IH].
Qed.

Lemma reachable_step db db' : reachable db -> step db db' -> reachable db'.
Proof.
  intros (db0 & Hi & Hs) H. exists db0. split; [exact Hi|]. exact (steps_snoc _ _ _ Hs H).
Qed.

Lemma steps_while_first P db db' : steps_while P db db' -> P db.
Proof. now destruct 1. Qed.

Lemma steps_while_last P db db' : steps_while P db db' -> P db'.
Proof. induction 1; assumption. Qed.

(** ** Rows that no operation changes again *)

Lemma nodup_map_inj {A B} (f : A -> B) l x y :
  NoDup (map f l) -> In x l -> In y l -> f x = f y -> x = y.
Proof.
  induction l as [|z l IH]; intros Hnd Hx Hy Hf; [destruct Hx|].
  inversion Hnd as [|w m Hnot Hnd']; subst.
  destruct Hx as [<-|Hx], Hy as [<-|Hy]; [reflexivity| | |now apply IH].
  - exfalso. apply Hnot. rewrite Hf. now apply in_map.
  - exfalso. apply Hnot. rewrite <- Hf. now apply in_map.
Qed.

Lemma in_replace_booking r b l : In r (replace_booking b l) -> r = b \/ In r l.
Proof.
  unfold replace_booking. intro H. apply in_map_iff in H as (x & Hx & Hin).
  destruct (Nat.eqb _ _); [now left|subst; now right].
Qed.

(** A booking row that is both paid and cancelled is never rewritten: the
    saves of the views set a flag that it already has, and keys are unique. *)
Lemma closed_booking_effect db db' b :
  NoDup (map booking_id (bookings db)) -> effect db db' ->
  In b (bookings db) -> is_paid b = true -> is_cancelled b = true ->
  forall b', In b' (bookings db') -> booking_id b' = booking_id b -> b' = b.
Proof.
  intros Hnd He Hb Hp Hc b' Hb' Hid.
  assert (Hold : In b' (bookings db) -> b' = b)
    by (intro H; exact (nodup_map_inj booking_id _ _ _ Hnd H Hb Hid)).
  destruct He as [E _ _|x Hf _ _ _ E _ _|x f Hx Hf E _ _|x c Hx Hpx _ E _ _|i _ E _ _
                 |pid E _ _|i i' _ _ E _ _]; rewrite E in Hb'.
  - auto.
  - destruct Hb' as [<-|Hb']; [|auto]. exfalso. apply Hf. rewrite Hid. now apply in_map.
  - destruct (in_replace_booking _ _ _ Hb') as [->|Hb'']; [|auto].
    destruct (Hf x) as (Hi & Hpr & Hs & Hen & Htx & _ & Hpd & Hu & Htot & Hcc).
    assert (x = b) by (apply (nodup_map_inj booking_id _ _ _ Hnd Hx Hb); congruence). subst x.
    specialize (Hpd Hp). specialize (Hcc Hc).
    remember (f b) as y eqn:Ey. clear Ey.
    destruct y, b; cbn in *; subst; reflexivity.
  - destruct (in_replace_booking _ _ _ Hb') as [->|Hb'']; [|auto].
    exfalso. assert (x = b) by (apply (nodup_map_inj booking_id _ _ _ Hnd Hx Hb); exact Hid).
    subst x. congruence.
  - auto.
  - apply filter_In in Hb' as [Hb' _]. auto.
  - auto.
Qed.

Lemma closed_booking_step db db' b :
  reachable db -> step db db' -> In b (bookings db) -> is_paid b = true ->
  is_cancelled b = true ->
  forall b', In b' (bookings db') -> booking_id b' = booking_id b -> b' = b.
Proof.
  intros Hr Hs. apply closed_booking_effect; [|now apply step_effect].
  exact (inv_booking_keys _ (reachable_store_inv _ Hr)).
Qed.

(** Along a run in which its key stays in the store, a paid and cancelled
    booking row stays as it is. *)
Lemma closed_booking_run db db' b :
  reachable db ->
  steps_while (fun d => In (booking_id b) (map booking_id (bookings d))) db db' ->
  In b (bookings db) -> is_paid b = true -> is_cancelled b = true ->
  reachable db' /\ In b (bookings db').
Proof.
  intros Hr Hs. induction Hs as [d _|d1 d2 d3 _ Hst Hs IH]; intros Hb Hp Hc; [auto|].
  apply IH; [exact (reachable_step _ _ Hr Hst)| |exact Hp|exact Hc].
  apply steps_while_first in Hs. apply in_map_iff in Hs as (b' & Hid & Hb').
  rewrite <- (closed_booking_step d1 d2 b Hr Hst Hb Hp Hc b' Hb' Hid). exact Hb'.
Qed.

(** ** C6: the date-conflict check and the no-double-booking invariant *)

Lemma first_filter_some {A} (f : A -> bool) l x : first (filter f l) = Some x -> f x = true.
Proof.
  intro H. assert (Hin : In x (filter f l)).
  { destruct (filter f l) as [|y l']; [discriminate H|]. injection H as ->. now left. }
  apply filter_In in Hin. exact (proj2 Hin).
Qed.

(** The overlap check of [perform_create], for an approved short-let
    listing. *)
Lemma booking_perform_create_conflict_iff db u vd uuid :
  is_approved (bd_property vd) = true ->
  property_type (bd_property vd) = "shortlet" ->
  (snd (booking_perform_create u vd uuid db) = Raised (ValidationError msg_already_booked) <->
   exists b, In b (bookings db) /\ booking_property b = property_id (bd_property vd) /\
             is_cancelled b = false /\
             (start_date b < bd_end vd)%Z /\ (end_date b > bd_start vd)%Z).
Proof.
  intros Happ Htype. unfold booking_perform_create.
  rewrite Happ, Htype, String.eqb_refl. mred.
  destruct (overlap_query _ _ _ _) eqn:Hov.
  - split; [intros _|reflexivity].
    unfold overlap_query in Hov. apply existsb_exists in Hov.
    destruct Hov as (b & Hin & Hb).
    apply andb_prop in Hb as [Hb He]. apply andb_prop in Hb as [Hb Hs].
    apply andb_prop in Hb as [Hp Hc].
    exists b. split; [exact Hin|]. split; [now apply Nat.eqb_eq|].
    split; [now destruct (is_cancelled b)|].
    split; [now apply Z.ltb_lt|]. apply Z.gtb_lt in He. lia.
  - split.
    + intro H. exfalso.
      destruct (Z.leb _ 0); [discriminate H|].
      destruct (_ && _); [|discriminate H].
      unfold save_user, create_booking in H. mred_in H.
      destruct (tuple_taken _ _ _ _); [discriminate H|].
      destruct (existsb _ _); discriminate H.
    + intros (b & Hin & Hp & Hc & Hs & He).
      assert (Hx : overlap_query (property_id (bd_property vd)) (bd_start vd) (bd_end vd)
                     (bookings db) = true).
      { apply existsb_exists. exists b. split; [exact Hin|].
        rewrite Hp, Nat.eqb_refl, Hc. simpl.
        apply andb_true_intro. split; [now apply Z.ltb_lt|]. apply Z.gtb_lt. lia. }
      congruence.
Qed.

(** Counterexample to claim C6 as stated: an active booking of listing 1
    for days 10 to 13 overlaps a new request for the same days, yet the
    request is refused by the serializer's [UniqueTogetherValidator] with
    its own message, not with the date-conflict message. *)
Lemma identical_range_gets_unique_set_error :
  snd (booking_create_view guest_bola (mkBookingRequest 1 10 13 false) "c0de"
         store_unpaid_booking) = Raised (ValidationError msg_unique_set) /\
  In unpaid_booking (bookings store_unpaid_booking) /\
  booking_property unpaid_booking = 1%nat /\ is_cancelled unpaid_booking = false /\
  (start_date unpaid_booking < 13)%Z /\ (end_date unpaid_booking > 10)%Z.
Proof.
  split; [vm_compute; reflexivity|].
  split; [left; reflexivity|]. split; [reflexivity|]. split; [reflexivity|].
  split; reflexivity.
Qed.

(** Claim C6, as amended. For a request on an approved short-let listing
    whose (listing, start, end) triple is not already in the table (the
    serializer refuses such a triple first, cancelled rows included),
    [BookingCreateView] fails with "This date range is already booked."
    exactly when an active booking of the listing overlaps the requested
    range in the half-open sense (existing start < requested end and
    existing end > requested start). Any two distinct active bookings of a
    listing in a reachable store have non-overlapping ranges, and a booking
    ending on day D (or starting on day D) never counts as a conflict for a
    request starting (or ending) on day D. *)
Theorem booking_date_conflict_half_open :
  (forall db u req uuid p,
     first (filter (fun q => Nat.eqb (property_id q) (br_property req)) (properties db))
       = Some p ->
     is_approved p = true -> property_type p = "shortlet" ->
     tuple_taken (br_property req) (br_start req) (br_end req) (bookings db) = false ->
     (snd (booking_create_view u req uuid db) = Raised (ValidationError msg_already_booked) <->
      exists b, In b (bookings db) /\ booking_property b = br_property req /\
                is_cancelled b = false /\
                (start_date b < br_end req)%Z /\ (end_date b > br_start req)%Z)) /\
  (forall db, reachable db ->
     forall a b, In a (bookings db) -> In b (bookings db) -> booking_id a <> booking_id b ->
     booking_property a = booking_property b -> is_cancelled a = false ->
     is_cancelled b = false ->
     ~ (start_date a < end_date b /\ end_date a > start_date b)%Z) /\
  (forall prop s e b rows,
     (end_date b = s \/ start_date b = e) ->
     overlap_query prop s e (b :: rows) = overlap_query prop s e rows).
Proof.
  split; [|split].
  - intros db u req uuid p Hp Happ Htype Htup.
    assert (Hid : property_id p = br_property req)
      by (apply Nat.eqb_eq; exact (first_filter_some _ _ _ Hp)).
    unfold booking_create_view, booking_validate. mred. rewrite Hp, Htup.
    rewrite <- Hid.
    exact (booking_perform_create_conflict_iff db u
             (mkBookingData p (br_start req) (br_end req) (br_is_cancelled req)) uuid
             Happ Htype).
  - intros db Hr a b Ha Hb Hid Hp Hca Hcb.
    destruct (reachable_store_inv db Hr) as [_ Hndb _ _ _].
    destruct (ForallOrdPairs_In Hndb a b Ha Hb) as [<-|[H|H]]; [contradiction|..].
    + exact (H Hp Hca Hcb).
    + intros [H1 H2]. apply (H (eq_sym Hp) Hcb Hca). lia.
  - intros prop s e b rows Hd. unfold overlap_query. cbn [existsb].
    destruct Hd as [Hd|Hd]; rewrite Hd.
    + assert (Hg : Z.gtb s s = false) by (unfold Z.gtb; now rewrite Z.compare_refl).
      rewrite Hg, andb_false_r. reflexivity.
    + rewrite Z.ltb_irrefl, andb_false_r. reflexivity.
Qed.

Lemma booking_date_conflict_half_open_witness :
  snd (booking_create_view guest_bola (mkBookingRequest 1 12 14 false) "c0de"
         store_unpaid_booking) = Raised (ValidationError msg_already_booked) /\
  overlap_query 1 13 15 (unpaid_booking :: []) = overlap_query 1 13 15 [].
Proof.
  destruct booking_date_conflict_half_open as (H1 & _ & H3). split.
  - apply (proj2 (H1 store_unpaid_booking guest_bola (mkBookingRequest 1 12 14 false)
                    "c0de" lekki_flat eq_refl eq_refl eq_refl eq_refl)).
    exists unpaid_booking. split; [left; reflexivity|].
    split; [reflexivity|]. split; [reflexivity|]. split; reflexivity.
  - apply H3. left. reflexivity.
Defined.

(** ** C10: bookings paid from credit never earn a commission *)

Lemma booking_create_view_success db u req uuid db1 :
  booking_create_view u req uuid db = (db1, Ok tt) ->
  exists b, bookings db1 = b :: bookings db /\
            booking_id b = next_id (map booking_id (bookings db)) /\
            is_paid b = true /\ commissions db1 = commissions db.
Proof.
  intro H. unfold booking_create_view, booking_validate, booking_perform_create in H. mred_in H.
  destruct (first _) as [p|]; [|discriminate H].
  destruct (tuple_taken _ _ _ _); [discriminate H|].
  cbv beta iota zeta delta [bd_property bd_start bd_end bd_is_cancelled] in H.
  destruct (is_approved p); [|discriminate H].
  destruct (String.eqb (property_type p) "shortlet"); [|discriminate H].
  mred_in H.
  destruct (overlap_query _ _ _ _); [discriminate H|].
  destruct (Z.leb _ 0); [discriminate H|].
  destruct (_ && _); [|discriminate H].
  unfold save_user, create_booking in H. mred_in H. cbn [bookings set_users] in H.
  destruct (tuple_taken _ _ _ _); [discriminate H|].
  destruct (existsb _ _); [discriminate H|].
  injection H as <-. eexists. split; [reflexivity|]. split; [reflexivity|].
  split; reflexivity.
Qed.

Lemma effect_paid_uncommissioned k db db' :
  effect db db' ->
  Forall (fun b => booking_id b = k -> is_paid b = true) (bookings db) ->
  Forall (fun c => commission_booking c <> k) (commissions db) ->
  Forall (fun b => booking_id b = k -> is_paid b = true) (bookings db') /\
  Forall (fun c => commission_booking c <> k) (commissions db').
Proof.
  intros He Hb Hc.
  destruct He as [Eb Ec Ei
                 |b Hfresh Hpaid Hdisj Hpre Eb Ec Ei
                 |b f Hin Hf Eb Ec Ei
                 |b c Hin Hpaid Hcb Eb Ec Ei
                 |i Hpre Eb Ec Ei
                 |pid Eb Ec Ei
                 |i i' Hin Htx Eb Ec Ei];
    rewrite Eb, Ec; try (split; assumption).
  4: split; now apply Forall_filter_keep.
  - split; [|assumption]. constructor; [now intros _|assumption].
  - split; [|assumption]. apply Forall_replace_booking; [assumption|].
    destruct (Hf b) as (Hid & _ & _ & _ & _ & _ & Hmono). rewrite Hid. intro Hk.
    apply Hmono. exact (proj1 (Forall_forall _ _) Hb b Hin Hk).
  - split.
    + apply Forall_replace_booking; [assumption|]. intros _. reflexivity.
    + constructor; [|assumption]. rewrite Hcb. intro Hk.
      rewrite (proj1 (Forall_forall _ _) Hb b Hin Hk) in Hpaid. discriminate Hpaid.
Qed.

Lemma steps_paid_uncommissioned k db db' :
  steps db db' ->
  Forall (fun b => booking_id b = k -> is_paid b = true) (bookings db) ->
  Forall (fun c => commission_booking c <> k) (commissions db) ->
  Forall (fun b => booking_id b = k -> is_paid b = true) (bookings db') /\
  Forall (fun c => commission_booking c <> k) (commissions db').
Proof.
  intros Hs. induction Hs as [db|db1 db2 db3 Hstep Hs IH]; [now split|].
  intros Hb Hc. destruct (effect_paid_uncommissioned k _ _ (step_effect _ _ Hstep) Hb Hc).
  now apply IH.
Qed.

(** Claim C10. A booking created by [BookingCreateView] in a reachable
    store is inserted already paid, under the fresh key
    [next_id (map booking_id (bookings db))]; in every store reached from
    there by any sequence of operations the rows with that key are still
    paid and no commission refers to that key. *)
Theorem credit_booking_never_commissioned :
  forall db u req uuid db1 db2,
    reachable db ->
    booking_create_view u req uuid db = (db1, Ok tt) ->
    steps db1 db2 ->
    let k := next_id (map booking_id (bookings db)) in
    (exists b, bookings db1 = b :: bookings db /\ booking_id b = k /\ is_paid b = true) /\
    Forall (fun b => booking_id b = k -> is_paid b = true) (bookings db2) /\
    Forall (fun c => commission_booking c <> k) (commissions db2).
Proof.
  intros db u req uuid db1 db2 Hr Hc Hs k.
  destruct (booking_create_view_success _ _ _ _ _ Hc) as (b & Eb & Hid & Hpaid & Ec).
  split; [exists b; auto|].
  destruct (reachable_store_inv db Hr) as [_ _ Hcom _ _].
  apply (steps_paid_uncommissioned k db1 db2 Hs).
  - rewrite Eb. constructor; [now intros _|].
    apply Forall_forall. intros r Hin Hk. exfalso.
    apply (next_id_fresh (map booking_id (bookings db))). fold k. rewrite <- Hk.
    now apply in_map.
  - rewrite Ec. apply Forall_forall. intros c Hin Hk.
    apply (next_id_fresh (map booking_id (bookings db))). fold k. rewrite <- Hk.
    now apply Hcom.
Qed.

Lemma initial_store_empty_bookings : initial store_empty_bookings.
Proof. repeat split. Qed.

Lemma credit_booking_never_commissioned_witness :
  let req := mkBookingRequest 1 10 13 false in
  let db1 := fst (booking_create_view guest_bola req "c0de" store_empty_bookings) in
  let db2 := fst (mark_booking_as_paid 1 db1) in
  (exists b, bookings db1 = b :: bookings store_empty_bookings /\ booking_id b = 1%nat
             /\ is_paid b = true) /\
  Forall (fun b => booking_id b = 1%nat -> is_paid b = true) (bookings db2) /\
  Forall (fun c => commission_booking c <> 1%nat) (commissions db2).
Proof.
  intros req db1 db2.
  apply (credit_booking_never_commissioned store_empty_bookings guest_bola req "c0de" db1 db2).
  - exists store_empty_bookings. split; [exact initial_store_empty_bookings|apply steps_refl].
  - vm_compute. reflexivity.
  - eapply steps_step; [apply step_mark_paid|apply steps_refl].
Defined.

(** ** C5: reprocessing a settled reference *)

Lemma webhook_matched_eq ev tx st now db :
  opt_str_eqb ev (Some "charge.completed") = true ->
  opt_str_eqb st (Some "successful") = true ->
  flutterwave_webhook ev tx st now db =
  match filter (fun b => opt_str_eqb (booking_tx_ref b) tx) (bookings db) with
  | [] => webhook_investment_part tx now db
  | [b] => if is_paid b then webhook_investment_part tx now db
           else (set_bookings (replace_booking (booking_set_paid b) (bookings db)) db,
                 Ok (resp 200 "Booking marked as paid"))
  | _ :: _ :: _ => (db, Raised (MultipleObjectsReturned "Booking"))
  end.
Proof.
  intros He Hs. unfold flutterwave_webhook. rewrite He, Hs. mred.
  destruct (filter _ (bookings db)) as [|b [|b' l]];
    [rewrite String.eqb_refl; reflexivity| |reflexivity].
  destruct (is_paid b); reflexivity.
Qed.

Lemma webhook_investment_part_eq tx now db :
  webhook_investment_part tx now db =
  match filter (fun i => opt_str_eqb (investment_tx_ref i) tx) (investments db) with
  | [] => (db, Ok (resp 404 "No matching record found"))
  | [i] =>
      if Qlt_bool (amount_paid i) (investment_total_price i) then
        match filter (fun u => Nat.eqb (user_id u) (investor i)) (users db) with
        | [v] =>
            (set_investments (replace_investment (investment_quantize (investment_settle i))
                                                 (investments db))
               (set_users (replace_user (user_set_verified
                  (user_set_membership v "Platinum" (now + 365 * seconds_per_day)) true)
                  (users db)) db),
             Ok (resp 200 "Investment marked as fully paid"))
        | [] => (db, Raised (DoesNotExist "User"))
        | _ :: _ :: _ => (db, Raised (MultipleObjectsReturned "User"))
        end
      else (db, Ok (resp 404 "No matching record found"))
  | _ :: _ :: _ => (db, Raised (MultipleObjectsReturned "Investment"))
  end.
Proof.
  unfold webhook_investment_part. mred.
  destruct (filter _ (investments db)) as [|i [|i' l]];
    [rewrite String.eqb_refl; reflexivity| |reflexivity].
  destruct (Qlt_bool _ _); [|reflexivity]. mred.
  destruct (filter _ (users db)) as [|v [|v' l]]; reflexivity.
Qed.

Lemma Qlt_bool_refl q : Qlt_bool q q = false.
Proof. unfold Qlt_bool. rewrite (proj2 (Qle_bool_iff q q) (Qle_refl q)). reflexivity. Qed.

(** Once every investment carrying the reference is settled, the investment
    half of the webhook changes nothing. *)
Lemma webhook_investment_part_noop tx now db :
  (forall i, In i (investments db) -> opt_str_eqb (investment_tx_ref i) tx = true ->
             Qlt_bool (amount_paid i) (investment_total_price i) = false) ->
  fst (webhook_investment_part tx now db) = db.
Proof.
  intro H. rewrite webhook_investment_part_eq.
  destruct (filter _ (investments db)) as [|i [|i' l]] eqn:Hf; [reflexivity| |reflexivity].
  destruct (filter_single_in _ _ _ Hf) as [Hin Hm]. rewrite (H i Hin Hm). reflexivity.
Qed.

Lemma webhook_investment_part_bookings tx now db :
  bookings (fst (webhook_investment_part tx now db)) = bookings db.
Proof.
  rewrite webhook_investment_part_eq.
  destruct (filter _ (investments db)) as [|i [|i' l]]; try reflexivity.
  destruct (Qlt_bool _ _); [|reflexivity].
  destruct (filter _ (users db)) as [|v [|v' l]]; reflexivity.
Qed.

Lemma webhook_investment_part_idempotent tx now1 now2 db :
  fst (webhook_investment_part tx now2 (fst (webhook_investment_part tx now1 db))) =
  fst (webhook_investment_part tx now1 db).
Proof.
  rewrite (webhook_investment_part_eq tx now1 db).
  destruct (filter _ (investments db)) as [|i [|i' l]] eqn:Hf; cbn [fst].
  - rewrite webhook_investment_part_eq, Hf. reflexivity.
  - destruct (Qlt_bool _ _) eqn:Hq.
    + destruct (filter _ (users db)) as [|v [|v' l]] eqn:Hu; cbn [fst].
      * rewrite webhook_investment_part_eq, Hf, Hq, Hu. reflexivity.
      * apply webhook_investment_part_noop. cbn [investments set_investments set_users].
        unfold replace_investment. intros r Hr Hm.
        apply in_map_iff in Hr. destruct Hr as (x & Hx & Hxin).
        destruct (Nat.eqb (investment_id x)
                          (investment_id (investment_quantize (investment_settle i)))) eqn:E.
        -- subst r. apply Qlt_bool_refl.
        -- subst r. exfalso.
           assert (Hxf : In x (filter (fun i => opt_str_eqb (investment_tx_ref i) tx)
                                      (investments db)))
             by (apply filter_In; auto).
           rewrite Hf in Hxf. destruct Hxf as [<-|[]].
           rewrite Nat.eqb_refl in E. discriminate E.
      * rewrite webhook_investment_part_eq, Hf, Hq, Hu. reflexivity.
    + cbn [fst]. rewrite webhook_investment_part_eq, Hf, Hq. reflexivity.
  - rewrite webhook_investment_part_eq, Hf. reflexivity.
Qed.

Lemma filter_map_commute {A} (f : A -> bool) (h : A -> A) l :
  (forall x, f (h x) = f x) -> filter f (map h l) = map h (filter f l).
Proof.
  intro H. induction l as [|x l IH]; [reflexivity|]. cbn [map filter].
  rewrite H. destruct (f x); cbn [map]; now rewrite IH.
Qed.

Lemma opt_str_eqb_eq a b : opt_str_eqb a b = true -> a = b.
Proof.
  destruct a, b; cbn; try discriminate; [|reflexivity].
  intro H. apply String.eqb_eq in H. now subst.
Qed.

(** Booking and investment references never coincide. *)
Lemma booking_investment_refs_differ s1 s2 :
  Some ("TobiInvest-" ++ s2) <> Some ("TobiTx-" ++ s1).
Proof. discriminate. Qed.

(** Claim C5. In a reachable store, the Flutterwave webhook applied a second
    time with the same event, reference and status (at any later time)
    leaves the store exactly as the first application left it: bookings,
    investments, users and every other table. *)
Theorem webhook_reprocessing_idempotent :
  forall db ev tx st now1 now2,
    reachable db ->
    let db1 := fst (flutterwave_webhook ev tx st now1 db) in
    fst (flutterwave_webhook ev tx st now2 db1) = db1.
Proof.
  intros db ev tx st now1 now2 Hr db1.
  destruct (reachable_store_inv db Hr) as [Hnd _ _ Hbr Hir].
  destruct (opt_str_eqb ev (Some "charge.completed")) eqn:He;
    [|subst db1; unfold flutterwave_webhook; rewrite He; reflexivity].
  destruct (opt_str_eqb st (Some "successful")) eqn:Hs;
    [|subst db1; unfold flutterwave_webhook; rewrite He, Hs; reflexivity].
  subst db1. rewrite (webhook_matched_eq ev tx st now1 db He Hs).
  destruct (filter _ (bookings db)) as [|b [|b' l]] eqn:Hf.
  - rewrite webhook_matched_eq by assumption.
    rewrite webhook_investment_part_bookings, Hf.
    apply webhook_investment_part_idempotent.
  - destruct (is_paid b) eqn:Hp.
    + rewrite webhook_matched_eq by assumption.
      rewrite webhook_investment_part_bookings, Hf, Hp.
      apply webhook_investment_part_idempotent.
    + destruct (filter_single_in _ _ _ Hf) as [Hin Hm].
      rewrite webhook_matched_eq by assumption. cbn [bookings set_bookings fst].
      rewrite (replace_booking_in_place booking_set_paid b _ booking_set_paid_ok Hnd Hin).
      rewrite filter_map_commute by (intro x; destruct (Nat.eqb _ _); reflexivity).
      rewrite Hf. cbn [map].
      rewrite Nat.eqb_refl. cbn [is_paid booking_set_paid].
      apply webhook_investment_part_noop. cbn [investments set_bookings].
      intros i Hi Hmi. exfalso.
      apply opt_str_eqb_eq in Hm, Hmi.
      destruct (proj1 (Forall_forall _ _) Hbr b Hin) as [s1 Hs1].
      destruct (proj1 (Forall_forall _ _) Hir i Hi) as [s2 Hs2].
      apply (booking_investment_refs_differ s1 s2). congruence.
  - cbn [fst]. rewrite webhook_matched_eq, Hf by assumption. reflexivity.
Qed.

Lemma initial_store_investor : initial store_investor.
Proof. repeat split. Qed.

(** An installment investment created through the view, then settled by
    the webhook and reprocessed a day later. *)
Lemma webhook_reprocessing_idempotent_witness :
  let db := fst (create_investment_view investor_dayo (mkInvestmentRequest 3 "installment")
                   0 "91c2" store_investor) in
  let db1 := fst (flutterwave_webhook (Some "charge.completed") (Some "TobiInvest-91c2")
                    (Some "successful") 100 db) in
  reachable db /\
  fst (flutterwave_webhook (Some "charge.completed") (Some "TobiInvest-91c2")
         (Some "successful") 86500 db1) = db1.
Proof.
  intros db db1.
  assert (Hr : reachable db).
  { exists store_investor. split; [exact initial_store_investor|].
    eapply steps_step; [apply step_investment_create|apply steps_refl]. }
  split; [exact Hr|].
  apply (webhook_reprocessing_idempotent db _ _ _ 100 86500 Hr).
Defined.

(* ================================================================== *)
(** * Further properties of the views *)
(* ================================================================== *)

(** ** Every reachable booking is paid, so no commission is ever created *)

Lemma effect_all_paid_no_commission db db' :
  effect db db' ->
  Forall (fun b => is_paid b = true) (bookings db) -> commissions db = [] ->
  Forall (fun b => is_paid b = true) (bookings db') /\ commissions db' = [].
Proof.
  intros He Hb Hc.
  destruct He as [Eb Ec Ei
                 |b Hfresh Hpaid Hdisj Hpre Eb Ec Ei
                 |b f Hin Hf Eb Ec Ei
                 |b c Hin Hpaid Hcb Eb Ec Ei
                 |i Hpre Eb Ec Ei
                 |pid Eb Ec Ei
                 |i i' Hin Htx Eb Ec Ei];
    rewrite Eb, Ec; rewrite ?Hc; try (split; [assumption|reflexivity]).
  - split; [constructor; assumption|reflexivity].
  - split; [|reflexivity]. apply Forall_replace_booking; [assumption|].
    destruct (Hf b) as (_ & _ & _ & _ & _ & _ & Hmono). apply Hmono.
    exact (proj1 (Forall_forall _ _) Hb b Hin).
  - rewrite (proj1 (Forall_forall _ _) Hb b Hin) in Hpaid. discriminate Hpaid.
  - split; [now apply Forall_filter_keep|reflexivity].
Qed.

(** Bookings are created only by [BookingCreateView], which stores them
    paid from the user's credit; no operation clears [is_paid]. So in every
    reachable store all bookings are paid, [MarkBookingAsPaidView] always
    answers "Already paid", and the commission table stays empty. *)
Theorem reachable_bookings_paid_no_commissions :
  forall db, reachable db ->
  Forall (fun b => is_paid b = true) (bookings db) /\ commissions db = [].
Proof.
  intros db (db0 & (Hb & Hc & _) & Hs).
  assert (H0 : Forall (fun b => is_paid b = true) (bookings db0) /\ commissions db0 = [])
    by (rewrite Hb, Hc; split; [constructor|reflexivity]).
  clear Hb Hc. induction Hs as [db|db1 db2 db3 Hstep Hs IH]; [exact H0|].
  apply IH. destruct H0 as [H1 H2].
  exact (effect_all_paid_no_commission _ _ (step_effect _ _ Hstep) H1 H2).
Qed.

Lemma reachable_bookings_paid_no_commissions_witness :
  let db := fst (booking_create_view guest_bola (mkBookingRequest 1 10 13 false) "c0de"
                   store_empty_bookings) in
  reachable db /\
  Forall (fun b => is_paid b = true) (bookings db) /\ commissions db = [].
Proof.
  intro db.
  assert (Hr : reachable db).
  { exists store_empty_bookings. split; [repeat split|].
    eapply steps_step; [apply step_booking_create|apply steps_refl]. }
  split; [exact Hr|]. exact (reachable_bookings_paid_no_commissions db Hr).
Defined.

(** ** The investment table: balanced rows, one per investor and listing *)

Lemma map_replace_investment {B} (f : Investment -> B) i i' l :
  NoDup (map investment_id l) -> In i l -> investment_id i' = investment_id i ->
  f i' = f i -> map f (replace_investment i' l) = map f l.
Proof.
  intros Hnd Hin Hid Hf. unfold replace_investment. rewrite map_map.
  apply map_ext_in. intros r Hr.
  destruct (Nat.eqb (investment_id r) (investment_id i')) eqn:E; [|reflexivity].
  apply Nat.eqb_eq in E. rewrite Hid in E.
  rewrite (nodup_map_inj investment_id l r i Hnd Hr Hin E). exact Hf.
Qed.

Lemma in_replace_investment r i' l :
  In r (replace_investment i' l) -> r = i' \/ In r l.
Proof.
  unfold replace_investment. intro H. apply in_map_iff in H as (x & Hx & Hin).
  destruct (Nat.eqb _ _); [now left|subst; now right].
Qed.

Lemma investment_effect_inv db db' :
  investment_effect db db' -> investment_inv db -> investment_inv db'.
Proof.
  intros He [Hk Hp Hc].
  destruct He as [E|i Hid Hpair Hst E|i i' Hin Hid Hpair Hcomp E|pid E];
    constructor; rewrite E.
  1-3: assumption.
  all: cbn [map].
  - now constructor.
  - now constructor.
  - intros r [<-|Hr] Hs; [rewrite Hst in Hs; discriminate Hs|exact (Hc r Hr Hs)].
  - rewrite (map_replace_investment investment_id i i'); assumption.
  - rewrite (map_replace_investment investor_listing i i'); assumption.
  - intros r Hr Hs. destruct (in_replace_investment _ _ _ Hr) as [->|Hr'];
      [exact (Hcomp Hs)|exact (Hc r Hr' Hs)].
  - now apply NoDup_map_filter.
  - now apply NoDup_map_filter.
  - intros r Hr. apply filter_In in Hr. exact (Hc r (proj1 Hr)).
Qed.

Section FieldFrame.

Context {T : Type} (f : DB -> T).

Lemma kf_ret {A} (a : A) : keeps_field f (ret a).
Proof. intro db. reflexivity. Qed.
Lemma kf_raise {A} e : keeps_field f (@raise A e).
Proof. intro db. reflexivity. Qed.
Lemma kf_gets {A} (g : DB -> A) : keeps_field f (gets g).
Proof. intro db. reflexivity. Qed.
Lemma kf_bind {A B} (c : M A) (k : A -> M B) :
  keeps_field f c -> (forall a, keeps_field f (k a)) -> keeps_field f (bind c k).
Proof.
  intros Hc Hk db. unfold bind. specialize (Hc db).
  destruct (c db) as [db1 [a|e]]; cbn [fst] in *; [|exact Hc].
  rewrite Hk. exact Hc.
Qed.
Lemma kf_objects_get {A} m (rows : list A) : keeps_field f (objects_get m rows).
Proof. intro db. destruct rows as [|x [|y l]]; reflexivity. Qed.
Lemma kf_try_dne {A} m (c : M A) : keeps_field f c -> keeps_field f (try_dne m c).
Proof.
  intros Hc db. specialize (Hc db). unfold try_dne.
  destruct (c db) as [db1 [a|[]]]; try exact Hc.
  destruct (String.eqb _ _); exact Hc.
Qed.
Lemma kf_modify (g : DB -> DB) : (forall db, f (g db) = f db) -> keeps_field f (modify g).
Proof. intros H db. exact (H db). Qed.

Lemma kf_create_booking u p s e c t tx pd :
  (forall l db, f (set_bookings l db) = f db) -> keeps_field f (create_booking u p s e c t tx pd).
Proof.
  intros H db. unfold create_booking. destruct (tuple_taken _ _ _ _); [reflexivity|].
  destruct (match tx with Some _ => _ | None => _ end); [reflexivity|apply H].
Qed.
Lemma kf_create_commission a b q :
  (forall l db, f (set_commissions l db) = f db) -> keeps_field f (create_commission a b q).
Proof. intros H db. unfold create_commission. destruct (existsb _ _); [reflexivity|apply H]. Qed.
Lemma kf_create_investment i p pl t pd r tx :
  (forall l db, f (set_investments l db) = f db) ->
  keeps_field f (create_investment i p pl t pd r tx).
Proof.
  intros H db. unfold create_investment. destruct (existsb _ _); [reflexivity|].
  destruct (match tx with Some _ => _ | None => _ end); [reflexivity|apply H].
Qed.
Lemma kf_booking_validate req : keeps_field f (booking_validate req).
Proof.
  intro db. unfold booking_validate. destruct (first _); [|reflexivity].
  destruct (tuple_taken _ _ _ _); reflexivity.
Qed.
Lemma kf_investment_validate req : keeps_field f (investment_validate req).
Proof.
  intro db. unfold investment_validate. destruct (first _); [|reflexivity].
  destruct (_ || _); reflexivity.
Qed.

End FieldFrame.

Lemma kf_keeps_tables {A} (c : M A) : keeps_tables c -> keeps_field investments c.
Proof. intros H db. exact (proj2 (proj2 (H db))). Qed.

Ltac kf_tac :=
  repeat match goal with
  | |- keeps_field _ (bind _ _) => apply kf_bind; [|intro]
  | |- keeps_field _ (ret _) => apply kf_ret
  | |- keeps_field _ (raise _) => apply kf_raise
  | |- keeps_field _ (gets _) => apply kf_gets
  | |- keeps_field _ (objects_get _ _) => apply kf_objects_get
  | |- keeps_field _ (try_dne _ _) => apply kf_try_dne
  | |- keeps_field _ (save_user _) => apply kf_modify; intro; reflexivity
  | |- keeps_field _ (save_booking _) => apply kf_modify; intro; reflexivity
  | |- keeps_field _ (save_gift _) => apply kf_modify; intro; reflexivity
  | |- keeps_field _ (save_investment _) => apply kf_modify; intro; reflexivity
  | |- keeps_field _ (create_refund_log _ _ _) => apply kf_modify; intro; reflexivity
  | |- keeps_field _ (create_booking _ _ _ _ _ _ _ _) =>
      apply kf_create_booking; intros; reflexivity
  | |- keeps_field _ (create_commission _ _ _) =>
      apply kf_create_commission; intros; reflexivity
  | |- keeps_field _ (create_investment _ _ _ _ _ _ _) =>
      apply kf_create_investment; intros; reflexivity
  | |- keeps_field _ (booking_validate _) => apply kf_booking_validate
  | |- keeps_field _ (investment_validate _) => apply kf_investment_validate
  | |- keeps_field _ (booking_perform_create _ _ _) => unfold booking_perform_create
  | |- keeps_field _ (investment_perform_create _ _ _ _) => unfold investment_perform_create
  | |- keeps_field _ (match ?x with _ => _ end) => destruct x
  | |- keeps_field _ (let x := _ in _) => cbv zeta
  end.

Lemma ie_keeps {A} (c : M A) db :
  keeps_field investments c -> investment_effect db (fst (c db)).
Proof. intro H. apply ie_frame, H. Qed.

Lemma ie_create_investment_view db u req now uuid :
  investment_effect db (fst (create_investment_view u req now uuid db)).
Proof.
  unfold create_investment_view, investment_validate. mred.
  destruct (first _) as [p|]; [|apply ie_frame; reflexivity].
  destruct (String.eqb (ir_payment_plan req) "full") eqn:Ef;
  [|destruct (String.eqb (ir_payment_plan req) "installment") eqn:Ei;
    [|apply ie_frame; reflexivity]];
  unfold investment_perform_create; cbn [id_property id_payment_plan]; mred;
  rewrite ?Ef, ?Ei;
  (destruct (String.eqb (role u) "INVESTOR"); [|apply ie_frame; reflexivity]);
  (destruct (is_approved p); [|apply ie_frame; reflexivity]);
  (destruct (cost_price p) as [cp|]; [|apply ie_frame; reflexivity]);
  (destruct (truthy_dec cp); [|apply ie_frame; reflexivity]);
  unfold save_user, create_investment; mred; cbn [investments set_users];
  (match goal with |- context [if existsb ?f ?l then _ else _] =>
     destruct (existsb f l) eqn:Hpair; [apply ie_frame; reflexivity|] end);
  (match goal with |- context [if existsb ?f ?l then _ else _] =>
     destruct (existsb f l); [apply ie_frame; reflexivity|] end);
  (eapply ie_insert; [| | |reflexivity]); cbn [investment_id investor_listing investor
    investment_property investment_status investment_quantize];
  try apply next_id_fresh; try reflexivity;
  (intro Hin; apply in_map_iff in Hin as (r & Hr & Hin);
   assert (Hx : existsb (fun r => Nat.eqb (investor r) (user_id u)
                   && Nat.eqb (investment_property r) (property_id p)) (investments db) = true)
     by (apply existsb_exists; exists r; split; [exact Hin|];
         unfold investor_listing in Hr; injection Hr as -> ->;
         rewrite !Nat.eqb_refl; reflexivity);
   cbn in Hpair; rewrite Hx in Hpair; discriminate Hpair).
Qed.

Lemma ie_top_up_investment db u iid amount now :
  investment_effect db (fst (top_up_investment u iid amount now db)).
Proof.
  unfold top_up_investment. destruct (Qle_bool amount 0) eqn:Hpos;
    [apply ie_frame; reflexivity|].
  apply Qle_bool_false in Hpos.
  mred.
  destruct (filter _ (investments db)) as [|i [|i' l]] eqn:Hf;
    [rewrite ?String.eqb_refl; apply ie_frame; reflexivity| |apply ie_frame; reflexivity].
  destruct (filter_single_in _ _ _ Hf) as [Hin _].
  destruct (String.eqb (investment_status i) "completed") eqn:Hst;
    [apply ie_frame; reflexivity|].
  destruct (Qlt_bool _ _) eqn:Hle; [apply ie_frame; reflexivity|].
  unfold save_user, save_investment. mred.
  destruct (Qeq_bool _ _) eqn:Hz;
    (eapply ie_update; [exact Hin| | | |reflexivity]); try reflexivity;
    cbn [investment_quantize investment_status investment_set_status remaining_balance].
  - intros _. apply Qeq_bool_eq in Hz. rewrite quantize2_zero; [reflexivity|exact Hz].
  - intro Hc. cbn in Hc. rewrite Hc in Hst. discriminate Hst.
Qed.

Lemma ie_webhook_investment_part db tx now :
  investment_effect db (fst (webhook_investment_part tx now db)).
Proof.
  rewrite webhook_investment_part_eq.
  destruct (filter _ (investments db)) as [|i [|i' l]] eqn:Hf;
    [apply ie_frame; reflexivity| |apply ie_frame; reflexivity].
  destruct (filter_single_in _ _ _ Hf) as [Hin _].
  destruct (Qlt_bool _ _); [|apply ie_frame; reflexivity].
  destruct (filter _ (users db)) as [|v [|v' l]];
    [apply ie_frame; reflexivity| |apply ie_frame; reflexivity].
  eapply ie_update; [exact Hin| | | |reflexivity]; reflexivity.
Qed.

Lemma ie_flutterwave_webhook db ev tx st now :
  investment_effect db (fst (flutterwave_webhook ev tx st now db)).
Proof.
  destruct (opt_str_eqb ev (Some "charge.completed")) eqn:He;
    [|unfold flutterwave_webhook; rewrite He; apply ie_frame; reflexivity].
  destruct (opt_str_eqb st (Some "successful")) eqn:Hs;
    [|unfold flutterwave_webhook; rewrite He, Hs; apply ie_frame; reflexivity].
  rewrite (webhook_matched_eq ev tx st now db He Hs).
  destruct (filter _ (bookings db)) as [|b [|b' l]];
    [apply ie_webhook_investment_part| |apply ie_frame; reflexivity].
  destruct (is_paid b); [apply ie_webhook_investment_part|apply ie_frame; reflexivity].
Qed.

Lemma ie_step db db' : step db db' -> investment_effect db db'.
Proof.
  intro Hs. destruct Hs.
  - apply ie_keeps. unfold booking_create_view. kf_tac.
  - apply ie_keeps. unfold mark_booking_as_paid. kf_tac.
  - apply ie_flutterwave_webhook.
  - apply ie_keeps. unfold cancel_booking. kf_tac.
  - apply ie_keeps. unfold admin_cancel_booking. kf_tac.
  - apply ie_keeps, kf_keeps_tables, keeps_gift_perform_create.
  - apply ie_keeps, kf_keeps_tables, keeps_gift_decision.
  - apply ie_keeps, kf_keeps_tables, keeps_expire_old_gifts.
  - apply ie_keeps, kf_keeps_tables, keeps_reassign_gift.
  - apply ie_create_investment_view.
  - apply ie_top_up_investment.
  - eapply ie_delete. reflexivity.
  - apply ie_frame. reflexivity.
Qed.

Lemma reachable_investment_table : forall db, reachable db -> investment_inv db.
Proof.
  intros db (db0 & (_ & _ & _ & Hi & _) & Hs).
  assert (H0 : investment_inv db0)
    by (constructor; rewrite Hi; [constructor|constructor|intros r []]).
  clear Hi. induction Hs as [db|db1 db2 db3 Hstep Hs IH]; [exact H0|].
  apply IH. exact (investment_effect_inv _ _ (ie_step _ _ Hstep) H0).
Qed.

(** Every investment row of a reachable store keeps the bookkeeping of
    [CreateInvestmentView], [TopUpInvestmentView] and the webhook: the keys
    are distinct, no two rows share an (investor, listing) pair, and a row
    with status 'completed' has a stored remaining balance of 0. *)
Theorem reachable_investment_inv : forall db, reachable db -> investment_inv db.
Proof. exact reachable_investment_table. Qed.

Lemma reachable_investment_inv_witness :
  let db := fst (create_investment_view investor_dayo (mkInvestmentRequest 3 "installment")
                   0 "91c2" store_investor) in
  reachable db /\ investment_inv db.
Proof.
  intro db.
  assert (Hr : reachable db).
  { exists store_investor. split; [repeat split|].
    eapply steps_step; [apply step_investment_create|apply steps_refl]. }
  split; [exact Hr|]. exact (reachable_investment_inv db Hr).
Defined.

(** ** The installment plan *)

(** A successful installment investment ([CreateInvestmentView],
    [payment_plan='installment']) stores the requesting investor as Gold for
    a year with a short-let credit of exactly 5,000,000, whatever credit
    they had before (the credit is overwritten, not topped up), and inserts
    one active row for the requested listing with 60% of its cost price paid
    and the other 40% remaining, each quantised to two places. For a
    two-place cost price the two stored amounts add up to the stored total. *)
Theorem installment_investment_effects u req now uuid db db' :
  ir_payment_plan req = "installment" ->
  create_investment_view u req now uuid db = (db', Ok tt) ->
  exists p cp,
    In p (properties db) /\ property_id p = ir_property req /\ cost_price p = Some cp /\
    users db' = replace_user
                  (user_set_credit (user_set_membership u "Gold" (now + year)) (500000000 # 100))
                  (users db) /\
    investments db' =
      investment_quantize
        (mkInvestment (next_id (map investment_id (investments db))) (user_id u)
           (ir_property req) "installment" cp (cp * (60 # 100)) (cp - cp * (60 # 100))
           "active" (Some ("TobiInvest-" ++ uuid))) :: investments db /\
    (is_cents cp = true ->
     quantize2 (cp * (60 # 100)) + quantize2 (cp - cp * (60 # 100)) == quantize2 cp).
Proof.
  intros Hplan H. unfold create_investment_view, investment_validate in H. mred_in H.
  destruct (first (filter _ (properties db))) as [p|] eqn:Hp; [|discriminate H].
  rewrite Hplan in H. cbn [String.eqb Ascii.eqb Bool.eqb orb] in H.
  unfold investment_perform_create in H; cbn [id_property id_payment_plan] in H; mred_in H.
  cbn [String.eqb Ascii.eqb Bool.eqb] in H.
  destruct (String.eqb (role u) "INVESTOR"); [|discriminate H].
  destruct (is_approved p); [|discriminate H].
  destruct (cost_price p) as [cp|] eqn:Hcp; [|discriminate H].
  destruct (truthy_dec cp); [|discriminate H].
  unfold save_user, create_investment in H; mred_in H; cbn [investments set_users] in H.
  destruct (existsb _ _) in H; [discriminate H|].
  destruct (existsb _ _) in H; [discriminate H|].
  injection H as <-.
  assert (Hin : In p (filter (fun p => Nat.eqb (property_id p) (ir_property req))
                             (properties db))).
  { destruct (filter _ (properties db)) as [|q l]; [discriminate Hp|].
    injection Hp as ->. now left. }
  apply filter_In in Hin as [Hin Hid]. apply Nat.eqb_eq in Hid.
  exists p, cp. repeat split; try assumption.
  - rewrite Hid. reflexivity.
  - intro Hc. rewrite (quantize2_cents cp Hc). apply quantize2_installment_split, Hc.
Qed.

Lemma installment_investment_effects_witness :
  ir_payment_plan (mkInvestmentRequest 3 "installment") = "installment" /\
  create_investment_view investor_dayo_gold (mkInvestmentRequest 3 "installment") 0 "91c2"
    store_investor =
  (fst (create_investment_view investor_dayo_gold (mkInvestmentRequest 3 "installment") 0
          "91c2" store_investor), Ok tt) /\
  exists p cp,
    In p (properties store_investor) /\ property_id p = 3%nat /\ cost_price p = Some cp /\
    users (fst (create_investment_view investor_dayo_gold
                  (mkInvestmentRequest 3 "installment") 0 "91c2" store_investor)) =
      replace_user (user_set_credit (user_set_membership investor_dayo_gold "Gold" (0 + year))
                      (500000000 # 100)) (users store_investor) /\
    investments (fst (create_investment_view investor_dayo_gold
                        (mkInvestmentRequest 3 "installment") 0 "91c2" store_investor)) =
      investment_quantize
        (mkInvestment (next_id (map investment_id (investments store_investor)))
           (user_id investor_dayo_gold) 3 "installment" cp (cp * (60 # 100))
           (cp - cp * (60 # 100)) "active" (Some ("TobiInvest-" ++ "91c2")))
        :: investments store_investor /\
    (is_cents cp = true ->
     quantize2 (cp * (60 # 100)) + quantize2 (cp - cp * (60 # 100)) == quantize2 cp).
Proof.
  assert (H : create_investment_view investor_dayo_gold (mkInvestmentRequest 3 "installment")
                0 "91c2" store_investor =
              (fst (create_investment_view investor_dayo_gold
                      (mkInvestmentRequest 3 "installment") 0 "91c2" store_investor), Ok tt))
    by (vm_compute; reflexivity).
  split; [reflexivity|]. split; [exact H|].
  exact (installment_investment_effects investor_dayo_gold (mkInvestmentRequest 3 "installment")
           0 "91c2" store_investor _ eq_refl H).
Defined.

(** ** The gift-expiry job *)

Lemma in_replace_gift r g l : In r (replace_gift g l) -> r = g \/ In r l.
Proof.
  unfold replace_gift. intro H. apply in_map_iff in H as (x & Hx & Hin).
  destruct (Nat.eqb _ _); [now left|subst; now right].
Qed.

Lemma expire_loop_ok gs e c st st' r :
  expire_loop gs e c st = (st', Ok r) ->
  Forall (fun g => isSome (reassigned_to g) || converted_to_credit g = true) gs /\
  r = (e + length gs, c)%nat.
Proof.
  revert e c st. induction gs as [|g gs IH]; intros e c st H.
  - cbn in H. injection H as _ <-. rewrite Nat.add_0_r. split; [constructor|reflexivity].
  - cbn [expire_loop] in H. unfold save_gift in H. mred_in H.
    cbn [reassigned_to converted_to_credit gift_set_status] in H.
    destruct (isSome (reassigned_to g)) eqn:Hr, (converted_to_credit g) eqn:Hc;
      cbn [andb orb] in H.
    1-3: destruct (IH _ _ _ H) as [Hf ->]; split;
      [constructor; [rewrite Hr, ?Hc; reflexivity|exact Hf]
      |cbn [length]; f_equal; lia].
    unfold get_user, user_getattr_decimal in H. mred_in H.
    destruct (filter _ (users _)) as [|v [|v' l]]; discriminate H.
Qed.

(** [ExpireOldGiftsView] answers 200 only if every gift it selects was
    already reassigned or converted: the crediting branch reads the
    sender's [wallet_balance], which a [User] does not have, and raises.
    When it does succeed it reports all selected gifts as expired and none
    as converted. *)
Theorem expire_old_gifts_ok_only_without_crediting now db db' r :
  expire_old_gifts now db = (db', Ok r) ->
  (forall g, In g (expirable_gifts now db) ->
             isSome (reassigned_to g) = true \/ converted_to_credit g = true) /\
  r = (length (expirable_gifts now db), 0%nat).
Proof.
  unfold expire_old_gifts. mred. intro H.
  destruct (expire_loop_ok _ _ _ _ _ _ H) as [Hf ->]. split; [|reflexivity].
  intros g Hg. apply (proj1 (Forall_forall _ _) Hf) in Hg.
  apply orb_true_iff in Hg. exact Hg.
Qed.


Lemma expire_old_gifts_ok_only_without_crediting_witness :
  let now := (8 * seconds_per_day)%Z in
  let db := mkDB [sender_efe; friend_funmi] [ikoyi_flat] [] [] [reassigned_gift] [] [] in
  expire_old_gifts now db = (fst (expire_old_gifts now db), Ok (1%nat, 0%nat)) /\
  (forall g, In g (expirable_gifts now db) ->
             isSome (reassigned_to g) = true \/ converted_to_credit g = true) /\
  (1%nat, 0%nat) = (length (expirable_gifts now db), 0%nat).
Proof.
  intros now db.
  assert (H : expire_old_gifts now db = (fst (expire_old_gifts now db), Ok (1%nat, 0%nat)))
    by (vm_compute; reflexivity).
  split; [exact H|].
  exact (expire_old_gifts_ok_only_without_crediting now db _ _ H).
Defined.

Lemma expire_loop_rows (G S : list Gift) (U : list User) gs e c st :
  (forall g, In g gs -> In g S) ->
  users st = U ->
  (forall g', In g' (gifts st) -> In g' G \/ exists g, In g S /\ g' = gift_set_status g "expired") ->
  users (fst (expire_loop gs e c st)) = U /\
  forall g', In g' (gifts (fst (expire_loop gs e c st))) ->
    In g' G \/ exists g, In g S /\ g' = gift_set_status g "expired".
Proof.
  revert e c st. induction gs as [|g gs IH]; intros e c st Hsub Hu Hg; [split; assumption|].
  cbn [expire_loop]. unfold save_gift. mred.
  set (st1 := set_gifts (replace_gift (gift_set_status g "expired") (gifts st)) st).
  assert (Hu1 : users st1 = U) by exact Hu.
  assert (Hg1 : forall g', In g' (gifts st1) ->
                  In g' G \/ exists g, In g S /\ g' = gift_set_status g "expired").
  { intros g' Hin. destruct (in_replace_gift _ _ _ Hin) as [->|Hin'].
    - right. exists g. split; [apply Hsub; now left|reflexivity].
    - exact (Hg g' Hin'). }
  assert (Hsub' : forall g, In g gs -> In g S) by (intros x Hx; apply Hsub; now right).
  cbn [reassigned_to converted_to_credit gift_set_status].
  destruct (isSome (reassigned_to g)), (converted_to_credit g); cbn [andb negb];
    try exact (IH _ _ _ Hsub' Hu1 Hg1).
  unfold get_user, user_getattr_decimal. mred.
  destruct (filter _ (users st1)) as [|v [|v' l]]; cbn [fst]; split; assumption.
Qed.

(** [ExpireOldGiftsView] never changes a user, whether it succeeds or
    raises half-way: no credit is ever granted. Every gift row afterwards is
    either a row of the store before, or a gift the job selected (a pending
    gift of a short-let listing whose [expires_at] is before [now]) with its
    status set to 'expired' and nothing else changed; in particular
    [converted_to_credit] is never set. *)
Theorem expire_old_gifts_rows now db :
  users (fst (expire_old_gifts now db)) = users db /\
  forall g', In g' (gifts (fst (expire_old_gifts now db))) ->
    In g' (gifts db) \/
    exists g, In g (gifts db) /\ gift_status g = "pending" /\
              (exists e, expires_at g = Some e /\ (e < now)%Z) /\
              (exists p, In p (properties db) /\ property_id p = gift_property g /\
                         property_type p = "shortlet") /\
              g' = gift_set_status g "expired".
Proof.
  unfold expire_old_gifts. mred.
  destruct (expire_loop_rows (gifts db) (expirable_gifts now db) (users db)
              (expirable_gifts now db) 0 0 db) as [Hu Hg];
    [tauto|reflexivity|intros g' Hin; now left|].
  split; [exact Hu|]. intros g' Hin.
  destruct (Hg g' Hin) as [Hold|(g & Hsel & ->)]; [now left|right].
  unfold expirable_gifts in Hsel. apply filter_In in Hsel as [Hin' Hsel].
  apply andb_true_iff in Hsel as [Hsel Hp]. apply String.eqb_eq in Hp.
  apply andb_true_iff in Hsel as [Hl He].
  exists g. split; [exact Hin'|split; [exact Hp|split; [|split; [|reflexivity]]]].
  - destruct (expires_at g) as [e|]; [|discriminate He].
    exists e. split; [reflexivity|]. apply Z.ltb_lt, He.
  - apply existsb_exists in Hl as (p & Hpin & Hpe).
    apply andb_true_iff in Hpe as [Hid Ht].
    exists p. split; [exact Hpin|split; [apply Nat.eqb_eq, Hid|apply String.eqb_eq, Ht]].
Qed.

(** ** Cancelling a booking *)

(** A successful [CancelBookingView] request concerns a booking of the
    requesting user that is not cancelled and starts after today. The row
    is marked cancelled; a refund of the full [total_price] is logged for
    the user if the booking was paid, nothing otherwise; the user's credit
    is not given back and no other table changes. *)
Theorem cancel_booking_success u bid today db db' r :
  cancel_booking u bid today db = (db', Ok r) -> status_code r = 200%nat ->
  exists b,
    In b (bookings db) /\ booking_id b = bid /\ booking_user b = user_id u /\
    is_cancelled b = false /\ (today < start_date b)%Z /\
    bookings db' = replace_booking (booking_set_cancelled b) (bookings db) /\
    refund_logs db' =
      app (if is_paid b
           then [mkRefundLog (user_id u) (total_price b) "Cancelled short-let booking"]
           else []) (refund_logs db) /\
    properties db' = properties db /\ users db' = users db /\
    commissions db' = commissions db /\ gifts db' = gifts db /\
    investments db' = investments db.
Proof.
  intros H Hr. unfold cancel_booking in H. mred_in H.
  destruct (filter _ (bookings db)) as [|b [|b' l]] eqn:Hf;
    [rewrite String.eqb_refl in H; injection H as _ <-; discriminate Hr| |discriminate H].
  destruct (filter_single_in _ _ _ Hf) as [Hin Hb].
  apply andb_true_iff in Hb as [Hid Hu]. apply Nat.eqb_eq in Hid, Hu.
  destruct (is_cancelled b) eqn:Hc; [injection H as _ <-; discriminate Hr|].
  destruct (Z.leb (start_date b) today) eqn:Hs; [injection H as _ <-; discriminate Hr|].
  apply Z.leb_gt in Hs.
  unfold save_booking, create_refund_log in H. mred_in H.
  exists b. repeat split; try assumption;
    cbn [is_paid booking_set_cancelled total_price] in H;
    destruct (is_paid b); injection H as <- _; reflexivity.
Qed.

Lemma cancel_booking_success_witness :
  let u := guest_bola in
  let db := store_unpaid_booking in
  cancel_booking u 1 5 db = (fst (cancel_booking u 1 5 db),
                             Ok (resp 200 "Booking cancelled and refund logged")) /\
  status_code (resp 200 "Booking cancelled and refund logged") = 200%nat /\
  exists b,
    In b (bookings db) /\ booking_id b = 1%nat /\ booking_user b = user_id u /\
    is_cancelled b = false /\ (5 < start_date b)%Z /\
    bookings (fst (cancel_booking u 1 5 db)) =
      replace_booking (booking_set_cancelled b) (bookings db) /\
    refund_logs (fst (cancel_booking u 1 5 db)) =
      app (if is_paid b
           then [mkRefundLog (user_id u) (total_price b) "Cancelled short-let booking"]
           else []) (refund_logs db) /\
    properties (fst (cancel_booking u 1 5 db)) = properties db /\
    users (fst (cancel_booking u 1 5 db)) = users db /\
    commissions (fst (cancel_booking u 1 5 db)) = commissions db /\
    gifts (fst (cancel_booking u 1 5 db)) = gifts db /\
    investments (fst (cancel_booking u 1 5 db)) = investments db.
Proof.
  intros u db.
  assert (H : cancel_booking u 1 5 db = (fst (cancel_booking u 1 5 db),
                             Ok (resp 200 "Booking cancelled and refund logged")))
    by (vm_compute; reflexivity).
  split; [exact H|]. split; [reflexivity|].
  exact (cancel_booking_success u 1 5 db _ _ H eq_refl).
Defined.

(** A successful [AdminCancelBookingView] request concerns a booking that
    is not cancelled, whatever its dates. The row is marked cancelled; a
    refund of the full [total_price] is logged for the booking's owner (not
    for the admin) if it was paid; no credit is given back and no other
    table changes. *)
Theorem admin_cancel_booking_success bid db db' r :
  admin_cancel_booking bid db = (db', Ok r) -> status_code r = 200%nat ->
  exists b,
    In b (bookings db) /\ booking_id b = bid /\ is_cancelled b = false /\
    bookings db' = replace_booking (booking_set_cancelled b) (bookings db) /\
    refund_logs db' =
      app (if is_paid b
           then [mkRefundLog (booking_user b) (total_price b) "Admin cancelled booking"]
           else []) (refund_logs db) /\
    properties db' = properties db /\ users db' = users db /\
    commissions db' = commissions db /\ gifts db' = gifts db /\
    investments db' = investments db.
Proof.
  intros H Hr. unfold admin_cancel_booking in H. mred_in H.
  destruct (filter _ (bookings db)) as [|b [|b' l]] eqn:Hf;
    [rewrite String.eqb_refl in H; injection H as _ <-; discriminate Hr| |discriminate H].
  destruct (filter_single_in _ _ _ Hf) as [Hin Hid]. apply Nat.eqb_eq in Hid.
  destruct (is_cancelled b) eqn:Hc; [injection H as _ <-; discriminate Hr|].
  unfold save_booking, create_refund_log in H. mred_in H.
  exists b. repeat split; try assumption;
    cbn [is_paid booking_set_cancelled total_price booking_user] in H;
    destruct (is_paid b); injection H as <- _; reflexivity.
Qed.

Lemma admin_cancel_booking_success_witness :
  let db := store_unpaid_booking in
  admin_cancel_booking 1 db = (fst (admin_cancel_booking 1 db),
                               Ok (resp 200 "Booking has been cancelled by admin.")) /\
  status_code (resp 200 "Booking has been cancelled by admin.") = 200%nat /\
  exists b,
    In b (bookings db) /\ booking_id b = 1%nat /\ is_cancelled b = false /\
    bookings (fst (admin_cancel_booking 1 db)) =
      replace_booking (booking_set_cancelled b) (bookings db) /\
    refund_logs (fst (admin_cancel_booking 1 db)) =
      app (if is_paid b
           then [mkRefundLog (booking_user b) (total_price b) "Admin cancelled booking"]
           else []) (refund_logs db) /\
    properties (fst (admin_cancel_booking 1 db)) = properties db /\
    users (fst (admin_cancel_booking 1 db)) = users db /\
    commissions (fst (admin_cancel_booking 1 db)) = commissions db /\
    gifts (fst (admin_cancel_booking 1 db)) = gifts db /\
    investments (fst (admin_cancel_booking 1 db)) = investments db.
Proof.
  intro db.
  assert (H : admin_cancel_booking 1 db = (fst (admin_cancel_booking 1 db),
                               Ok (resp 200 "Booking has been cancelled by admin.")))
    by (vm_compute; reflexivity).
  split; [exact H|]. split; [reflexivity|].
  exact (admin_cancel_booking_success 1 db _ _ H eq_refl).
Defined.

Lemma filter_nodup_single (f : Booking -> bool) bs b :
  NoDup (map booking_id bs) -> In b bs -> f b = true ->
  (forall r, In r bs -> f r = true -> booking_id r = booking_id b) ->
  filter f bs = [b].
Proof.
  induction bs as [|x bs IH]; intros Hnd Hin Hb Hf; [destruct Hin|].
  inversion Hnd as [|y z Hnot Hnd']; subst. cbn [filter].
  destruct Hin as [->|Hin].
  - rewrite Hb. f_equal. apply filter_none. intros r Hr.
    destruct (f r) eqn:Hfr; [exfalso|reflexivity]. apply Hnot. rewrite <- (Hf r (or_intror Hr) Hfr). now apply in_map.
  - destruct (f x) eqn:Hx.
    + exfalso. apply Hnot. rewrite (Hf x (or_introl eq_refl) Hx). now apply in_map.
    + apply IH; try assumption. intros r Hr. apply Hf. now right.
Qed.

Lemma cancelled_booking_unchanged db b u today :
  NoDup (map booking_id (bookings db)) -> In b (bookings db) -> is_cancelled b = true ->
  fst (cancel_booking u (booking_id b) today db) = db /\
  admin_cancel_booking (booking_id b) db = (db, Ok (resp 400 "Booking is already cancelled.")).
Proof.
  intros Hnd Hin Hc. split.
  - unfold cancel_booking. mred.
    destruct (filter _ (bookings db)) as [|x [|x' l]] eqn:Hf;
      [rewrite String.eqb_refl; reflexivity| |reflexivity].
    destruct (filter_single_in _ _ _ Hf) as [Hx Hxb].
    apply andb_true_iff in Hxb as [Hid _]. apply Nat.eqb_eq in Hid.
    rewrite (nodup_map_inj booking_id _ x b Hnd Hx Hin Hid), Hc. reflexivity.
  - unfold admin_cancel_booking. mred.
    rewrite (filter_nodup_single _ _ b Hnd Hin (Nat.eqb_refl _)).
    + rewrite Hc. reflexivity.
    + intros r _ Hr. now apply Nat.eqb_eq in Hr.
Qed.

(** Once a booking row is cancelled, neither [CancelBookingView] (by any
    user, on any day) nor [AdminCancelBookingView] changes the store again:
    no second refund is logged. Booking keys are unique, as in every
    reachable store. *)
Theorem cancelled_booking_frozen db b u today :
  NoDup (map booking_id (bookings db)) -> In b (bookings db) -> is_cancelled b = true ->
  fst (cancel_booking u (booking_id b) today db) = db /\
  admin_cancel_booking (booking_id b) db = (db, Ok (resp 400 "Booking is already cancelled.")).
Proof. apply cancelled_booking_unchanged. Qed.

Lemma cancelled_booking_frozen_witness :
  let b := booking_set_cancelled unpaid_booking in
  let db := mkDB [agent_ada; guest_bola] [lekki_flat] [b] [] [] [] [] in
  (NoDup (map booking_id (bookings db)) /\ In b (bookings db) /\ is_cancelled b = true) /\
  fst (cancel_booking guest_bola (booking_id b) 5 db) = db /\
  admin_cancel_booking (booking_id b) db = (db, Ok (resp 400 "Booking is already cancelled.")).
Proof.
  intros b db.
  assert (H : NoDup (map booking_id (bookings db)) /\ In b (bookings db) /\
              is_cancelled b = true)
    by (split; [repeat constructor; intros []|split; [now left|reflexivity]]).
  split; [exact H|].
  destruct H as (H1 & H2 & H3).
  exact (cancelled_booking_frozen db b guest_bola 5 H1 H2 H3).
Defined.

(** ** Booking requests with [is_cancelled] set *)

(** [is_cancelled] is a writable field of [BookingSerializer]: a request
    with [is_cancelled=true] that [BookingCreateView] accepts debits the
    user's credit by the full price and stores a paid booking that is
    already cancelled. In every later store, for as long as the booking's
    key stays in the table (it leaves only with its listing), the row is
    still there unchanged and neither cancel view touches it: the user's
    view changes nothing and the admin's answers 400, so no refund is ever
    logged for it. *)
Theorem cancelled_request_debits_without_refund u req uuid db db1 :
  reachable db ->
  br_is_cancelled req = true ->
  booking_create_view u req uuid db = (db1, Ok tt) ->
  exists b,
    bookings db1 = b :: bookings db /\ booking_user b = user_id u /\
    is_paid b = true /\ is_cancelled b = true /\
    users db1 = replace_user (user_set_credit u (shortlet_credit u - total_price b))
                             (users db) /\
    forall db2,
      steps_while (fun d => In (booking_id b) (map booking_id (bookings d))) db1 db2 ->
      In b (bookings db2) /\
      forall u' today,
        fst (cancel_booking u' (booking_id b) today db2) = db2 /\
        admin_cancel_booking (booking_id b) db2 =
          (db2, Ok (resp 400 "Booking is already cancelled.")).
Proof.
  intros Hr Hc H.
  assert (Hr1 : reachable db1).
  { replace db1 with (fst (booking_create_view u req uuid db)) by (now rewrite H).
    apply (reachable_step db); [exact Hr|apply step_booking_create]. }
  unfold booking_create_view, booking_validate, booking_perform_create in H.
  mred_in H.
  destruct (first _) as [p|]; [|discriminate H].
  destruct (tuple_taken _ _ _ _); [discriminate H|].
  cbv beta iota zeta delta [bd_property bd_start bd_end bd_is_cancelled] in H.
  destruct (is_approved p); [|discriminate H].
  destruct (String.eqb (property_type p) "shortlet"); [|discriminate H].
  mred_in H.
  destruct (overlap_query _ _ _ _); [discriminate H|].
  destruct (Z.leb _ 0); [discriminate H|].
  destruct (_ && _); [|discriminate H].
  unfold save_user, create_booking in H. mred_in H. cbn [bookings set_users] in H.
  destruct (tuple_taken _ _ _ _); [discriminate H|].
  destruct (existsb _ _); [discriminate H|].
  injection H as <-. rewrite Hc in Hr1 |- *.
  eexists. split; [reflexivity|]. split; [reflexivity|]. split; [reflexivity|].
  split; [reflexivity|]. split; [reflexivity|].
  intros db2 Hs.
  destruct (closed_booking_run _ db2 _ Hr1 Hs ltac:(now left) eq_refl eq_refl) as [Hr2 Hin].
  split; [exact Hin|].
  intros u' today. apply cancelled_booking_unchanged; [| |reflexivity].
  - exact (inv_booking_keys _ (reachable_store_inv _ Hr2)).
  - exact Hin.
Qed.

Lemma cancelled_request_debits_without_refund_witness :
  let req := mkBookingRequest 1 10 13 true in
  let r := booking_create_view guest_bola req "c0de" store_empty_bookings in
  (reachable store_empty_bookings /\ br_is_cancelled req = true /\
   r = (fst r, Ok tt)) /\
  exists b,
    bookings (fst r) = b :: bookings store_empty_bookings /\
    booking_user b = user_id guest_bola /\ is_paid b = true /\ is_cancelled b = true /\
    users (fst r) = replace_user (user_set_credit guest_bola
                                    (shortlet_credit guest_bola - total_price b))
                                 (users store_empty_bookings) /\
    forall db2,
      steps_while (fun d => In (booking_id b) (map booking_id (bookings d))) (fst r) db2 ->
      In b (bookings db2) /\
      forall u' today,
        fst (cancel_booking u' (booking_id b) today db2) = db2 /\
        admin_cancel_booking (booking_id b) db2 =
          (db2, Ok (resp 400 "Booking is already cancelled.")).
Proof.
  intros req r.
  assert (H : reachable store_empty_bookings /\
              br_is_cancelled req = true /\ r = (fst r, Ok tt)).
  { split; [|split; [reflexivity|vm_compute; reflexivity]].
    exists store_empty_bookings. split; [repeat split|apply steps_refl]. }
  split; [exact H|]. destruct H as (H1 & H2 & H3).
  exact (cancelled_request_debits_without_refund guest_bola req "c0de" store_empty_bookings
           (fst r) H1 H2 H3).
Defined.

(** ** Looking up a gift *)

Lemma replace_gift_same_id g' l x :
  In x (replace_gift g' l) -> gift_id x = gift_id g' -> x = g'.
Proof.
  unfold replace_gift. intros Hin Hid. apply in_map_iff in Hin as (r & <- & _).
  destruct (Nat.eqb (gift_id r) (gift_id g')) eqn:E; [reflexivity|].
  apply Nat.eqb_neq in E. contradiction.
Qed.

Lemma first_in {A} (l : list A) x : first l = Some x -> In x l.
Proof. destruct l as [|y l]; [discriminate|]. injection 1 as ->. now left. Qed.

(** ** Who may write listings *)

(** [IsAgentOrReadOnly] lets every read through. For a writing method
    (e.g. creating a listing through [PropertyViewSet]) an anonymous request
    is not refused but raises [AttributeError] ([AnonymousUser] has no
    [role]), so the server answers with an error instead of 401/403; an
    authenticated user passes exactly when their role is AGENT or ADMIN or
    they are staff, whether or not they are verified. *)
Theorem is_agent_or_read_only_write method ru :
  existsb (String.eqb method) ["GET"; "HEAD"; "OPTIONS"] = false ->
  (ru = Anonymous -> is_agent_or_read_only method ru = inl (AttributeError "role")) /\
  (forall u staff, ru = Authenticated u staff ->
     is_agent_or_read_only method ru = inr true <->
     role u = "AGENT" \/ role u = "ADMIN" \/ staff = true).
Proof.
  intro Hm. unfold is_agent_or_read_only. rewrite Hm. split.
  - intros ->. reflexivity.
  - intros u staff ->. cbn [request_user_truthy request_user_is_authenticated
                            request_user_role request_user_is_staff negb].
    destruct (String.eqb (role u) "AGENT") eqn:Ea.
    + apply String.eqb_eq in Ea. split; [intros _; now left|reflexivity].
    + destruct (String.eqb (role u) "ADMIN") eqn:Ed.
      * apply String.eqb_eq in Ed. split; [intros _; now right; left|reflexivity].
      * apply String.eqb_neq in Ea, Ed. split.
        -- intro H. injection H as ->. now right; right.
        -- intros [H|[H| ->]]; [contradiction|contradiction|reflexivity].
Qed.

Lemma is_agent_or_read_only_write_witness :
  existsb (String.eqb "POST") ["GET"; "HEAD"; "OPTIONS"] = false /\
  is_agent_or_read_only "POST" Anonymous = inl (AttributeError "role") /\
  (is_agent_or_read_only "POST" (Authenticated guest_bola true) = inr true <->
   role guest_bola = "AGENT" \/ role guest_bola = "ADMIN" \/ true = true).
Proof.
  assert (Hm : existsb (String.eqb "POST") ["GET"; "HEAD"; "OPTIONS"] = false)
    by reflexivity.
  split; [exact Hm|].
  destruct (is_agent_or_read_only_write "POST" Anonymous Hm) as [H1 _].
  destruct (is_agent_or_read_only_write "POST" (Authenticated guest_bola true) Hm) as [_ H2].
  split; [exact (H1 eq_refl)|exact (H2 guest_bola true eq_refl)].
Defined.

(** ** A gift that has left 'pending' is never changed again *)

Lemma replace_gift_ids x l : map gift_id (replace_gift x l) = map gift_id l.
Proof.
  unfold replace_gift. rewrite map_map. apply map_ext. intro r.
  destruct (Nat.eqb (gift_id r) (gift_id x)) eqn:E; [|reflexivity].
  symmetry. now apply Nat.eqb_eq.
Qed.

(** Replacing the rows of a pending gift's key, as a [gift_pending_update]. *)
Lemma pending_replace_rows (G : list Gift) x l g :
  map gift_id l = map gift_id G ->
  (forall h', In h' l -> In h' G \/
     exists g, In g G /\ gift_status g = "pending" /\ gift_id h' = gift_id g /\
               keeps_reassignment g h') ->
  In g G -> gift_status g = "pending" -> gift_id x = gift_id g -> keeps_reassignment g x ->
  map gift_id (replace_gift x l) = map gift_id G /\
  (forall h', In h' (replace_gift x l) -> In h' G \/
     exists g, In g G /\ gift_status g = "pending" /\ gift_id h' = gift_id g /\
               keeps_reassignment g h').
Proof.
  intros Hids Hrows Hin Hp Hx Hk. split; [now rewrite replace_gift_ids|].
  intros h' Hh. destruct (in_replace_gift _ _ _ Hh) as [->|Hh'].
  - right. exists g. auto.
  - exact (Hrows h' Hh').
Qed.

Lemma ge_replace db x g :
  In g (gifts db) -> gift_status g = "pending" -> gift_id x = gift_id g ->
  keeps_reassignment g x ->
  gift_effect db (set_gifts (replace_gift x (gifts db)) db).
Proof.
  intros Hin Hp Hx Hk. destruct (pending_replace_rows (gifts db) x (gifts db) g eq_refl)
    as [H1 H2]; [intros h' Hh; now left|assumption..|].
  apply ge_pending_update; assumption.
Qed.

Lemma ge_keeps {A} (c : M A) db : keeps_field gifts c -> gift_effect db (fst (c db)).
Proof. intro H. apply ge_frame, H. Qed.

Lemma ge_gift_perform_create db u gd now :
  gift_effect db (fst (gift_perform_create u gd now db)).
Proof.
  unfold gift_perform_create. destruct (is_approved (gd_property gd)); cbn [negb];
    [|apply ge_frame; reflexivity].
  unfold find_user_by_email, create_gift. mred.
  (eapply ge_insert; [|reflexivity]); apply next_id_fresh.
Qed.

Lemma ge_gift_decision db u gid action :
  gift_effect db (fst (gift_decision u gid action db)).
Proof.
  unfold gift_decision. mred.
  destruct (first (filter _ (gifts db))) as [g|] eqn:Hg; [|apply ge_frame; reflexivity].
  assert (Hin : In g (gifts db)) by (apply first_in in Hg; apply filter_In in Hg; tauto).
  destruct (String.eqb (gift_status g) "pending") eqn:Hp; [|apply ge_frame; reflexivity].
  apply String.eqb_eq in Hp. unfold save_gift. mred.
  destruct (String.eqb action "accept");
    [apply (ge_replace db _ g); auto; right; auto|].
  destruct (String.eqb action "decline");
    [apply (ge_replace db _ g); auto; right; auto|].
  apply ge_frame; reflexivity.
Qed.

Lemma ge_reassign_gift db u gid em :
  gift_effect db (fst (reassign_gift u gid em db)).
Proof.
  unfold reassign_gift. mred.
  destruct (first (filter _ (gifts db))) as [g|] eqn:Hg; [|apply ge_frame; reflexivity].
  assert (Hin : In g (gifts db)) by (apply first_in in Hg; apply filter_In in Hg; tauto).
  pose proof (first_filter_some _ _ _ Hg) as Hgb.
  apply andb_true_iff in Hgb as [_ Hp]. apply String.eqb_eq in Hp.
  destruct (isSome (reassigned_to g)) eqn:Hr; [apply ge_frame; reflexivity|].
  unfold find_user_by_email, save_gift. mred.
  destruct em as [e|]; [|apply ge_frame; reflexivity].
  apply (ge_replace db _ g); auto.
  left. now destruct (reassigned_to g).
Qed.

Lemma expire_loop_pending (G : list Gift) gs e c st :
  (forall g, In g gs -> In g G /\ gift_status g = "pending") ->
  map gift_id (gifts st) = map gift_id G ->
  (forall h', In h' (gifts st) -> In h' G \/
     exists g, In g G /\ gift_status g = "pending" /\ gift_id h' = gift_id g /\
               keeps_reassignment g h') ->
  map gift_id (gifts (fst (expire_loop gs e c st))) = map gift_id G /\
  (forall h', In h' (gifts (fst (expire_loop gs e c st))) -> In h' G \/
     exists g, In g G /\ gift_status g = "pending" /\ gift_id h' = gift_id g /\
               keeps_reassignment g h').
Proof.
  revert e c st. induction gs as [|g gs IH]; intros e c st Hsub Hids Hrows; [split; assumption|].
  cbn [expire_loop]. unfold save_gift. mred.
  destruct (Hsub g (or_introl eq_refl)) as [HgG Hgp].
  destruct (pending_replace_rows G (gift_set_status g "expired") (gifts st) g Hids Hrows HgG Hgp
              eq_refl (or_intror (conj eq_refl eq_refl))) as [Hids1 Hrows1].
  assert (Hsub' : forall x, In x gs -> In x G /\ gift_status x = "pending")
    by (intros x Hx; apply Hsub; now right).
  cbn [reassigned_to converted_to_credit gift_set_status].
  destruct (isSome (reassigned_to g)), (converted_to_credit g); cbn [andb negb];
    try exact (IH _ _ (set_gifts (replace_gift (gift_set_status g "expired") (gifts st)) st)
                 Hsub' Hids1 Hrows1).
  unfold get_user, user_getattr_decimal. mred.
  match goal with |- context [filter ?p (users ?s)] =>
    destruct (filter p (users s)) as [|v [|v' l]] end; cbn [fst]; split; assumption.
Qed.

Lemma ge_expire_old_gifts db now : gift_effect db (fst (expire_old_gifts now db)).
Proof.
  unfold expire_old_gifts. mred.
  destruct (expire_loop_pending (gifts db) (expirable_gifts now db) 0 0 db) as [H1 H2].
  - intros g Hg. unfold expirable_gifts in Hg. apply filter_In in Hg as [Hin Hsel].
    apply andb_true_iff in Hsel as [_ Hp]. apply String.eqb_eq in Hp. auto.
  - reflexivity.
  - intros h' Hh; now left.
  - apply ge_pending_update; assumption.
Qed.

Lemma ge_step db db' : step db db' -> gift_effect db db'.
Proof.
  intro Hs. destruct Hs.
  - apply ge_keeps. unfold booking_create_view. kf_tac.
  - apply ge_keeps. unfold mark_booking_as_paid. kf_tac.
  - apply ge_keeps. unfold flutterwave_webhook. kf_tac.
  - apply ge_keeps. unfold cancel_booking. kf_tac.
  - apply ge_keeps. unfold admin_cancel_booking. kf_tac.
  - apply ge_gift_perform_create.
  - apply ge_gift_decision.
  - apply ge_expire_old_gifts.
  - apply ge_reassign_gift.
  - apply ge_keeps. unfold create_investment_view. kf_tac.
  - apply ge_keeps. unfold top_up_investment. kf_tac.
  - eapply ge_delete. reflexivity.
  - apply ge_frame. reflexivity.
Qed.

Lemma gift_effect_keys db db' :
  gift_effect db db' -> NoDup (map gift_id (gifts db)) -> NoDup (map gift_id (gifts db')).
Proof.
  intros He Hnd. destruct He as [E|g Hf E|Hids _|pid E].
  - now rewrite E.
  - rewrite E. cbn [map]. now constructor.
  - now rewrite Hids.
  - rewrite E. now apply NoDup_map_filter.
Qed.

Lemma reachable_gift_keys db : reachable db -> NoDup (map gift_id (gifts db)).
Proof.
  intros (db0 & (_ & _ & Hg & _) & Hs).
  assert (H0 : NoDup (map gift_id (gifts db0))) by (rewrite Hg; constructor).
  clear Hg. induction Hs as [db|db1 db2 db3 Hstep Hs IH]; [exact H0|].
  apply IH. exact (gift_effect_keys _ _ (ge_step _ _ Hstep) H0).
Qed.

Lemma settled_gift_step db db' h :
  reachable db -> step db db' -> In h (gifts db) -> gift_status h <> "pending" ->
  forall h', In h' (gifts db') -> gift_id h' = gift_id h -> h' = h.
Proof.
  intros Hr Hs Hh Hnp h' Hh' Hid.
  pose proof (reachable_gift_keys db Hr) as Hnd.
  destruct (ge_step _ _ Hs) as [E|g Hf E|_ Hrows|pid E].
  - rewrite E in Hh'. exact (nodup_map_inj gift_id _ _ _ Hnd Hh' Hh Hid).
  - rewrite E in Hh'. destruct Hh' as [<-|Hh'].
    + exfalso. apply Hf. rewrite Hid. now apply in_map.
    + exact (nodup_map_inj gift_id _ _ _ Hnd Hh' Hh Hid).
  - destruct (Hrows h' Hh') as [Hold|(g & Hg & Hp & Hg' & _)].
    + exact (nodup_map_inj gift_id _ _ _ Hnd Hold Hh Hid).
    + exfalso. rewrite Hid in Hg'.
      rewrite (nodup_map_inj gift_id _ _ _ Hnd Hh Hg Hg') in Hnp. contradiction.
  - rewrite E in Hh'. apply filter_In in Hh' as [Hh' _].
    exact (nodup_map_inj gift_id _ _ _ Hnd Hh' Hh Hid).
Qed.

(** Along a run in which its key stays in the store, a settled gift row
    stays as it is. *)
Lemma settled_gift_run db db' h :
  reachable db -> steps_while (fun d => In (gift_id h) (map gift_id (gifts d))) db db' ->
  In h (gifts db) -> gift_status h <> "pending" -> reachable db' /\ In h (gifts db').
Proof.
  intros Hr Hs. induction Hs as [d _|d1 d2 d3 _ Hst Hs IH]; intros Hh Hnp; [auto|].
  apply IH; [exact (reachable_step _ _ Hr Hst)| |exact Hnp].
  apply steps_while_first in Hs. apply in_map_iff in Hs as (h' & Hid & Hh').
  rewrite <- (settled_gift_step d1 d2 h Hr Hst Hh Hnp h' Hh' Hid). exact Hh'.
Qed.

Lemma settled_gift_decision db h u a :
  NoDup (map gift_id (gifts db)) -> In h (gifts db) -> gift_status h <> "pending" ->
  gift_decision u (gift_id h) a db = (db, Ok (resp 400 "Gift not found or already handled")).
Proof.
  intros Hnd Hh Hnp. unfold gift_decision. mred.
  destruct (first (filter _ (gifts db))) as [x|] eqn:Hx; [|reflexivity].
  pose proof (first_filter_some _ _ _ Hx) as Hxb.
  apply andb_true_iff in Hxb as [Hxid _]. apply Nat.eqb_eq in Hxid.
  assert (Hxin : In x (gifts db)) by (apply first_in in Hx; apply filter_In in Hx; tauto).
  rewrite (nodup_map_inj gift_id _ _ _ Hnd Hxin Hh Hxid).
  destruct (String.eqb (gift_status h) "pending") eqn:E; [|reflexivity].
  apply String.eqb_eq in E. contradiction.
Qed.

(** The row of a gift whose [reassigned_to] is set keeps its sender and its
    [reassigned_to] through any operation. *)
Lemma reassigned_gift_step db db' h :
  reachable db -> step db db' -> In h (gifts db) -> reassigned_to h <> None ->
  forall h', In h' (gifts db') -> gift_id h' = gift_id h ->
  sender h' = sender h /\ reassigned_to h' = reassigned_to h.
Proof.
  intros Hr Hs Hh Hra h' Hh' Hid.
  pose proof (reachable_gift_keys db Hr) as Hnd.
  assert (Hold : In h' (gifts db) -> sender h' = sender h /\ reassigned_to h' = reassigned_to h)
    by (intro H; now rewrite (nodup_map_inj gift_id _ _ _ Hnd H Hh Hid)).
  destruct (ge_step _ _ Hs) as [E|g Hf E|_ Hrows|pid E].
  - rewrite E in Hh'. auto.
  - rewrite E in Hh'. destruct Hh' as [<-|Hh']; [|auto].
    exfalso. apply Hf. rewrite Hid. now apply in_map.
  - destruct (Hrows h' Hh') as [H|(g & Hg & _ & Hg' & Hk)]; [auto|].
    rewrite Hid in Hg'. rewrite <- (nodup_map_inj gift_id _ _ _ Hnd Hh Hg Hg') in Hk.
    destruct Hk as [Hk|Hk]; [contradiction|exact Hk].
  - rewrite E in Hh'. apply filter_In in Hh' as [Hh' _]. auto.
Qed.

Lemma reassigned_gift_run db db' gid s x :
  reachable db -> steps_while (fun d => In gid (map gift_id (gifts d))) db db' ->
  (forall h, In h (gifts db) -> gift_id h = gid -> sender h = s /\ reassigned_to h = Some x) ->
  reachable db' /\
  (forall h, In h (gifts db') -> gift_id h = gid -> sender h = s /\ reassigned_to h = Some x).
Proof.
  intros Hr Hs. induction Hs as [d _|d1 d2 d3 Hp Hst Hs IH]; intro Hrows; [auto|].
  apply IH; [exact (reachable_step _ _ Hr Hst)|].
  apply in_map_iff in Hp as (h0 & Hid0 & Hh0).
  destruct (Hrows h0 Hh0 Hid0) as [Hs0 Hx0].
  intros h Hh Hid. rewrite <- Hid0 in Hid.
  destruct (reassigned_gift_step d1 d2 h0 Hr Hst Hh0 ltac:(congruence) h Hh Hid) as [E1 E2].
  split; congruence.
Qed.

Lemma reassigned_gift_reassign db h v em :
  NoDup (map gift_id (gifts db)) -> In h (gifts db) -> reassigned_to h <> None ->
  reassign_gift v (gift_id h) em db =
    (db, Ok (if Nat.eqb (sender h) (user_id v) && String.eqb (gift_status h) "pending"
             then resp 400 "Gift has already been reassigned"
             else resp 404 "Gift not found or cannot be reassigned")).
Proof.
  intros Hnd Hh Hra. unfold reassign_gift. mred.
  destruct (first (filter _ (gifts db))) as [x|] eqn:Hx.
  - pose proof (first_filter_some _ _ _ Hx) as Hxb.
    assert (Hxin : In x (gifts db)) by (apply first_in in Hx; apply filter_In in Hx; tauto).
    apply andb_true_iff in Hxb as [Hxb Hxp]. apply andb_true_iff in Hxb as [Hxid Hxs].
    apply Nat.eqb_eq in Hxid.
    rewrite (nodup_map_inj gift_id _ _ _ Hnd Hxin Hh Hxid) in Hxs, Hxp |- *.
    rewrite Hxs, Hxp. cbn [andb].
    destruct (reassigned_to h); [reflexivity|contradiction].
  - destruct (Nat.eqb (sender h) (user_id v) && String.eqb (gift_status h) "pending") eqn:Ec;
      [|reflexivity].
    exfalso. destruct (filter _ (gifts db)) as [|y l] eqn:Hf; [|discriminate Hx].
    assert (Hin : In h (filter (fun g => Nat.eqb (gift_id g) (gift_id h)
                                         && Nat.eqb (sender g) (user_id v)
                                         && String.eqb (gift_status g) "pending") (gifts db))).
    { apply filter_In. split; [exact Hh|]. rewrite Nat.eqb_refl. exact Ec. }
    rewrite Hf in Hin. destruct Hin.
Qed.

(** Once a gift is no longer pending (accepted, declined or expired), no
    operation changes its row again: [GiftDecisionView],
    [ReassignGiftView] and [ExpireOldGiftsView] only write gifts they found
    pending, and keys are unique in every reachable store. The row can
    only disappear, with its listing. *)
Theorem settled_gift_never_changes db db' :
  reachable db -> step db db' ->
  forall h, In h (gifts db) -> gift_status h <> "pending" ->
  forall h', In h' (gifts db') -> gift_id h' = gift_id h -> h' = h.
Proof. intros Hr Hs h. exact (settled_gift_step db db' h Hr Hs). Qed.

Lemma settled_gift_never_changes_witness :
  let db0 := mkDB [sender_efe; friend_funmi] [ikoyi_flat] [] [] [] [] [] in
  let db1 := fst (gift_perform_create sender_efe (mkGiftData ikoyi_flat "funmi@mail.ng" None false)
                    0 db0) in
  let db2 := fst (gift_decision friend_funmi 1 "accept" db1) in
  let db3 := fst (expire_old_gifts (8 * seconds_per_day) db2) in
  let h := mkGift 1 5 "funmi@mail.ng" (Some 6%nat) 2 "accepted" (Some 604800%Z) None false in
  (reachable db2 /\ step db2 db3 /\ In h (gifts db2) /\ gift_status h <> "pending" /\
   In h (gifts db3) /\ gift_id h = gift_id h) /\ h = h.
Proof.
  intros db0 db1 db2 db3 h.
  assert (Hr : reachable db2).
  { exists db0. split; [repeat split|].
    eapply steps_step; [apply step_gift_create|].
    eapply steps_step; [apply step_gift_decision|apply steps_refl]. }
  assert (Hs : step db2 db3) by apply step_expire_gifts.
  assert (H2 : In h (gifts db2)) by (vm_compute; left; reflexivity).
  assert (Hp : gift_status h <> "pending") by discriminate.
  assert (H3 : In h (gifts db3)) by (vm_compute; left; reflexivity).
  split; [repeat split; assumption|].
  exact (settled_gift_never_changes db2 db3 Hr Hs h H2 Hp h H3 eq_refl).
Defined.

(** ** Deciding on a gift *)

(** A successful [GiftDecisionView] request is made by the gift's
    recipient on a pending gift; it changes that gift's status to
    'accepted' or 'declined' and nothing else in the store (no booking,
    credit or ownership follows from accepting). In every later store, for
    as long as the gift's key stays in the table (it leaves only with its
    listing), the decided row is still there and any further decision on
    that gift, by anyone and with any action, is refused with 400 and
    changes nothing. *)
Theorem gift_decision_once u gid action db db1 r :
  reachable db ->
  gift_decision u gid action db = (db1, Ok r) -> status_code r = 200%nat ->
  exists g s,
    In g (gifts db) /\ gift_id g = gid /\ recipient_user g = Some (user_id u) /\
    gift_status g = "pending" /\
    ((action = "accept" /\ s = "accepted") \/ (action = "decline" /\ s = "declined")) /\
    db1 = set_gifts (replace_gift (gift_set_status g s) (gifts db)) db /\
    forall db2, steps_while (fun d => In gid (map gift_id (gifts d))) db1 db2 ->
      In (gift_set_status g s) (gifts db2) /\
      forall u' action',
        gift_decision u' gid action' db2 =
          (db2, Ok (resp 400 "Gift not found or already handled")).
Proof.
  intros Hr0 H Hr.
  assert (Hr1 : reachable db1).
  { replace db1 with (fst (gift_decision u gid action db)) by (now rewrite H).
    apply (reachable_step db); [exact Hr0|apply step_gift_decision]. }
  unfold gift_decision in H. mred_in H.
  destruct (first (filter _ (gifts db))) as [g|] eqn:Hg; [|injection H as _ <-; discriminate Hr].
  pose proof (first_filter_some _ _ _ Hg) as Hgb.
  apply andb_true_iff in Hgb as [Hid Hrec]. apply Nat.eqb_eq in Hid.
  assert (Hin : In g (gifts db)) by (apply first_in in Hg; apply filter_In in Hg; tauto).
  assert (Hrec' : recipient_user g = Some (user_id u)).
  { destruct (recipient_user g); [|discriminate Hrec]. cbn in Hrec.
    apply Nat.eqb_eq in Hrec. now subst. }
  destruct (String.eqb (gift_status g) "pending") eqn:Hp; cbn [negb] in H;
    [|injection H as _ <-; discriminate Hr].
  apply String.eqb_eq in Hp.
  assert (Hs : exists s, ((action = "accept" /\ s = "accepted") \/
                          (action = "decline" /\ s = "declined")) /\
                         db1 = set_gifts (replace_gift (gift_set_status g s) (gifts db)) db).
  { unfold save_gift in H. mred_in H.
    destruct (String.eqb action "accept") eqn:Ea.
    - apply String.eqb_eq in Ea. injection H as <- _. exists "accepted". split; [now left|reflexivity].
    - destruct (String.eqb action "decline") eqn:Ed; [|injection H as _ <-; discriminate Hr].
      apply String.eqb_eq in Ed. injection H as <- _. exists "declined". split; [now right|reflexivity]. }
  destruct Hs as (s & Hact & ->).
  exists g, s. split; [exact Hin|]. split; [exact Hid|]. split; [exact Hrec'|].
  split; [exact Hp|]. split; [exact Hact|]. split; [reflexivity|].
  intros db2 Hs. subst gid.
  assert (Hnp : gift_status (gift_set_status g s) <> "pending")
    by (cbn; destruct Hact as [[_ ->]|[_ ->]]; discriminate).
  assert (Hin1 : In (gift_set_status g s)
                   (gifts (set_gifts (replace_gift (gift_set_status g s) (gifts db)) db))).
  { cbn [gifts set_gifts]. unfold replace_gift. apply in_map_iff.
    exists g. split; [|exact Hin]. cbn [gift_id gift_set_status]. now rewrite Nat.eqb_refl. }
  destruct (settled_gift_run _ db2 (gift_set_status g s) Hr1 Hs Hin1 Hnp) as [Hr2 Hin2].
  split; [exact Hin2|].
  intros u' action'.
  exact (settled_gift_decision db2 (gift_set_status g s) u' action'
           (reachable_gift_keys _ Hr2) Hin2 Hnp).
Qed.

Lemma gift_decision_once_witness :
  let u := friend_funmi in
  let db0 := mkDB [sender_efe; friend_funmi] [ikoyi_flat] [] [] [] [] [] in
  let db := fst (gift_perform_create sender_efe (mkGiftData ikoyi_flat "funmi@mail.ng" None false)
                   0 db0) in
  (reachable db /\
   gift_decision u 1 "accept" db = (fst (gift_decision u 1 "accept" db), Ok (resp 200 "Gift accepted.")) /\
   status_code (resp 200 "Gift accepted.") = 200%nat) /\
  exists g s,
    In g (gifts db) /\ gift_id g = 1%nat /\ recipient_user g = Some (user_id u) /\
    gift_status g = "pending" /\
    (("accept" = "accept" /\ s = "accepted") \/ ("accept" = "decline" /\ s = "declined")) /\
    fst (gift_decision u 1 "accept" db) = set_gifts (replace_gift (gift_set_status g s) (gifts db)) db /\
    forall db2, steps_while (fun d => In 1%nat (map gift_id (gifts d)))
                            (fst (gift_decision u 1 "accept" db)) db2 ->
      In (gift_set_status g s) (gifts db2) /\
      forall u' action',
        gift_decision u' 1 action' db2 =
          (db2, Ok (resp 400 "Gift not found or already handled")).
Proof.
  intros u db0 db.
  assert (Hr : reachable db).
  { exists db0. split; [repeat split|].
    eapply steps_step; [apply step_gift_create|apply steps_refl]. }
  assert (H : gift_decision u 1 "accept" db =
              (fst (gift_decision u 1 "accept" db), Ok (resp 200 "Gift accepted.")))
    by (vm_compute; reflexivity).
  split; [split; [exact Hr|split; [exact H|reflexivity]]|].
  exact (gift_decision_once u 1 "accept" db _ _ Hr H eq_refl).
Defined.

(** ** Gifts created with [reassigned_to] already set *)

(** [reassigned_to] is a writable field of [GiftSerializer]. A gift that
    [GiftCreateView] stores with [reassigned_to] set is pending, linked to
    the first registered user with the recipient email, and can never be
    reassigned: in every later store, for as long as the gift's key stays
    in the table (it leaves only with its listing), its row keeps its
    sender and [reassigned_to], and [ReassignGiftView] by any user changes
    nothing, answering 400 "already reassigned" to the sender while the
    gift is pending and 404 otherwise. *)
Theorem gift_created_reassigned_blocks_reassign u gd now db db1 x :
  reachable db ->
  gd_reassigned_to gd = Some x ->
  gift_perform_create u gd now db = (db1, Ok tt) ->
  exists g,
    gifts db1 = g :: gifts db /\ gift_status g = "pending" /\ sender g = user_id u /\
    reassigned_to g = Some x /\
    recipient_user g = option_map user_id
      (first (filter (fun v => opt_str_eqb (Some (email v)) (Some (gd_recipient_email gd)))
                     (users db))) /\
    forall db2, steps_while (fun d => In (gift_id g) (map gift_id (gifts d))) db1 db2 ->
      exists h,
        In h (gifts db2) /\ gift_id h = gift_id g /\ sender h = user_id u /\
        reassigned_to h = Some x /\
        forall v em, reassign_gift v (gift_id g) em db2 =
          (db2, Ok (if Nat.eqb (user_id u) (user_id v) && String.eqb (gift_status h) "pending"
                    then resp 400 "Gift has already been reassigned"
                    else resp 404 "Gift not found or cannot be reassigned")).
Proof.
  intros Hr Hx H.
  assert (Hr1 : reachable db1).
  { replace db1 with (fst (gift_perform_create u gd now db)) by (now rewrite H).
    apply (reachable_step db); [exact Hr|apply step_gift_create]. }
  unfold gift_perform_create in H.
  destruct (is_approved (gd_property gd)); cbn [negb] in H; [|discriminate H].
  unfold find_user_by_email, create_gift in H. mred_in H. injection H as <-.
  eexists. split; [reflexivity|]. split; [reflexivity|]. split; [reflexivity|].
  split; [exact Hx|]. split; [reflexivity|].
  intros db2 Hs.
  destruct (reassigned_gift_run _ db2 _ (user_id u) x Hr1 Hs) as [Hr2 Hrows].
  { intros h Hh Hid. cbn [gifts set_gifts] in Hh. destruct Hh as [<-|Hh]; [split; [reflexivity|exact Hx]|].
    exfalso. apply (next_id_fresh (map gift_id (gifts db))). change (gift_id h = next_id (map gift_id (gifts db))) in Hid.
    rewrite <- Hid. now apply in_map. }
  apply steps_while_last in Hs. apply in_map_iff in Hs as (h & Hid & Hh).
  destruct (Hrows h Hh Hid) as [Hsh Hxh].
  exists h. split; [exact Hh|]. split; [exact Hid|]. split; [exact Hsh|]. split; [exact Hxh|].
  intros v em.
  pose proof (reassigned_gift_reassign db2 h v em (reachable_gift_keys _ Hr2) Hh
                ltac:(congruence)) as E.
  rewrite Hid, Hsh in E. exact E.
Qed.

Lemma gift_created_reassigned_blocks_reassign_witness :
  let gd := mkGiftData ikoyi_flat "funmi@mail.ng" (Some 6%nat) false in
  let db := mkDB [sender_efe; friend_funmi] [ikoyi_flat] [] [] [] [] [] in
  (reachable db /\ gd_reassigned_to gd = Some 6%nat /\
   gift_perform_create sender_efe gd 0 db = (fst (gift_perform_create sender_efe gd 0 db), Ok tt)) /\
  exists g,
    gifts (fst (gift_perform_create sender_efe gd 0 db)) = g :: gifts db /\
    gift_status g = "pending" /\ sender g = user_id sender_efe /\
    reassigned_to g = Some 6%nat /\
    recipient_user g = option_map user_id
      (first (filter (fun v => opt_str_eqb (Some (email v)) (Some (gd_recipient_email gd)))
                     (users db))) /\
    forall db2, steps_while (fun d => In (gift_id g) (map gift_id (gifts d)))
                            (fst (gift_perform_create sender_efe gd 0 db)) db2 ->
      exists h,
        In h (gifts db2) /\ gift_id h = gift_id g /\ sender h = user_id sender_efe /\
        reassigned_to h = Some 6%nat /\
        forall v em, reassign_gift v (gift_id g) em db2 =
          (db2, Ok (if Nat.eqb (user_id sender_efe) (user_id v)
                       && String.eqb (gift_status h) "pending"
                    then resp 400 "Gift has already been reassigned"
                    else resp 404 "Gift not found or cannot be reassigned")).
Proof.
  intros gd db.
  assert (Hr : reachable db) by (exists db; split; [repeat split|apply steps_refl]).
  assert (H : gift_perform_create sender_efe gd 0 db =
              (fst (gift_perform_create sender_efe gd 0 db), Ok tt)) by (vm_compute; reflexivity).
  split; [split; [exact Hr|split; [reflexivity|exact H]]|].
  exact (gift_created_reassigned_blocks_reassign sender_efe gd 0 db _ 6 Hr eq_refl H).
Defined.

(** ** Payment reconciliation and the users' credit *)

Lemma map_replace_user_same {B} (f : User -> B) v v' l :
  NoDup (map user_id l) -> In v l -> user_id v' = user_id v -> f v' = f v ->
  map f (replace_user v' l) = map f l.
Proof.
  intros Hnd Hin Hid Hf. unfold replace_user. rewrite map_map.
  apply map_ext_in. intros r Hr.
  destruct (Nat.eqb (user_id r) (user_id v')) eqn:E; [|reflexivity].
  apply Nat.eqb_eq in E. rewrite Hid in E.
  rewrite (nodup_map_inj user_id l r v Hnd Hr Hin E). exact Hf.
Qed.

Lemma webhook_investment_part_users tx now db :
  users (fst (webhook_investment_part tx now db)) = users db \/
  exists i v,
    In i (investments db) /\ opt_str_eqb (investment_tx_ref i) tx = true /\
    Qlt_bool (amount_paid i) (investment_total_price i) = true /\
    In v (users db) /\ user_id v = investor i /\
    users (fst (webhook_investment_part tx now db)) =
      replace_user (user_set_verified
        (user_set_membership v "Platinum" (now + 365 * seconds_per_day)) true) (users db).
Proof.
  rewrite webhook_investment_part_eq.
  destruct (filter _ (investments db)) as [|i [|i' l]] eqn:Hi; [now left| |now left].
  destruct (Qlt_bool _ _) eqn:Hq; [|now left].
  destruct (filter _ (users db)) as [|v [|v' l]] eqn:Hf; [now left| |now left].
  right. exists i, v.
  destruct (filter_single_in _ _ _ Hi) as [Hin Hib].
  destruct (filter_single_in _ _ _ Hf) as [Hv Hvb]. apply Nat.eqb_eq in Hvb.
  repeat split; assumption.
Qed.

(** [FlutterwaveWebhookView] never changes any user's key, email, role or
    shortlet credit (user keys being unique). The users table is either
    left as it is or, when the event settles an investment (the one row
    with the event's reference, not yet fully paid), the investor's row is
    replaced by the same user made verified with Platinum membership until
    [now] + 365 days (unlike a completing top-up, which also sets the
    credit to 0). *)
Theorem webhook_keeps_credit ev tx st now db :
  NoDup (map user_id (users db)) ->
  map (fun u => (user_id u, email u, role u, shortlet_credit u))
      (users (fst (flutterwave_webhook ev tx st now db))) =
  map (fun u => (user_id u, email u, role u, shortlet_credit u)) (users db) /\
  (users (fst (flutterwave_webhook ev tx st now db)) = users db \/
   exists i v,
     In i (investments db) /\ opt_str_eqb (investment_tx_ref i) tx = true /\
     Qlt_bool (amount_paid i) (investment_total_price i) = true /\
     In v (users db) /\ user_id v = investor i /\
     users (fst (flutterwave_webhook ev tx st now db)) =
       replace_user (user_set_verified
         (user_set_membership v "Platinum" (now + 365 * seconds_per_day)) true) (users db)).
Proof.
  intro Hnd.
  assert (Hinv : users (fst (webhook_investment_part tx now db)) = users db \/
   exists i v,
     In i (investments db) /\ opt_str_eqb (investment_tx_ref i) tx = true /\
     Qlt_bool (amount_paid i) (investment_total_price i) = true /\
     In v (users db) /\ user_id v = investor i /\
     users (fst (webhook_investment_part tx now db)) =
       replace_user (user_set_verified
         (user_set_membership v "Platinum" (now + 365 * seconds_per_day)) true) (users db))
    by apply webhook_investment_part_users.
  assert (Hkeep : forall us, (us = users db \/
   exists i v,
     In i (investments db) /\ opt_str_eqb (investment_tx_ref i) tx = true /\
     Qlt_bool (amount_paid i) (investment_total_price i) = true /\
     In v (users db) /\ user_id v = investor i /\
     us = replace_user (user_set_verified
         (user_set_membership v "Platinum" (now + 365 * seconds_per_day)) true) (users db)) ->
    map (fun u => (user_id u, email u, role u, shortlet_credit u)) us =
    map (fun u => (user_id u, email u, role u, shortlet_credit u)) (users db)).
  { intros us [->|(i & v & _ & _ & _ & Hv & _ & ->)]; [reflexivity|].
    apply (map_replace_user_same _ v); [exact Hnd|exact Hv|reflexivity|reflexivity]. }
  cut (users (fst (flutterwave_webhook ev tx st now db)) = users db \/
   exists i v,
     In i (investments db) /\ opt_str_eqb (investment_tx_ref i) tx = true /\
     Qlt_bool (amount_paid i) (investment_total_price i) = true /\
     In v (users db) /\ user_id v = investor i /\
     users (fst (flutterwave_webhook ev tx st now db)) =
       replace_user (user_set_verified
         (user_set_membership v "Platinum" (now + 365 * seconds_per_day)) true) (users db)).
  { intro H. split; [exact (Hkeep _ H)|exact H]. }
  destruct (opt_str_eqb ev (Some "charge.completed")) eqn:He;
    [|unfold flutterwave_webhook; rewrite He; now left].
  destruct (opt_str_eqb st (Some "successful")) eqn:Hs;
    [|unfold flutterwave_webhook; rewrite He, Hs; now left].
  rewrite (webhook_matched_eq ev tx st now db He Hs).
  destruct (filter _ (bookings db)) as [|b [|b' l]]; [exact Hinv| |now left].
  destruct (is_paid b); [exact Hinv|now left].
Qed.

Lemma webhook_keeps_credit_witness :
  NoDup (map user_id (users store_installment)) /\
  map (fun u => (user_id u, email u, role u, shortlet_credit u))
      (users (fst (flutterwave_webhook (Some "charge.completed") (Some "TobiInvest-91c2")
                     (Some "successful") 0 store_installment))) =
  map (fun u => (user_id u, email u, role u, shortlet_credit u)) (users store_installment) /\
  (users (fst (flutterwave_webhook (Some "charge.completed") (Some "TobiInvest-91c2")
                 (Some "successful") 0 store_installment)) = users store_installment \/
   exists i v,
     In i (investments store_installment) /\
     opt_str_eqb (investment_tx_ref i) (Some "TobiInvest-91c2") = true /\
     Qlt_bool (amount_paid i) (investment_total_price i) = true /\
     In v (users store_installment) /\ user_id v = investor i /\
     users (fst (flutterwave_webhook (Some "charge.completed") (Some "TobiInvest-91c2")
                   (Some "successful") 0 store_installment)) =
       replace_user (user_set_verified
         (user_set_membership v "Platinum" (0 + 365 * seconds_per_day)) true)
         (users store_installment)).
Proof.
  assert (H : NoDup (map user_id (users store_installment)))
    by (vm_compute; constructor; [intros [H|[]]; discriminate H|constructor; [intros []|constructor]]).
  split; [exact H|]. exact (webhook_keeps_credit _ _ _ _ _ H).
Defined.
